(** * Competitor monitor: approval gate, baseline store, drift classifier,
      orchestrator and report compiler

    A shallow embedding of the Python modules [approval_handler],
    [historical_retriever], [semantic_diff], [error_handler],
    [report_generator] and [integration], followed by the properties the
    specification states about them.

    Conventions of the embedding.
    - Python dictionaries are finite maps from strings to Python values
      ([gmap string pyval]); [d.get(k, default)] is [py_get].
    - Objects that are shared and mutated (approval requests) live in a heap
      and are named by their address; the handler's three lists hold
      addresses, so a request mutated through one alias is seen through all.
    - [datetime.now()] is a clock oracle: the [k]-th call made by the program
      returns [now k]; the world state counts the calls.
    - Python floats are idealised as exact rationals ([round] rounds the
      exact value, ties to even); the textual [repr] of a float is left to
      the environment.
    - Strings are byte strings, the UTF-8 encoding of the Python [str]; the
      digit class [\d] decodes the characters it looks at, [str.strip] is
      restricted to ASCII white space.
    - Exceptions are values: a call that may raise returns an [outcome], and
      the [try]/[except Exception] of [process_competitor] is the match on
      it; an exception that no handler catches is the [Raise] that
      [run_workflow] returns.  The collaborators that the specification
      leaves outside (browser, embedding model, file system) are functions of
      the environment.
    - Library behaviour that depends on the platform is that of CPython 3.11
      on Linux with glibc: [strftime('%Y')] does not pad the year, text files
      are written as given and read with universal newlines. *)

From Stdlib Require Import Ascii String ZArith QArith Qabs Lia Lqa.
From stdpp Require Import gmap strings list pretty lexico sorting.

Open Scope string_scope.
Open Scope Z_scope.
Open Scope list_scope.

(** ** Python values and dictionaries *)

Module Py.

Inductive pyval :=
| VNone
| VBool (b : bool)
| VInt (z : Z)
| VFloat (q : Q)
| VStr (s : string).

#[global] Instance Q_eq_dec : EqDecision Q.
Proof. solve_decision. Defined.

#[global] Instance pyval_eq_dec : EqDecision pyval.
Proof. solve_decision. Defined.

(** [d.get(k, default)] *)
Definition py_get (d : gmap string pyval) (k : string) (dflt : pyval) : pyval :=
  default dflt (d !! k).

(** Truth value of an object, as tested by [if x:] and [not x]. *)
Definition py_truthy (v : pyval) : bool :=
  match v with
  | VNone => false
  | VBool b => b
  | VInt z => negb (z =? 0)
  | VFloat q => negb (Qeq_bool q 0)
  | VStr s => negb (String.eqb s "")
  end.

(** [str(v)], which is what an f-string placeholder [{v}] inserts.  The
    [repr] of a float is a parameter. *)
Definition py_str (float_repr : Q -> string) (v : pyval) : string :=
  match v with
  | VNone => "None"
  | VBool true => "True"
  | VBool false => "False"
  | VInt z => pretty z
  | VFloat q => float_repr q
  | VStr s => s
  end.

(** [x or y] *)
Definition py_or (x y : pyval) : pyval := if py_truthy x then x else y.

(** The number a boolean, integer or float stands for in a comparison. *)
Definition num_value (v : pyval) : option Q :=
  match v with
  | VBool b => Some (if b then 1%Q else 0%Q)
  | VInt z => Some (inject_Z z)
  | VFloat q => Some q
  | _ => None
  end.

(** [a == b] on these values: strings by content, [None] only with itself,
    numbers (booleans included) by value. *)
Definition py_eq (a b : pyval) : bool :=
  match a, b with
  | VNone, VNone => true
  | VStr s, VStr t => String.eqb s t
  | _, _ =>
      match num_value a, num_value b with
      | Some x, Some y => Qeq_bool x y
      | _, _ => false
      end
  end.

(** [sep.join(parts)] *)
Fixpoint join (sep : string) (parts : list string) : string :=
  match parts with
  | [] => ""
  | [p] => p
  | p :: rest => p +:+ sep +:+ join sep rest
  end.

(** [s.startswith(p)] *)
Definition startswith (s p : string) : bool := String.prefix p s.

(** [s.endswith(p)] *)
Definition endswith (s p : string) : bool :=
  String.prefix (String.rev p) (String.rev s).

(** [needle in s] *)
Fixpoint contains (s needle : string) : bool :=
  String.prefix needle s
  || match s with
     | String _ rest => contains rest needle
     | EmptyString => false
     end.

(** [s[:n]] *)
Definition take_chars (n : nat) (s : string) : string := String.substring 0 n s.

(** The characters [str.strip()] removes, restricted to ASCII. *)
Definition is_whitespace (c : Ascii.ascii) : bool :=
  let n := Ascii.nat_of_ascii c in
  ((9 <=? n) && (n <=? 13) || (28 <=? n) && (n <=? 32))%nat.

Fixpoint lstrip (s : string) : string :=
  match s with
  | String c rest => if is_whitespace c then lstrip rest else s
  | EmptyString => EmptyString
  end.

Definition rstrip (s : string) : string := String.rev (lstrip (String.rev s)).

(** [s.strip()] *)
Definition strip (s : string) : string := rstrip (lstrip s).

(** [s.split('\n')], with the current line accumulated in reverse. *)
Fixpoint split_lines_go (cur : string) (s : string) : list string :=
  match s with
  | EmptyString => [String.rev cur]
  | String c rest =>
      if Ascii.eqb c "010"%char
      then String.rev cur :: split_lines_go "" rest
      else split_lines_go (String c cur) rest
  end.

Definition split_lines (s : string) : list string := split_lines_go "" s.

Definition newline : string := String "010"%char EmptyString.

(** An ASCII decimal digit, the class [[0-9]]. *)
Definition is_digit (c : Ascii.ascii) : bool :=
  let n := Ascii.nat_of_ascii c in ((48 <=? n) && (n <=? 57))%nat.

Definition digit_value (c : Ascii.ascii) : Z := Z.of_nat (Ascii.nat_of_ascii c) - 48.

(** The value of a byte. *)
Definition byte_value (c : Ascii.ascii) : Z := Z.of_nat (Ascii.nat_of_ascii c).

(** The six payload bits of a UTF-8 continuation byte. *)
Definition utf8_continuation (s : string) : option (Z * string) :=
  match s with
  | String c rest =>
      let n := byte_value c in
      if (128 <=? n) && (n <? 192) then Some (n - 128, rest) else None
  | EmptyString => None
  end.

(** The character at the head of a text: its code point and the rest of the
    text.  [None] at the end of the text and on bytes that are not
    well-formed UTF-8 (overlong forms and surrogates included); Python keeps
    such bytes of a file name as lone surrogates, which are in none of the
    character classes used here. *)
Definition utf8_decode (s : string) : option (Z * string) :=
  match s with
  | EmptyString => None
  | String c rest =>
      let n := byte_value c in
      if n <? 128 then Some (n, rest)
      else if (192 <=? n) && (n <? 224) then
        '(a, rest) ← utf8_continuation rest;
        let cp := (n - 192) * 64 + a in
        if 128 <=? cp then Some (cp, rest) else None
      else if (224 <=? n) && (n <? 240) then
        '(a, rest) ← utf8_continuation rest;
        '(b, rest) ← utf8_continuation rest;
        let cp := ((n - 224) * 64 + a) * 64 + b in
        if (2048 <=? cp) && negb ((55296 <=? cp) && (cp <? 57344))
        then Some (cp, rest) else None
      else if (240 <=? n) && (n <? 248) then
        '(a, rest) ← utf8_continuation rest;
        '(b, rest) ← utf8_continuation rest;
        '(c, rest) ← utf8_continuation rest;
        let cp := (((n - 240) * 64 + a) * 64 + b) * 64 + c in
        if (65536 <=? cp) && (cp <? 1114112) then Some (cp, rest) else None
      else None
  end.

(** The code point of the digit zero of every script that has decimal digits
    (general category Nd of Unicode 14.0, the version of CPython 3.11); the
    ten digits of a script follow each other from its zero. *)
Definition decimal_zeros : list Z :=
  [48; 1632; 1776; 1984; 2406; 2534; 2662; 2790; 2918; 3046; 3174; 3302; 3430;
   3558; 3664; 3792; 3872; 4160; 4240; 6112; 6160; 6470; 6608; 6784; 6800;
   6992; 7088; 7232; 7248; 42528; 43216; 43264; 43472; 43504; 43600; 44016;
   65296; 66720; 68912; 69734; 69872; 69942; 70096; 70384; 70736; 70864;
   71248; 71360; 71472; 71904; 72016; 72784; 73040; 73120; 92768; 92864;
   93008; 120782; 120792; 120802; 120812; 120822; 123200; 123632; 125264;
   130032].

(** The class [\d] of a [str] pattern at the head of a text: any decimal
    digit of any script.  The answer is the value of the digit, which is what
    [int] makes of it, and the rest of the text. *)
Definition decimal_digit (s : string) : option (Z * string) :=
  '(cp, rest) ← utf8_decode s;
  zero ← List.find (fun z => (z <=? cp) && (cp <? z + 10)) decimal_zeros;
  Some (cp - zero, rest).

(** A class [[lo-hi]] of ASCII digits at the head of a text. *)
Definition digit_between (lo hi : Z) (s : string) : option (Z * string) :=
  match s with
  | String c rest =>
      if is_digit c && (lo <=? digit_value c) && (digit_value c <=? hi)
      then Some (digit_value c, rest) else None
  | EmptyString => None
  end.

(** A literal character of a pattern at the head of a text. *)
Definition literal (c : Ascii.ascii) (s : string) : option string :=
  match s with
  | String c' rest => if Ascii.eqb c' c then Some rest else None
  | EmptyString => None
  end.

(** [\d{n}]: the number that [n] decimal digits at the head of a text
    write, after the digits [acc] read so far. *)
Fixpoint decimal_digits (n : nat) (acc : Z) (s : string) : option (Z * string) :=
  match n with
  | O => Some (acc, s)
  | S n =>
      '(d, rest) ← decimal_digit s;
      decimal_digits n (acc * 10 + d) rest
  end.

(** Translation of line ends by a text file opened for reading with
    universal newlines: [\r\n] and a lone [\r] are read as [\n]. *)
Fixpoint universal_newlines (s : string) : string :=
  match s with
  | EmptyString => EmptyString
  | String c rest =>
      if Ascii.eqb c "013"%char then
        match rest with
        | String c' rest' =>
            if Ascii.eqb c' "010"%char
            then String "010"%char (universal_newlines rest')
            else String "010"%char (universal_newlines rest)
        | EmptyString => String "010"%char EmptyString
        end
      else String c (universal_newlines rest)
  end.

(** [format(n, '0{w}d')] for a non-negative [n]: left padding with zeros. *)
Fixpoint zfill_go (missing : nat) (s : string) : string :=
  match missing with
  | O => s
  | S m => "0" +:+ zfill_go m s
  end.

Definition zfill (w : nat) (n : Z) : string :=
  let s := pretty n in zfill_go (w - String.length s) s.

End Py.

Export Py.

Abbreviation dict := (gmap string pyval).

(** ** Naive datetimes, after CPython's [datetime] *)

Module Datetime.

Record datetime := mk_datetime {
  year : Z;
  month : Z;
  day : Z;
  hour : Z;
  minute : Z;
  second : Z;
  microsecond : Z
}.

#[global] Instance datetime_eq_dec : EqDecision datetime.
Proof. solve_decision. Defined.

(** The tuple that datetime comparison inspects. *)
Definition fields (t : datetime) : list Z :=
  [year t; month t; day t; hour t; minute t; second t; microsecond t].

(** [a < b] on datetimes: lexicographic order on the field tuples. *)
Definition datetime_lt (a b : datetime) : Prop := lexico (fields a) (fields b).

Definition datetime_ltb (a b : datetime) : bool :=
  match trichotomyT lexico (fields a) (fields b) with
  | inleft (left _) => true
  | _ => false
  end.

(** [a <= b] *)
Definition datetime_le (a b : datetime) : Prop := datetime_lt a b \/ a = b.

Definition is_leap (y : Z) : bool :=
  (y mod 4 =? 0) && (negb (y mod 100 =? 0) || (y mod 400 =? 0)).

Definition days_in_month (y m : Z) : Z :=
  if m =? 2 then (if is_leap y then 29 else 28)
  else if (m =? 4) || (m =? 6) || (m =? 9) || (m =? 11) then 30
  else 31.

Definition days_before_year (y : Z) : Z :=
  let p := y - 1 in p * 365 + p / 4 - p / 100 + p / 400.

Definition days_before_month (y m : Z) : Z :=
  fold_left (fun acc k => acc + days_in_month y k)
            (map Z.of_nat (seq 1 (Z.to_nat (m - 1)))) 0.

(** Proleptic Gregorian ordinal of a calendar day ([date.toordinal]). *)
Definition ymd2ord (y m d : Z) : Z :=
  days_before_year y + days_before_month y m + d.

(** Position of a datetime on the time line, in microseconds. *)
Definition to_microseconds (t : datetime) : Z :=
  (((ymd2ord (year t) (month t) (day t) * 24 + hour t) * 60 + minute t) * 60
   + second t) * 1000000 + microsecond t.

(** [(a - b).total_seconds()], scaled to microseconds. *)
Definition elapsed_microseconds (a b : datetime) : Z :=
  to_microseconds a - to_microseconds b.

(** [t.strftime('%Y-%m-%d')].  The C library writes [%Y] without padding, so
    a year before 1000 has fewer than four digits; month and day are padded
    to two. *)
Definition strftime_ymd (t : datetime) : string :=
  pretty (year t) +:+ "-" +:+ zfill 2 (month t) +:+ "-" +:+ zfill 2 (day t).

(** [t.isoformat()], which pads the year to four digits. *)
Definition isoformat (t : datetime) : string :=
  zfill 4 (year t) +:+ "-" +:+ zfill 2 (month t) +:+ "-" +:+ zfill 2 (day t)
  +:+ "T" +:+ zfill 2 (hour t) +:+ ":" +:+ zfill 2 (minute t)
  +:+ ":" +:+ zfill 2 (second t)
  +:+ (if microsecond t =? 0 then "" else "." +:+ zfill 6 (microsecond t)).

(** The first alternative of a pattern that matches at the head of a
    text. *)
Fixpoint first_match {A : Type} (alternatives : list (string -> option A))
    (s : string) : option A :=
  match alternatives with
  | [] => None
  | alt :: rest =>
      match alt s with
      | Some r => Some r
      | None => first_match rest s
      end
  end.

(** The directive [%m] of [strptime], [1[0-2]|0[1-9]|[1-9]]: ASCII digits
    only. *)
Definition month_field : string -> option (Z * string) :=
  first_match
    [ (fun s => '(a, s) ← digit_between 1 1 s; '(b, s) ← digit_between 0 2 s;
                Some (a * 10 + b, s));
      (fun s => '(a, s) ← digit_between 0 0 s; '(b, s) ← digit_between 1 9 s;
                Some (a * 10 + b, s));
      digit_between 1 9 ].

(** The directive [%d] of [strptime],
    [3[0-1]|[1-2]\d|0[1-9]|[1-9]| [1-9]]: the second digit of a day from 10
    to 29 may be of any script. *)
Definition day_field : string -> option (Z * string) :=
  first_match
    [ (fun s => '(a, s) ← digit_between 3 3 s; '(b, s) ← digit_between 0 1 s;
                Some (a * 10 + b, s));
      (fun s => '(a, s) ← digit_between 1 2 s; '(b, s) ← decimal_digit s;
                Some (a * 10 + b, s));
      (fun s => '(a, s) ← digit_between 0 0 s; '(b, s) ← digit_between 1 9 s;
                Some (a * 10 + b, s));
      digit_between 1 9;
      (fun s => s ← literal " " s; digit_between 1 9 s) ].

(** [datetime.strptime(s, '%Y-%m-%d')]; [None] stands for the [ValueError]
    raised when the text does not match the format ([%Y] is [\d\d\d\d], of
    any script), when text remains after the day, or when the year or the day
    is out of range.  Where an alternative of [%m] matches and the rest of
    the format does not, no later alternative makes it match, so the first
    match decides. *)
Definition strptime_ymd (s : string) : option datetime :=
  '(y, s) ← decimal_digits 4 0 s;
  s ← literal "-" s;
  '(m, s) ← month_field s;
  s ← literal "-" s;
  '(d, s) ← day_field s;
  if String.eqb s "" && (1 <=? y) && (d <=? days_in_month y m)
  then Some (mk_datetime y m d 0 0 0 0)
  else None.

End Datetime.

Export Datetime.

(** ** Shared data: approval requests, error records, files, the world *)

(** Result of a call that may raise: a value, or the text of the exception. *)
Inductive outcome (A : Type) :=
| Ok (a : A)
| Raise (msg : string).

Arguments Ok {A} a.
Arguments Raise {A} msg.

(** [approval_handler.ApprovalStatus] *)
Inductive ApprovalStatus := PENDING | APPROVED | REJECTED | EXPIRED.

#[global] Instance ApprovalStatus_eq_dec : EqDecision ApprovalStatus.
Proof. solve_decision. Defined.

(** [ApprovalStatus.value] *)
Definition status_value (s : ApprovalStatus) : string :=
  match s with
  | PENDING => "pending"
  | APPROVED => "approved"
  | REJECTED => "rejected"
  | EXPIRED => "expired"
  end.

(** The attributes of an [approval_handler.ApprovalRequest] object. *)
Record ApprovalRequest := mk_request {
  action_type : string;
  description : string;
  action_data : dict;
  timeout_seconds : Z;
  status : ApprovalStatus;
  requested_at : datetime;
  approved_at : option datetime;
  rejected_at : option datetime;
  approver : option string
}.

(** The identity of a request object: its address in the heap. *)
Abbreviation ref := nat.

(** An entry of [ErrorHandler.errors]. *)
Record ErrorRecord := mk_error {
  timestamp : string;
  error_type : string;
  message : string;
  competitor_name : pyval;
  context : dict
}.

(** A directory entry of the reports directory; [file_content] is the text
    the file holds as it was written, [None] for a file that cannot be read
    (no permission, bytes that are not UTF-8, a directory). *)
Record file := mk_file {
  file_name : string;
  file_content : option string
}.

(** A document of the expected form that [json.load] returns for
    [competitors.json]: an object whose ["competitors"] entry, when present,
    is a list of objects with scalar values; [other_keys] tells whether the
    object has any other key. *)
Record config := mk_config {
  competitors : option (list dict);
  other_keys : bool
}.

(** The other documents that [json.load] can return, by what [run_workflow]
    does with them.
    - [FalseValue]: a value that is not an object and is false: [null],
      [false], [0], the empty string, the empty list.
    - [NotAnObject err]: a true value that is not an object (a non-empty
      list or string, a number other than zero, [true]); [err] is the text
      of the [AttributeError] that [config.get] raises.
    - [FalseCompetitors]: an object whose ["competitors"] entry is false
      without being a list: [null], [false], [0], the empty string, the
      empty object.
    - [BrokenCompetitors leading err]: an object whose ["competitors"] entry
      is true but not a list of objects.  The loop over it processes the
      objects [leading] that come first and then raises [err]: the
      [TypeError] of a value that cannot be iterated (a number, [true]),
      with no leading object, or the [AttributeError] that
      [competitor.get] raises on an item that is not an object (an item of
      a list, a key of an object, a character of a string). *)
Inductive irregular :=
| FalseValue
| NotAnObject (err : string)
| FalseCompetitors
| BrokenCompetitors (leading : list dict) (err : string).

(** The file [competitors.json]: not there; there but [json.load] raises
    [JSONDecodeError] (with its text); there but [open] or [json.load]
    raises another exception, such as [UnicodeDecodeError] on bytes that are
    not UTF-8 or [PermissionError] (with its text); there and parsed. *)
Inductive config_source :=
| ConfigMissing
| ConfigInvalid (err : string)
| ConfigUnreadable (err : string)
| ConfigParsed (c : config)
| ConfigIrregular (d : irregular).

(** The value [json.load] returns. *)
Inductive document :=
| Regular (c : config)
| Irregular (d : irregular).

(** Everything the program reads or mutates.  [clock_reads] counts the calls
    of [datetime.now()], [heap] holds the request objects, the three request
    lists are the attributes of the [ApprovalHandler], [errors] is
    [ErrorHandler.errors], [reports_dir] lists the reports directory
    ([None]: the directory does not exist) in the order [glob] yields it, and
    [diff_calls] records the arguments of every call of
    [SemanticDiffer.diff_texts]. *)
Record world := mk_world {
  clock_reads : nat;
  heap : list ApprovalRequest;
  pending_requests : list ref;
  approved_requests : list ref;
  rejected_requests : list ref;
  errors : list ErrorRecord;
  reports_dir : option (list file);
  config_file : config_source;
  diff_calls : list (string * string)
}.

(** What the program takes from outside: the clock, the [repr] of floats, the
    browser ([CompetitorBrowser.extract_text_from_url]: a text, [None], or an
    exception), the embedding model with its cosine similarity, and the file
    system.  [mkdir_error] is the exception, if any, that creating the
    reports directory raises; [open_error name] the exception, if any, that
    [open(name, 'w')] raises in an existing reports directory;
    [missing_directory_error name] the exception that it raises when the
    reports directory is not there; [write_error name content] the
    exception, if any, that writing [content] to the opened file or closing
    it raises, together with the text that the file is left with ([open] has
    created or emptied the file by then). *)
Record Env := mk_env {
  now : nat -> datetime;
  float_repr : Q -> string;
  fetch : pyval -> outcome (option string);
  encode : string -> string -> outcome (list Q * list Q);
  cosine_similarity : list Q -> list Q -> outcome Q;
  mkdir_error : option string;
  open_error : string -> option string;
  missing_directory_error : string -> string;
  write_error : string -> string -> option (string * string)
}.

Definition set_clock_reads (n : nat) (w : world) : world :=
  mk_world n (heap w) (pending_requests w) (approved_requests w)
           (rejected_requests w) (errors w) (reports_dir w) (config_file w)
           (diff_calls w).

Definition set_heap (h : list ApprovalRequest) (w : world) : world :=
  mk_world (clock_reads w) h (pending_requests w) (approved_requests w)
           (rejected_requests w) (errors w) (reports_dir w) (config_file w)
           (diff_calls w).

Definition set_pending (l : list ref) (w : world) : world :=
  mk_world (clock_reads w) (heap w) l (approved_requests w)
           (rejected_requests w) (errors w) (reports_dir w) (config_file w)
           (diff_calls w).

Definition set_approved (l : list ref) (w : world) : world :=
  mk_world (clock_reads w) (heap w) (pending_requests w) l
           (rejected_requests w) (errors w) (reports_dir w) (config_file w)
           (diff_calls w).

Definition set_rejected (l : list ref) (w : world) : world :=
  mk_world (clock_reads w) (heap w) (pending_requests w) (approved_requests w)
           l (errors w) (reports_dir w) (config_file w) (diff_calls w).

Definition set_errors (l : list ErrorRecord) (w : world) : world :=
  mk_world (clock_reads w) (heap w) (pending_requests w) (approved_requests w)
           (rejected_requests w) l (reports_dir w) (config_file w)
           (diff_calls w).

Definition set_reports_dir (d : option (list file)) (w : world) : world :=
  mk_world (clock_reads w) (heap w) (pending_requests w) (approved_requests w)
           (rejected_requests w) (errors w) d (config_file w) (diff_calls w).

Definition set_diff_calls (l : list (string * string)) (w : world) : world :=
  mk_world (clock_reads w) (heap w) (pending_requests w) (approved_requests w)
           (rejected_requests w) (errors w) (reports_dir w) (config_file w) l.

(** [datetime.now()] *)
Definition datetime_now (E : Env) (w : world) : datetime * world :=
  (now E (clock_reads w), set_clock_reads (S (clock_reads w)) w).

(** The status attribute of the request at address [r]. *)
Definition status_of (w : world) (r : ref) : option ApprovalStatus :=
  status <$> heap w !! r.

(** In-place update of the request at address [r]. *)
Definition update_request (r : ref) (f : ApprovalRequest -> ApprovalRequest)
    (w : world) : world :=
  match heap w !! r with
  | Some q => set_heap (<[r := f q]> (heap w)) w
  | None => w
  end.

(** Assignments to single attributes of a request: [self.status = s],
    [self.approved_at = t], [self.rejected_at = t], [self.approver = a]. *)
Definition with_status (s : ApprovalStatus) (q : ApprovalRequest) : ApprovalRequest :=
  mk_request (action_type q) (description q) (action_data q) (timeout_seconds q)
             s (requested_at q) (approved_at q) (rejected_at q) (approver q).

Definition with_approved_at (t : datetime) (q : ApprovalRequest) : ApprovalRequest :=
  mk_request (action_type q) (description q) (action_data q) (timeout_seconds q)
             (status q) (requested_at q) (Some t) (rejected_at q) (approver q).

Definition with_rejected_at (t : datetime) (q : ApprovalRequest) : ApprovalRequest :=
  mk_request (action_type q) (description q) (action_data q) (timeout_seconds q)
             (status q) (requested_at q) (approved_at q) (Some t) (approver q).

Definition with_approver (a : string) (q : ApprovalRequest) : ApprovalRequest :=
  mk_request (action_type q) (description q) (action_data q) (timeout_seconds q)
             (status q) (requested_at q) (approved_at q) (rejected_at q) (Some a).

(** ** [approval_handler] *)

Module Approval.

Section WithEnv.

Variable E : Env.

(** [ApprovalRequest.__init__]: the new object enters the heap. *)
Definition new_request (atype descr : string) (data : dict) (timeout : Z)
    (w : world) : ref * world :=
  let '(t, w) := datetime_now E w in
  let q := mk_request atype descr data timeout PENDING t None None None in
  (length (heap w), set_heap (heap w ++ [q]) w).

(** [ApprovalRequest.approve] *)
Definition approve (r : ref) (who : string) (w : world) : bool * world :=
  if decide (status_of w r = Some PENDING) then
    let w := update_request r (with_status APPROVED) w in
    let '(t, w) := datetime_now E w in
    let w := update_request r (with_approved_at t) w in
    let w := update_request r (with_approver who) w in
    (true, w)
  else (false, w).

(** [ApprovalRequest.reject] *)
Definition reject (r : ref) (who : string) (w : world) : bool * world :=
  if decide (status_of w r = Some PENDING) then
    let w := update_request r (with_status REJECTED) w in
    let '(t, w) := datetime_now E w in
    let w := update_request r (with_rejected_at t) w in
    let w := update_request r (with_approver who) w in
    (true, w)
  else (false, w).

(** [ApprovalRequest.is_expired]; the clock is read only for a pending
    request. *)
Definition is_expired (r : ref) (w : world) : bool * world :=
  match heap w !! r with
  | Some q =>
      if decide (status q = PENDING) then
        let '(t, w) := datetime_now E w in
        (timeout_seconds q * 1000000 <? elapsed_microseconds t (requested_at q), w)
      else (false, w)
  | None => (false, w)
  end.

(** [ApprovalHandler.request_terminal_approval] *)
Definition request_terminal_approval (command : string) (w : world) : ref * world :=
  let '(r, w) :=
    new_request "terminal"
      ("Execute terminal command: " +:+ take_chars 50 command +:+ "...")
      {[ "command" := VStr command ]} 300 w in
  (r, set_pending (pending_requests w ++ [r]) w).

(** [ApprovalHandler.request_file_approval] *)
Definition request_file_approval (file_path action : string) (w : world) : ref * world :=
  let '(r, w) :=
    new_request "file" (action +:+ " file: " +:+ file_path)
      (<[ "file_path" := VStr file_path ]> {[ "action" := VStr action ]}) 300 w in
  (r, set_pending (pending_requests w ++ [r]) w).

(** [ApprovalHandler.request_url_approval] *)
Definition request_url_approval (url : pyval) (w : world) : ref * world :=
  let '(r, w) :=
    new_request "url" ("Browse URL: " +:+ py_str (float_repr E) url)
      {[ "url" := url ]} 300 w in
  (r, set_pending (pending_requests w ++ [r]) w).

(** The loop of [get_pending_request] that marks the expired requests. *)
Fixpoint sweep (rs : list ref) (w : world) : world :=
  match rs with
  | [] => w
  | r :: rest =>
      let '(e, w) := is_expired r w in
      let w :=
        if e then
          let w := update_request r (with_status EXPIRED) w in
          set_rejected (rejected_requests w ++ [r]) w
        else w in
      sweep rest w
  end.

(** [ApprovalHandler.get_pending_request] *)
Definition get_pending_request (w : world) : option ref * world :=
  match pending_requests w with
  | [] => (None, w)
  | _ =>
      let w := sweep (pending_requests w) w in
      let w :=
        set_pending
          (filter (fun r => status_of w r = Some PENDING) (pending_requests w)) w in
      (head (pending_requests w), w)
  end.

(** [list.remove(x)]: the first occurrence goes. *)
Fixpoint list_remove (r : ref) (l : list ref) : list ref :=
  match l with
  | [] => []
  | x :: rest => if decide (x = r) then rest else x :: list_remove r rest
  end.

(** [ApprovalHandler.approve_request] *)
Definition approve_request (r : ref) (who : string) (w : world) : bool * world :=
  if decide (r ∈ pending_requests w) then
    let '(ok, w) := approve r who w in
    if ok then
      let w := set_pending (list_remove r (pending_requests w)) w in
      (true, set_approved (approved_requests w ++ [r]) w)
    else (false, w)
  else (false, w).

(** [ApprovalHandler.reject_request] *)
Definition reject_request (r : ref) (who : string) (w : world) : bool * world :=
  if decide (r ∈ pending_requests w) then
    let '(ok, w) := reject r who w in
    if ok then
      let w := set_pending (list_remove r (pending_requests w)) w in
      (true, set_rejected (rejected_requests w ++ [r]) w)
    else (false, w)
  else (false, w).

(** [ApprovalHandler.get_approval_status] *)
Definition get_approval_status (r : ref) (w : world) : option ApprovalStatus :=
  if decide (r ∈ pending_requests w) then status_of w r
  else if decide (r ∈ approved_requests w) then status_of w r
  else if decide (r ∈ rejected_requests w) then status_of w r
  else Some EXPIRED.

(** [ApprovalHandler.get_approved_count] *)
Definition get_approved_count (w : world) : nat := length (approved_requests w).

(** [ApprovalHandler.get_rejected_count] *)
Definition get_rejected_count (w : world) : nat := length (rejected_requests w).

(** [ApprovalHandler.clear_requests] *)
Definition clear_requests (w : world) : world :=
  set_rejected [] (set_approved [] (set_pending [] w)).

(** A call of a method of the handler by its client.  The queries
    ([get_approval_status], [get_all_requests] and the two counts) change
    nothing and are not listed. *)
Inductive handler_call :=
| RequestTerminalApproval (command : string)
| RequestFileApproval (file_path action : string)
| RequestUrlApproval (url : pyval)
| GetPendingRequest
| ApproveRequest (r : ref) (who : string)
| RejectRequest (r : ref) (who : string)
| ClearRequests.

Definition handler_step (c : handler_call) (w : world) : world :=
  match c with
  | RequestTerminalApproval command => snd (request_terminal_approval command w)
  | RequestFileApproval file_path action => snd (request_file_approval file_path action w)
  | RequestUrlApproval url => snd (request_url_approval url w)
  | GetPendingRequest => snd (get_pending_request w)
  | ApproveRequest r who => snd (approve_request r who w)
  | RejectRequest r who => snd (reject_request r who w)
  | ClearRequests => clear_requests w
  end.

(** Any operation of the module: a method of the handler, or a method of a
    request object called directly, or the construction of a request that no
    handler tracks. *)
Inductive call :=
| Handler (c : handler_call)
| DirectApprove (r : ref) (who : string)
| DirectReject (r : ref) (who : string)
| DirectIsExpired (r : ref)
| Construct (atype descr : string) (data : dict) (timeout : Z).

Definition step (c : call) (w : world) : world :=
  match c with
  | Handler c => handler_step c w
  | DirectApprove r who => snd (approve r who w)
  | DirectReject r who => snd (reject r who w)
  | DirectIsExpired r => snd (is_expired r w)
  | Construct atype descr data timeout => snd (new_request atype descr data timeout w)
  end.

(** The world after a sequence of calls. *)
Definition run {C : Type} (f : C -> world -> world) (cs : list C) (w : world) : world :=
  fold_left (fun w c => f c w) cs w.

(** The answers [get_pending_request] gives along a sequence of calls. *)
Fixpoint pending_answers (cs : list call) (w : world) : list (option ref) :=
  match cs with
  | [] => []
  | Handler GetPendingRequest :: rest =>
      fst (get_pending_request w) :: pending_answers rest (snd (get_pending_request w))
  | c :: rest => pending_answers rest (step c w)
  end.

(** A fresh handler in a process that already holds the requests [h] and has
    read the clock [n] times. *)
Definition fresh_handler (n : nat) (h : list ApprovalRequest) (w : world) : world :=
  set_clock_reads n (set_heap h (clear_requests w)).

End WithEnv.

End Approval.

(** ** [error_handler] *)

Module Errors.

Section WithEnv.

Variable E : Env.

(** [ErrorHandler.log_error]; [context or {}] is the empty dictionary when no
    context is given. *)
Definition log_error (etype msg : string) (name : pyval) (ctx : option dict)
    (w : world) : ErrorRecord * world :=
  let '(t, w) := datetime_now E w in
  let error_record := mk_error (isoformat t) etype msg name (default ∅ ctx) in
  (error_record, set_errors (errors w ++ [error_record]) w).

(** [ErrorHandler.log_configuration_error] *)
Definition log_configuration_error (msg : string) (w : world) : ErrorRecord * world :=
  log_error "configuration" msg VNone None w.

(** [ErrorHandler.log_network_error] *)
Definition log_network_error (msg : string) (name : pyval) (w : world) : ErrorRecord * world :=
  log_error "network" msg name None w.

(** [ErrorHandler.log_script_error] *)
Definition log_script_error (msg : string) (name : pyval) (w : world) : ErrorRecord * world :=
  log_error "script" msg name None w.

(** [ErrorHandler.log_report_error] *)
Definition log_report_error (msg : string) (name : pyval) (w : world) : ErrorRecord * world :=
  log_error "report" msg name None w.

End WithEnv.

(** [ErrorHandler.get_errors] *)
Definition get_errors (w : world) : list ErrorRecord := errors w.

(** [ErrorHandler.get_errors_by_type] *)
Definition get_errors_by_type (etype : string) (w : world) : list ErrorRecord :=
  List.filter (fun e => String.eqb (error_type e) etype) (errors w).

(** [ErrorHandler.get_errors_by_competitor] *)
Definition get_errors_by_competitor (name : pyval) (w : world) : list ErrorRecord :=
  List.filter (fun e => py_eq (competitor_name e) name) (errors w).

(** [ErrorHandler.has_errors] *)
Definition has_errors (w : world) : bool := (0 <? length (errors w))%nat.

(** [ErrorHandler.clear_errors] *)
Definition clear_errors (w : world) : world := set_errors [] w.

(** A dictionary of counts, in insertion order, over keys compared by
    [eqb]. *)
Section Counter.

Context {K : Type} (eqb : K -> K -> bool).

(** [d.get(k, 0)] *)
Fixpoint counter_get (k : K) (d : list (K * nat)) : nat :=
  match d with
  | [] => 0%nat
  | (k', n) :: rest => if eqb k' k then n else counter_get k rest
  end.

(** [d[k] = v] *)
Fixpoint counter_set (k : K) (v : nat) (d : list (K * nat)) : list (K * nat) :=
  match d with
  | [] => [(k, v)]
  | (k', n) :: rest =>
      if eqb k' k then (k', v) :: rest else (k', n) :: counter_set k v rest
  end.

(** [d[k] = d.get(k, 0) + 1] *)
Definition counter_bump (k : K) (d : list (K * nat)) : list (K * nat) :=
  counter_set k (counter_get k d + 1)%nat d.

End Counter.

(** The dictionary [get_error_summary] returns. *)
Record ErrorSummary := mk_summary {
  total_errors : nat;
  errors_by_type : list (string * nat);
  errors_by_competitor : list (pyval * nat);
  summary_timestamp : string
}.

(** The key under which the summary counts an error:
    [error['competitor_name'] or 'N/A']. *)
Definition summary_key (e : ErrorRecord) : pyval :=
  py_or (competitor_name e) (VStr "N/A").

(** [ErrorHandler.get_error_summary] *)
Definition get_error_summary (E : Env) (w : world) : ErrorSummary * world :=
  let '(t, w) := datetime_now E w in
  let by_type :=
    fold_left (fun d e => counter_bump String.eqb (error_type e) d) (errors w) [] in
  let by_competitor :=
    fold_left (fun d e => counter_bump py_eq (summary_key e) d) (errors w) [] in
  (mk_summary (length (errors w)) by_type by_competitor (isoformat t), w).

End Errors.

(** ** [historical_retriever] *)

Module Retriever.

(** What follows group 1 of [REPORT_PATTERN] in a name that matches, if the
    name begins with [\d{4}-\d{2}-\d{2}]. *)
Definition after_date_group (name : string) : option string :=
  '(_, s) ← decimal_digits 4 0 name;
  s ← literal "-" s;
  '(_, s) ← decimal_digits 2 0 s;
  s ← literal "-" s;
  '(_, s) ← decimal_digits 2 0 s;
  Some s.

(** [REPORT_PATTERN.match(name)], returning [match.group(1)].  The pattern is
    [^(\d{4}-\d{2}-\d{2})_Intelligence\.md$] on [str], so [\d] is a decimal
    digit of any script; in Python [$] also matches just before a final
    newline. *)
Definition report_pattern_match (name : string) : option string :=
  tail ← after_date_group name;
  if String.eqb tail "_Intelligence.md"
     || String.eqb tail ("_Intelligence.md" +:+ newline)
  then Some (String.substring 0 (String.length name - String.length tail) name)
  else None.

(** Whether [reports_dir.glob('*.md')] yields the entry. *)
Definition glob_md (name : string) : bool := endswith name ".md".

(** The date a directory entry stands for, when it is one the scans of the
    directory take into account. *)
Definition stored_date (name : string) : option datetime :=
  if glob_md name then
    match report_pattern_match name with
    | Some g => strptime_ymd g
    | None => None
    end
  else None.

(** One iteration of the loop of [find_latest_report]; the accumulator is the
    pair of [latest_report] and [latest_date]. *)
Definition scan_step (before_date : datetime) (acc : option (string * datetime))
    (f : file) : option (string * datetime) :=
  if glob_md (file_name f) then
    match report_pattern_match (file_name f) with
    | Some g =>
        match strptime_ymd g with
        | Some report_date =>
            if datetime_ltb report_date before_date then
              match acc with
              | None => Some (file_name f, report_date)
              | Some (_, latest_date) =>
                  if datetime_ltb latest_date report_date
                  then Some (file_name f, report_date)
                  else acc
              end
            else acc
        | None => acc
        end
    | None => acc
    end
  else acc.

(** The loop of [find_latest_report] over a listing of the directory. *)
Definition scan (before_date : datetime) (files : list file) : option string :=
  fst <$> fold_left (scan_step before_date) files None.

(** [HistoricalRetriever.find_latest_report] *)
Definition find_latest_report (E : Env) (before_date : option datetime)
    (w : world) : option string * world :=
  let '(before_date, w) :=
    match before_date with
    | Some d => (d, w)
    | None => datetime_now E w
    end in
  match reports_dir w with
  | None => (None, w)
  | Some files => (scan before_date files, w)
  end.

(** [HistoricalRetriever.get_report_date] *)
Definition get_report_date (name : string) : option datetime :=
  match report_pattern_match name with
  | Some g => strptime_ymd g
  | None => None
  end.

(** [HistoricalRetriever.get_report_content]: [None] when the file is not
    there or cannot be read.  The file is opened in text mode, so the text
    comes back with its line ends translated. *)
Definition get_report_content (name : string) (w : world) : option string :=
  match reports_dir w with
  | Some files =>
      match List.find (fun f => String.eqb (file_name f) name) files with
      | Some f => universal_newlines <$> file_content f
      | None => None
      end
  | None => None
  end.

(** The loop of [get_baseline_text]. *)
Fixpoint baseline_lines (lines : list string) (in_content : bool)
    (content_lines : list string) : list string :=
  match lines with
  | [] => content_lines
  | line :: rest =>
      if String.eqb (strip line) "---" then baseline_lines rest in_content content_lines
      else if startswith line "#" then
        (if in_content then content_lines
         else baseline_lines rest in_content content_lines)
      else if negb in_content && String.eqb (strip line) "" then
        baseline_lines rest in_content content_lines
      else baseline_lines rest true (content_lines ++ [line])
  end.

(** [HistoricalRetriever.get_baseline_text] *)
Definition get_baseline_text (name : string) (w : world) : option string :=
  match get_report_content name w with
  | Some content =>
      if String.eqb content "" then None
      else Some (strip (join newline (baseline_lines (split_lines content) false [])))
  | None => None
  end.

(** [(a - b).days]: whole days of the difference, rounded down. *)
Definition timedelta_days (a b : datetime) : Z :=
  elapsed_microseconds a b / 86400000000.

(** One iteration of the loop of [find_report_for_date]; the accumulator is
    the pair of [closest_report] and [closest_diff]. *)
Definition closest_step (target_date : datetime) (acc : option (string * Z))
    (f : file) : option (string * Z) :=
  if glob_md (file_name f) then
    match report_pattern_match (file_name f) with
    | Some g =>
        match strptime_ymd g with
        | Some report_date =>
            if datetime_ltb report_date target_date then
              let diff := timedelta_days target_date report_date in
              match acc with
              | None => Some (file_name f, diff)
              | Some (_, closest_diff) =>
                  if diff <? closest_diff then Some (file_name f, diff) else acc
              end
            else acc
        | None => acc
        end
    | None => acc
    end
  else acc.

(** [HistoricalRetriever.find_report_for_date] *)
Definition find_report_for_date (target_date : datetime) (w : world) : option string :=
  match reports_dir w with
  | None => None
  | Some files => fst <$> fold_left (closest_step target_date) files None
  end.

(** [names.sort(reverse=True)]: non-increasing order of the strings. *)
Definition sort_reverse (names : list string) : list string :=
  merge_sort (fun a b => String.le b a) names.

(** [HistoricalRetriever.get_all_reports] *)
Definition get_all_reports (w : world) : list string :=
  match reports_dir w with
  | None => []
  | Some files =>
      sort_reverse
        (List.filter
           (fun name => glob_md name && bool_decide (is_Some (report_pattern_match name)))
           (map file_name files))
  end.

(** [HistoricalRetriever.is_new_competitor] *)
Definition is_new_competitor (competitor_name : string) (w : world) : bool :=
  (length (get_all_reports w) =? 0)%nat.

End Retriever.

(** ** [semantic_diff] *)

Module Differ.

(** [round(x, ndigits)] on an exact rational: the nearest multiple of
    [10^-ndigits], ties to the even one. *)
Definition py_round (x : Q) (ndigits : nat) : Q :=
  let scale := Z.to_pos (10 ^ Z.of_nat ndigits) in
  let n := Qnum x * Zpos scale in
  let d := Zpos (Qden x) in
  let f := n / d in
  let r := n mod d in
  let k :=
    match 2 * r ?= d with
    | Lt => f
    | Gt => f + 1
    | Eq => if Z.even f then f else f + 1
    end in
  Qred (k # scale).

(** The dictionary [calculate_similarity] returns. *)
Record diff_result := mk_diff {
  similarity_percentage : Q;
  cosine_similarity_value : Q;
  threshold : Q;
  shift_classification : string;
  is_strategic_shift : bool;
  text1_embedding : list Q;
  text2_embedding : list Q
}.

(** [x < y] on rationals, as a boolean. *)
Definition Qltb (x y : Q) : bool :=
  match (x ?= y)%Q with
  | Lt => true
  | _ => false
  end.

(** The part of [calculate_similarity] after the similarity is known. *)
Definition classify (similarity : Q) (e1 e2 : list Q) : diff_result :=
  let similarity_percentage := (((similarity + 1) / 2) * 100)%Q in
  let threshold := (80 # 100)%Q in
  let is_strategic_shift := Qltb similarity threshold in
  mk_diff (py_round similarity_percentage 2)
          (py_round similarity 4)
          threshold
          (if is_strategic_shift then "Strategic_Shift" else "minor_update")
          is_strategic_shift
          e1 e2.

(** [SemanticDiffer.calculate_similarity] *)
Definition calculate_similarity (E : Env) (text1 text2 : string) : outcome diff_result :=
  match encode E text1 text2 with
  | Ok (e1, e2) =>
      match cosine_similarity E e1 e2 with
      | Ok similarity => Ok (classify similarity e1 e2)
      | Raise msg => Raise msg
      end
  | Raise msg => Raise msg
  end.

(** [SemanticDiffer.diff_texts]; the call is recorded in [diff_calls]. *)
Definition diff_texts (E : Env) (current_text historical_text : string)
    (w : world) : outcome diff_result * world :=
  (calculate_similarity E current_text historical_text,
   set_diff_calls (diff_calls w ++ [(current_text, historical_text)]) w).

End Differ.

(** ** [file_organizer] *)

Module Organizer.

(** [FileOrganizer.generate_filename] with the date defaulting to today. *)
Definition generate_filename (E : Env) (w : world) : string * world :=
  let '(t, w) := datetime_now E w in
  (strftime_ymd t +:+ "_Intelligence.md", w).

(** [FileOrganizer.generate_filename] for a given date. *)
Definition generate_filename_for (date : datetime) : string :=
  strftime_ymd date +:+ "_Intelligence.md".

End Organizer.

(** ** [report_generator] *)

Module Report.

Section WithEnv.

Variable E : Env.

Let str := py_str (float_repr E).

(** [ReportGenerator._generate_competitor_section] *)
Definition _generate_competitor_section (result : dict) : string :=
  let name := py_get result "competitor_name" (VStr "Unknown") in
  let url := py_get result "url" (VStr "N/A") in
  let analysis_date := py_get result "analysis_date" (VStr "N/A") in
  let similarity_percentage := py_get result "similarity_percentage" (VInt 0) in
  let classification := py_get result "shift_classification" (VStr "Unknown") in
  let findings := py_get result "findings" (VStr "No significant findings.") in
  let baseline_date := py_get result "baseline_date" (VStr "N/A") in
  let detailed_changes :=
    py_get result "detailed_changes" (VStr "No detailed changes available.") in
  let has_strategic_shift := py_get result "is_strategic_shift" (VBool false) in
  let section :=
    "## Competitor: " +:+ str name +:+ "

### Overview
- **URL**: " +:+ str url +:+ "
- **Analysis Date**: " +:+ str analysis_date +:+ "
- **Similarity Score**: " +:+ str similarity_percentage +:+ "%
- **Classification**: " +:+ str classification +:+ "

### Findings

" +:+ str findings +:+ "

### Historical Comparison

The current content was compared against the baseline from " +:+ str baseline_date +:+ ". 
The cosine similarity between embeddings is " +:+ str similarity_percentage +:+ "%, 
indicating a " +:+ str classification +:+ ".

### Detailed Changes

" +:+ str detailed_changes +:+ "
" in
  let section :=
    if py_truthy has_strategic_shift then
      section +:+ "
> **⚠️ STRATEGIC SHIFT DETECTED**
> 
> This competitor has made a significant change in their messaging that may indicate 
> a change in business strategy, pricing model, or target demographic. 
> Further analysis is recommended.
"
    else section in
  section +:+ newline.

(** The text of the error section when there is nothing to list. *)
Definition no_errors_section : string :=
  "## Error Summary

All competitors were processed successfully with no errors.
".

(** The line of the error section for one error. *)
Definition error_line (error : dict) : string :=
  let competitor_name := py_get error "competitor_name" (VStr "Unknown") in
  let error_message := py_get error "error_message" (VStr "Unknown error") in
  "- **" +:+ str competitor_name +:+ "**: " +:+ str error_message.

(** [ReportGenerator._generate_error_section] *)
Definition _generate_error_section (errors : list dict) : string :=
  match errors with
  | [] => no_errors_section
  | _ =>
      let error_lines : list string :=
        ["## Error Summary

The following errors occurred during processing:
"] ++ map error_line errors in
      join newline error_lines +:+ newline
  end.

(** [ReportGenerator._generate_recommendations_section] *)
Definition _generate_recommendations_section (strategic_shifts : list dict) : string :=
  match strategic_shifts with
  | [] =>
      "## Recommendations

Based on the analysis, consider the following actions:

1. No immediate strategic shifts detected. Continue regular monitoring.

2. **Monitor Crunchbase**: Check Crunchbase profiles for recent funding rounds or team changes
3. **Track Social Media**: Monitor Twitter/X for brand sentiment and customer feedback
"
  | _ =>
      let shift_lines : list string :=
        ["## Recommendations

Based on the analysis, consider the following actions:

1. **Review Strategic Shifts**: The following competitors have detected strategic shifts that may require immediate attention:
"] ++
        map (fun shift =>
               let name := py_get shift "competitor_name" (VStr "Unknown") in
               let shift_details :=
                 py_get shift "shift_details" (VStr "No details available") in
               "   - " +:+ str name +:+ ": " +:+ str shift_details)
            strategic_shifts in
      join newline shift_lines +:+ "
2. **Monitor Crunchbase**: Check Crunchbase profiles for recent funding rounds or team changes
3. **Track Social Media**: Monitor Twitter/X for brand sentiment and customer feedback
"
  end.

(** The list [competitor_sections] that [generate_report] builds. *)
Definition competitor_sections (competitor_results : list dict) : list string :=
  map _generate_competitor_section competitor_results.

(** The report text, given the date read from the clock. *)
Definition report_text (current_date : string) (competitor_results : list dict)
    (errors : option (list dict)) : string :=
  let strategic_shifts :=
    List.filter (fun r => py_truthy (py_get r "is_strategic_shift" (VBool false)))
                competitor_results in
  let error_section := _generate_error_section (default [] errors) in
  let recommendations_section := _generate_recommendations_section strategic_shifts in
  "# Intelligence Report: " +:+ current_date +:+ "

## Executive Summary

This report contains competitive intelligence gathered on "
  +:+ pretty (length competitor_results) +:+ " competitors. 
The analysis includes web content extraction, semantic diffing against historical baselines, 
and identification of strategic shifts.

---

" +:+ join "" (competitor_sections competitor_results) +:+ "

" +:+ error_section +:+ "

" +:+ recommendations_section +:+ "
".

(** [ReportGenerator.generate_report] *)
Definition generate_report (competitor_results : list dict)
    (errors : option (list dict)) (w : world) : string * world :=
  let '(t, w) := datetime_now E w in
  (report_text (strftime_ymd t) competitor_results errors, w).

End WithEnv.

End Report.

(** ** [integration] *)

Module Monitor.

Section WithEnv.

Variable E : Env.

Let str := py_str (float_repr E).

(** [CompetitorMonitor.load_competitors_config]; only [JSONDecodeError] is
    caught, any other exception of [open] or [json.load] leaves the
    function. *)
Definition load_competitors_config (w : world) : outcome (option document) * world :=
  match config_file w with
  | ConfigMissing =>
      let '(_, w) := Errors.log_configuration_error E "competitors.json not found" w in
      (Ok None, w)
  | ConfigInvalid e =>
      let '(_, w) :=
        Errors.log_configuration_error E
          ("Invalid JSON in competitors.json: " +:+ e) w in
      (Ok None, w)
  | ConfigUnreadable e => (Raise e, w)
  | ConfigParsed c => (Ok (Some (Regular c)), w)
  | ConfigIrregular d => (Ok (Some (Irregular d)), w)
  end.

(** Truth value of the configuration object: a dictionary is false exactly
    when it has no key. *)
Definition config_truthy (c : config) : bool :=
  match competitors c with
  | Some _ => true
  | None => other_keys c
  end.

(** The handler [except Exception as e] of [process_competitor]. *)
Definition on_exception (name : pyval) (e : string) (result : dict) (w : world)
    : dict * world :=
  let '(_, w) :=
    Errors.log_script_error E ("Error processing " +:+ str name +:+ ": " +:+ e) name w in
  (<["findings" := VStr ("Error: " +:+ e)]> result, w).

(** The part of [process_competitor] that follows the approval check: the
    extraction of the text, the lookup of the baseline and the diffing. *)
Definition fetch_and_classify (name url : pyval) (result : dict) (w : world)
    : dict * world :=
  match fetch E url with
  | Raise e => on_exception name e result w
  | Ok current_text =>
      if negb (py_truthy (from_option VStr VNone current_text)) then
        let '(_, w) :=
          Errors.log_network_error E
            ("Failed to extract text from " +:+ str url) name w in
        (<["findings" := VStr "Failed to extract text"]> result, w)
      else
        let current_text := default "" current_text in
        let '(historical_report, w) := Retriever.find_latest_report E None w in
        let dated :=
          match historical_report with
          | Some p =>
              match Retriever.get_report_date p with
              | Some d => Ok (Retriever.get_baseline_text p w, strftime_ymd d)
              | None => Raise "'NoneType' object has no attribute 'strftime'"
              end
          | None => Ok (None, "N/A")
          end in
        match dated with
        | Raise e => on_exception name e result w
        | Ok (historical_text, baseline_date) =>
            if py_truthy (from_option VStr VNone historical_text) then
              let historical_text := default "" historical_text in
              let '(diff, w) := Differ.diff_texts E current_text historical_text w in
              match diff with
              | Raise e => on_exception name e result w
              | Ok diff_result =>
                  let pct := Differ.similarity_percentage diff_result in
                  let shift := Differ.is_strategic_shift diff_result in
                  let result := <["similarity_percentage" := VFloat pct]> result in
                  let result :=
                    <["shift_classification" :=
                        VStr (Differ.shift_classification diff_result)]> result in
                  let result := <["is_strategic_shift" := VBool shift]> result in
                  let result := <["baseline_date" := VStr baseline_date]> result in
                  let result :=
                    <["detailed_changes" :=
                        VStr ("Similarity: " +:+ str (VFloat pct) +:+ "%")]> result in
                  let result :=
                    if shift then
                      <["findings" :=
                          VStr ("Strategic shift detected! Similarity: "
                                +:+ str (VFloat pct) +:+ "%. "
                                +:+ "Changes may indicate a change in business strategy.")]>
                        result
                    else
                      <["findings" :=
                          VStr ("No major changes detected. Similarity: "
                                +:+ str (VFloat pct) +:+ "%. "
                                +:+ "Minor updates observed.")]>
                        result in
                  (result, w)
              end
            else
              let result := <["similarity_percentage" := VInt 0]> result in
              let result := <["shift_classification" := VStr "new_competitor"]> result in
              let result := <["is_strategic_shift" := VBool false]> result in
              let result := <["baseline_date" := VStr "N/A"]> result in
              let result :=
                <["detailed_changes" := VStr "No historical data available"]> result in
              let result :=
                <["findings" :=
                    VStr "New competitor - no historical data for comparison"]> result in
              (result, w)
        end
  end.

(** The dictionary [result] as [process_competitor] first builds it. *)
Definition initial_result (name url : pyval) (analysis_date : string) : dict :=
  <["competitor_name" := name]>
  (<["url" := url]>
  (<["analysis_date" := VStr analysis_date]>
  (<["is_strategic_shift" := VBool false]>
  {["findings" := VStr "Processing..."]}))).

(** [CompetitorMonitor.process_competitor] *)
Definition process_competitor (competitor : dict) (w : world) : dict * world :=
  let name := py_get competitor "name" (VStr "Unknown") in
  let url := py_get competitor "url" (VStr "") in
  let '(t, w) := datetime_now E w in
  let result := initial_result name url (strftime_ymd t) in
  let '(url_approval, w) := Approval.request_url_approval E url w in
  let '(_, w) := Approval.approve_request E url_approval "test" w in
  if negb (bool_decide (status_value <$> status_of w url_approval = Some "approved"))
  then (<["findings" := VStr "URL browsing not approved"]> result, w)
  else fetch_and_classify name url result w.

(** The text of the report that [_generate_error_report] returns, given the
    date read from the clock. *)
Definition error_report_text (current_date error_message : string) : string :=
  "# Intelligence Report: " +:+ current_date +:+ "

## Error

" +:+ error_message +:+ "

## Error Summary

All competitors failed to process due to configuration errors.
".

(** [CompetitorMonitor._generate_error_report] *)
Definition _generate_error_report (error_message : string) (w : world) : string * world :=
  let '(t, w) := datetime_now E w in
  (error_report_text (strftime_ymd t) error_message, w).

(** Whether [result.get('findings', '').startswith('Error:')].  Every result
    of [process_competitor] carries a string under ['findings']. *)
Definition findings_is_error (result : dict) : bool :=
  match py_get result "findings" (VStr "") with
  | VStr s => startswith s "Error:"
  | _ => false
  end.

(** The loop of [run_workflow] over the configured competitors; the
    accumulator holds the lists [results] and [errors]. *)
Fixpoint process_all (cs : list dict) (results errors : list dict) (w : world)
    : list dict * list dict * world :=
  match cs with
  | [] => (results, errors, w)
  | competitor :: rest =>
      let '(result, w) := process_competitor competitor w in
      let errors :=
        if findings_is_error result then
          errors ++
          [ <["competitor_name" := py_get result "competitor_name" (VStr "Unknown")]>
            {["error_message" := py_get result "findings" (VStr "Unknown error")]} ]
        else errors in
      process_all rest (results ++ [result]) errors w
  end.

(** The directory after the file [name] has come to hold [content]: the
    entry of that name is replaced, or a new entry is added. *)
Definition write_report (name content : string) (files : list file) : list file :=
  if existsb (fun f => String.eqb (file_name f) name) files then
    map (fun f => if String.eqb (file_name f) name
                  then mk_file name (Some content) else f) files
  else files ++ [mk_file name (Some content)].

(** [with open(name, 'w', encoding='utf-8') as f: f.write(content)] in an
    existing directory: the exception raised, if any, and the directory
    afterwards.  When [open] raises the directory is as before; once the file
    is open it exists and is empty, so a failing write leaves behind what the
    environment says. *)
Definition write_text (name content : string) (files : list file)
    : option string * list file :=
  match open_error E name with
  | Some e => (Some e, files)
  | None =>
      match write_error E name content with
      | Some (e, kept) => (Some e, write_report name kept files)
      | None => (None, write_report name content files)
      end
  end.

(** The part of [run_workflow] that saves the report; [open] also fails when
    the directory is not there.  A failure is logged. *)
Definition save_to_reports_dir (report : string) (w : world) : world :=
  let '(filename, w) := Organizer.generate_filename E w in
  match reports_dir w with
  | Some files =>
      let '(failure, files) := write_text filename report files in
      let w := set_reports_dir (Some files) w in
      match failure with
      | Some e =>
          snd (Errors.log_report_error E ("Failed to save report: " +:+ e) VNone w)
      | None => w
      end
  | None =>
      snd (Errors.log_report_error E
             ("Failed to save report: " +:+ missing_directory_error E filename)
             VNone w)
  end.

(** The part of [run_workflow] that follows the two guards, for the
    configured list [cs]. *)
Definition process_and_report (cs : list dict) (w : world) : string * world :=
  let '(results, errors, w) := process_all cs [] [] w in
  let '(report, w) := Report.generate_report E results (Some errors) w in
  (report, save_to_reports_dir report w).

(** A value that a function returns, as the outcome of the call. *)
Definition returned {A : Type} (r : A * world) : outcome A * world :=
  (Ok (fst r), snd r).

(** [CompetitorMonitor.run_workflow].  The function has no handler of its
    own: the exception of [load_competitors_config], of [config.get] on a
    document that is not an object, of the loop over a value that is not a
    list, and of [process_competitor] on an item that is not an object
    ([competitor.get] comes before its [try]) leave it. *)
Definition run_workflow (w : world) : outcome string * world :=
  let '(loaded, w) := load_competitors_config w in
  match loaded with
  | Raise e => (Raise e, w)
  | Ok None => returned (_generate_error_report "Failed to load configuration" w)
  | Ok (Some (Irregular FalseValue)) =>
      returned (_generate_error_report "Failed to load configuration" w)
  | Ok (Some (Irregular (NotAnObject e))) => (Raise e, w)
  | Ok (Some (Irregular FalseCompetitors)) =>
      returned (_generate_error_report "No competitors configured" w)
  | Ok (Some (Irregular (BrokenCompetitors leading e))) =>
      let '(_, _, w) := process_all leading [] [] w in
      (Raise e, w)
  | Ok (Some (Regular c)) =>
      if config_truthy c then
        match default [] (competitors c) with
        | [] => returned (_generate_error_report "No competitors configured" w)
        | cs => returned (process_and_report cs w)
        end
      else returned (_generate_error_report "Failed to load configuration" w)
  end.

End WithEnv.

End Monitor.

(** ** [file_organizer], the functions that touch the reports directory *)

Module FileOrganizer.

(** [FileOrganizer.save_report] without a competitor name: the directory is
    created when it is missing, the file of that date is opened for writing
    and the content written, and the name is returned; any exception is
    printed and [None] is returned, with the directory as the failing step
    found or left it. *)
Definition save_report (E : Env) (content : string) (date : option datetime)
    (w : world) : option string * world :=
  let '(filename, w) :=
    match date with
    | Some d => (Organizer.generate_filename_for d, w)
    | None => Organizer.generate_filename E w
    end in
  match reports_dir w, mkdir_error E with
  | None, Some _ => (None, w)
  | _, _ =>
      let '(failure, files) :=
        Monitor.write_text E filename content (default [] (reports_dir w)) in
      (match failure with Some _ => None | None => Some filename end,
       set_reports_dir (Some files) w)
  end.

(** [FileOrganizer.get_latest_report_path] *)
Definition get_latest_report_path (w : world) : option string :=
  match reports_dir w with
  | None => None
  | Some files =>
      head (Retriever.sort_reverse
              (List.filter (fun name => endswith name "_Intelligence.md")
                           (map file_name files)))
  end.

End FileOrganizer.
(** * Vocabulary of the properties *)

(** ** Baseline store *)

(** What holds of the accumulator of [Retriever.scan_step] after the entries
    [seen] have been visited, for the reference date [d]: nothing qualified so
    far, or the accumulator is a visited entry dated before [d] that no
    visited entry dated before [d] exceeds. *)
Definition scan_inv (d : datetime) (seen : list file)
    (acc : option (string * datetime)) : Prop :=
  match acc with
  | None =>
      forall f dt, f ∈ seen -> Retriever.stored_date (file_name f) = Some dt ->
                   ~ datetime_lt dt d
  | Some (p, latest) =>
      (exists f, f ∈ seen /\ file_name f = p)
      /\ Retriever.stored_date p = Some latest
      /\ datetime_lt latest d
      /\ forall f dt, f ∈ seen -> Retriever.stored_date (file_name f) = Some dt ->
                      datetime_lt dt d -> datetime_le dt latest
  end.

(** The reference date [find_latest_report] works with. *)
Definition reference_date (E : Env) (before_date : option datetime) (w : world)
    : datetime :=
  default (now E (clock_reads w)) before_date.

(** ** Sample environments and worlds, used to instantiate the properties *)

(** A clock that advances by one second per reading, from ten o'clock on
    18 February 2026. *)
Definition seconds_clock (k : nat) : datetime :=
  mk_datetime 2026 2 18 10 0 (Z.of_nat k) 0.

(** A clock that is read once a year, on 18 February at ten o'clock. *)
Definition yearly_clock (k : nat) : datetime :=
  mk_datetime (2026 + Z.of_nat k) 2 18 10 0 0 0.

(** An environment with the given clock, an embedding provider under which
    every pair of texts has cosine similarity [s], a browser that finds
    text only at [https://a.example], and a file system on which creating
    the directory and writing a file succeed. *)
Definition sample_env (clock : nat -> datetime) (s : Q) : Env :=
  mk_env clock
         (fun q => pretty (Qnum q) +:+ "/" +:+ pretty (Zpos (Qden q)))
         (fun url =>
            match url with
            | VStr "https://a.example" => Ok (Some "Fast payments for small teams")
            | _ => Ok None
            end)
         (fun _ _ => Ok ([1%Q], [1%Q]))
         (fun _ _ => Ok s)
         None
         (fun _ => None)
         (fun name =>
            "[Errno 2] No such file or directory: 'reports/" +:+ name +:+ "'")
         (fun _ _ => None).

(** A process that has not run anything yet, over an existing and empty
    reports directory, with the given configuration file. *)
Definition initial_world (c : config_source) : world :=
  mk_world 0 [] [] [] [] [] (Some []) c [].

(** A configuration with two entities; under [sample_env] the browser
    finds text for the first and nothing for the second. *)
Definition two_entities : list dict :=
  [ <["name" := VStr "A"]> {["url" := VStr "https://a.example"]};
    <["name" := VStr "B"]> {["url" := VStr "https://b.example"]} ].

(** ** Approval gate *)

(** The request [q] once approved by [who] at time [t]. *)
Definition approved_by (who : string) (t : datetime) (q : ApprovalRequest)
    : ApprovalRequest :=
  mk_request (action_type q) (description q) (action_data q) (timeout_seconds q)
             APPROVED (requested_at q) (Some t) (rejected_at q) (Some who).

(** The request [q] once rejected by [who] at time [t]. *)
Definition rejected_by (who : string) (t : datetime) (q : ApprovalRequest)
    : ApprovalRequest :=
  mk_request (action_type q) (description q) (action_data q) (timeout_seconds q)
             REJECTED (requested_at q) (approved_at q) (Some t) (Some who).

(** The world after the request at [r], which was [q], has been replaced by
    [q'] with one reading of the clock. *)
Definition resolved_world (r : ref) (q' : ApprovalRequest) (w : world) : world :=
  set_clock_reads (S (clock_reads w)) (set_heap (<[r := q']> (heap w)) w).

(** The clock never runs backwards. *)
Definition monotone_clock (E : Env) : Prop :=
  forall i j : nat, (i <= j)%nat ->
    to_microseconds (now E i) <= to_microseconds (now E j).

(** How a world may change: the clock readings are not taken back, no request
    object disappears, creation time and timeout of a request never change,
    and a request that is no longer pending does not change at all. *)
Definition evolves (w w' : world) : Prop :=
  (clock_reads w <= clock_reads w')%nat
  /\ forall r q, heap w !! r = Some q ->
       exists q', heap w' !! r = Some q'
         /\ requested_at q' = requested_at q
         /\ timeout_seconds q' = timeout_seconds q
         /\ (status q <> PENDING -> q' = q).

(** The world after the expiry loop of [get_pending_request] has run over the
    pending collection. *)
Definition swept (E : Env) (w : world) : world :=
  Approval.sweep E (pending_requests w) w.

(** Consistency of the three collections of a handler with the status of
    the requests they hold. *)
Definition handler_inv (w : world) : Prop :=
  NoDup (pending_requests w ++ approved_requests w ++ rejected_requests w)
  /\ (forall r, r ∈ pending_requests w -> status_of w r = Some PENDING)
  /\ (forall r, r ∈ approved_requests w -> status_of w r = Some APPROVED)
  /\ (forall r, r ∈ rejected_requests w ->
        status_of w r = Some REJECTED \/ status_of w r = Some EXPIRED).

(** The requests a handler tracks. *)
Definition tracked (w : world) : list ref :=
  pending_requests w ++ approved_requests w ++ rejected_requests w.

(** How many of the requests [l] have status [s]. *)
Definition count_status (s : ApprovalStatus) (l : list ref) (w : world) : nat :=
  length (filter (fun r => status_of w r = Some s) l).

(** ** Orchestrator *)

(** The baseline text [process_competitor] obtains from the store when it
    looks for the latest report at the [k]-th reading of the clock. *)
Definition baseline_text (E : Env) (w : world) (k : nat) : option string :=
  match reports_dir w with
  | Some files =>
      match Retriever.scan (now E k) files with
      | Some p => Retriever.get_baseline_text p w
      | None => None
      end
  | None => None
  end.

(** The names of the configured entities, as [process_competitor] reads
    them. *)
Definition configured_name (c : dict) : pyval := py_get c "name" (VStr "Unknown").



(** ** Error ledger *)

(** The sum of the counts of a dictionary of counts. *)
Definition counter_total {K : Type} (d : list (K * nat)) : nat :=
  fold_right (fun kv acc => (snd kv + acc)%nat) 0%nat d.

(** An error that the summary counts under ['N/A']: one without a usable
    competitor name, or one whose competitor is called ['N/A']. *)
Definition counted_as_unnamed (e : ErrorRecord) : bool :=
  negb (py_truthy (competitor_name e)) || py_eq (competitor_name e) (VStr "N/A").

(** ** Dates and file names *)

(** A calendar day whose year [strftime] writes with four digits. *)
Definition valid_date (t : datetime) : Prop :=
  1000 <= year t <= 9999 /\ 1 <= month t <= 12
  /\ 1 <= day t <= days_in_month (year t) (month t).

(** The first instant of the day of [t]. *)
Definition midnight (t : datetime) : datetime :=
  mk_datetime (year t) (month t) (day t) 0 0 0 0.

(** The number that a string of ASCII digits writes. *)
Definition int_of_digits (s : string) : Z :=
  fold_left (fun acc c => acc * 10 + digit_value c) (String.list_ascii_of_string s) 0.

(** A text of ASCII characters only. *)
Definition ascii_only (s : string) : bool :=
  forallb (fun c => byte_value c <? 128) (String.list_ascii_of_string s).

(** Whether [n], padded to [w] places, is written with exactly [w] ASCII
    digits that read back as [n]. *)
Definition digits_ok (w : nat) (n : Z) : bool :=
  let s := zfill w n in
  (String.length s =? w)%nat
  && forallb is_digit (String.list_ascii_of_string s)
  && (int_of_digits s =? n).

(** ** Orchestrator *)

(** The entry that [run_workflow] adds to its list of errors for a result
    whose findings begin with [Error:]. *)
Definition error_entry (result : dict) : dict :=
  <["competitor_name" := py_get result "competitor_name" (VStr "Unknown")]>
  {["error_message" := py_get result "findings" (VStr "Unknown error")]}.

(** What [process_competitor] can leave behind, besides the result. *)
Inductive entity_outcome :=
| Analysed
| NoContent
| Crashed (e : string).

(** The record that [process_competitor] adds to the error ledger, if any,
    for an entity called [name] at [url], when the clock has been read
    [k] times. *)
Definition outcome_record (E : Env) (name url : pyval) (k : nat)
    (o : entity_outcome) : list ErrorRecord :=
  match o with
  | Analysed => []
  | NoContent =>
      [mk_error (isoformat (now E k)) "network"
                ("Failed to extract text from " +:+ py_str (float_repr E) url)
                name ∅]
  | Crashed e =>
      [mk_error (isoformat (now E k)) "script"
                ("Error processing " +:+ py_str (float_repr E) name +:+ ": " +:+ e)
                name ∅]
  end.

(** ** Reports as baselines *)

(** A text without a carriage return, which reading with universal
    newlines leaves as it is. *)
Definition no_carriage_return (s : string) : bool :=
  forallb (fun c => negb (Ascii.eqb c "013")) (String.list_ascii_of_string s).

(** A string without a line break. *)
Definition no_newline (s : string) : bool :=
  forallb (fun c => negb (Ascii.eqb c "010")) (String.list_ascii_of_string s).

(** The paragraph under the heading [Executive Summary] of a report on [n]
    entities. *)
Definition executive_summary (n : nat) : string :=
  "This report contains competitive intelligence gathered on "
  +:+ pretty n +:+ " competitors. 
The analysis includes web content extraction, semantic diffing against historical baselines, 
and identification of strategic shifts.".

(** The beginning of a report, down to the rule under the executive
    summary, with the date and the number of entities as they are printed. *)
Definition report_head (date count : string) : string :=
  "# Intelligence Report: " +:+ date +:+ "

## Executive Summary

This report contains competitive intelligence gathered on "
  +:+ count +:+ " competitors. 
The analysis includes web content extraction, semantic diffing against historical baselines, 
and identification of strategic shifts.

---

".

(** ** Approval requests *)

(** The resolver and the time stamps of a request agree with its status:
    a pending or expired request has none, an approved request has a resolver
    and an approval time only, a rejected request a resolver and a rejection
    time only. *)
Definition request_wf (q : ApprovalRequest) : Prop :=
  match status q with
  | PENDING | EXPIRED => approved_at q = None /\ rejected_at q = None /\ approver q = None
  | APPROVED => is_Some (approved_at q) /\ rejected_at q = None /\ is_Some (approver q)
  | REJECTED => approved_at q = None /\ is_Some (rejected_at q) /\ is_Some (approver q)
  end.

(** Every request object of the process is in such a state. *)
Definition heap_wf (w : world) : Prop :=
  forall r q, heap w !! r = Some q -> request_wf q.
(** * Properties *)

(** ** The order on datetimes *)

Section DatetimeOrder.

Lemma fields_inj (a b : datetime) : fields a = fields b -> a = b.
Proof.
  destruct a, b; unfold fields; simpl; intros H.
  injection H as -> -> -> -> -> -> ->. reflexivity.
Qed.

Lemma datetime_lt_irrefl (a : datetime) : ~ datetime_lt a a.
Proof. unfold datetime_lt. apply (irreflexivity lexico). Qed.

Lemma datetime_lt_trans (a b c : datetime) :
  datetime_lt a b -> datetime_lt b c -> datetime_lt a c.
Proof. unfold datetime_lt. apply (transitivity (R := lexico)). Qed.

Lemma datetime_ltb_spec (a b : datetime) :
  datetime_ltb a b = true <-> datetime_lt a b.
Proof.
  unfold datetime_ltb, datetime_lt.
  destruct (trichotomyT lexico (fields a) (fields b)) as [[Hlt | Heq] | Hgt].
  - tauto.
  - split; [discriminate |].
    rewrite Heq. intros H. destruct (irreflexivity lexico _ H).
  - split; [discriminate |].
    intros H. destruct (irreflexivity lexico _ (transitivity H Hgt)).
Qed.

Lemma datetime_ltb_false (a b : datetime) :
  datetime_ltb a b = false <-> datetime_le b a.
Proof.
  unfold datetime_ltb, datetime_le, datetime_lt.
  destruct (trichotomyT lexico (fields a) (fields b)) as [[Hlt | Heq] | Hgt].
  - split; [discriminate |].
    intros [H | ->].
    + destruct (irreflexivity lexico _ (transitivity H Hlt)).
    + destruct (irreflexivity lexico _ Hlt).
  - split; [| reflexivity]. intros _. right. symmetry. by apply fields_inj.
  - split; [| reflexivity]. intros _. by left.
Qed.

Lemma datetime_le_lt_trans (a b c : datetime) :
  datetime_le a b -> datetime_lt b c -> datetime_lt a c.
Proof. intros [H | ->] ?; [by eapply datetime_lt_trans | done]. Qed.

Lemma datetime_le_trans (a b c : datetime) :
  datetime_le a b -> datetime_le b c -> datetime_le a c.
Proof.
  intros [H1 | ->] [H2 | ->]; unfold datetime_le; eauto using datetime_lt_trans.
Qed.

Lemma datetime_le_not_lt (a b : datetime) : datetime_le a b -> ~ datetime_lt b a.
Proof.
  intros [H | ->] H'.
  - exact (datetime_lt_irrefl _ (datetime_lt_trans _ _ _ H H')).
  - exact (datetime_lt_irrefl _ H').
Qed.

End DatetimeOrder.

(** ** Baseline store: [find_latest_report] *)

Section FindLatest.

Import Retriever.

Lemma scan_step_stored (d : datetime) (acc : option (string * datetime)) (f : file) :
  scan_step d acc f =
  match stored_date (file_name f) with
  | Some report_date =>
      if datetime_ltb report_date d then
        match acc with
        | None => Some (file_name f, report_date)
        | Some (_, latest_date) =>
            if datetime_ltb latest_date report_date
            then Some (file_name f, report_date) else acc
        end
      else acc
  | None => acc
  end.
Proof.
  unfold scan_step, stored_date.
  destruct (glob_md (file_name f)); [| reflexivity].
  destruct (report_pattern_match (file_name f)); reflexivity.
Qed.

Lemma scan_step_ignores (d : datetime) (acc : option (string * datetime)) (f : file) :
  stored_date (file_name f) = None -> scan_step d acc f = acc.
Proof. intros H. rewrite scan_step_stored, H. reflexivity. Qed.

Lemma scan_inv_step (d : datetime) (seen : list file)
    (acc : option (string * datetime)) (f : file) :
  scan_inv d seen acc -> scan_inv d (seen ++ [f]) (scan_step d acc f).
Proof.
  intros Hinv. rewrite scan_step_stored.
  destruct (stored_date (file_name f)) as [rd |] eqn:Hsd.
  - destruct (datetime_ltb rd d) eqn:Hlt.
    + apply datetime_ltb_spec in Hlt.
      destruct acc as [[p latest] |]; simpl in *.
      * destruct Hinv as ([g [Hg Hp]] & Hst & Hld & Hmax).
        destruct (datetime_ltb latest rd) eqn:Hnew.
        -- apply datetime_ltb_spec in Hnew.
           split; [exists f; split; [set_solver | done] |].
           split; [done |]. split; [done |].
           intros g' dt [Hin | ->%list_elem_of_singleton]%elem_of_app Hs Hd.
           ++ left. eapply datetime_le_lt_trans; [by eapply Hmax | done].
           ++ right. congruence.
        -- apply datetime_ltb_false in Hnew.
           split; [exists g; split; [set_solver | done] |].
           split; [done |]. split; [done |].
           intros g' dt [Hin | ->%list_elem_of_singleton]%elem_of_app Hs Hd.
           ++ by eapply Hmax.
           ++ assert (dt = rd) as -> by congruence. done.
      * split; [exists f; split; [set_solver | done] |].
        split; [done |]. split; [done |].
        intros g' dt [Hin | ->%list_elem_of_singleton]%elem_of_app Hs Hd.
        -- destruct (Hinv _ _ Hin Hs Hd).
        -- right. congruence.
    + apply datetime_ltb_false in Hlt.
      destruct acc as [[p latest] |]; simpl in *.
      * destruct Hinv as ([g [Hg Hp]] & Hst & Hld & Hmax).
        split; [exists g; split; [set_solver | done] |].
        split; [done |]. split; [done |].
        intros g' dt [Hin | ->%list_elem_of_singleton]%elem_of_app Hs Hd.
        -- by eapply Hmax.
        -- assert (dt = rd) as -> by congruence.
           destruct (datetime_le_not_lt _ _ Hlt Hd).
      * intros g' dt [Hin | ->%list_elem_of_singleton]%elem_of_app Hs Hd.
        -- by eapply Hinv.
        -- assert (dt = rd) as -> by congruence.
           destruct (datetime_le_not_lt _ _ Hlt Hd).
  - destruct acc as [[p latest] |]; simpl in *.
    + destruct Hinv as ([g [Hg Hp]] & Hst & Hld & Hmax).
      split; [exists g; split; [set_solver | done] |].
      split; [done |]. split; [done |].
      intros g' dt [Hin | ->%list_elem_of_singleton]%elem_of_app Hs Hd.
      * by eapply Hmax.
      * congruence.
    + intros g' dt [Hin | ->%list_elem_of_singleton]%elem_of_app Hs Hd.
      * by eapply Hinv.
      * congruence.
Qed.

Lemma scan_inv_fold (d : datetime) (files seen : list file)
    (acc : option (string * datetime)) :
  scan_inv d seen acc ->
  scan_inv d (seen ++ files) (fold_left (scan_step d) files acc).
Proof.
  revert seen acc. induction files as [| f files IH]; intros seen acc Hinv; simpl.
  - by rewrite app_nil_r.
  - replace (seen ++ f :: files) with ((seen ++ [f]) ++ files)
      by (by rewrite <- app_assoc).
    apply IH. by apply scan_inv_step.
Qed.

Lemma scan_inv_all (d : datetime) (files : list file) :
  scan_inv d files (fold_left (scan_step d) files None).
Proof.
  apply (scan_inv_fold d files [] None). intros f dt Hin. set_solver.
Qed.

Lemma scan_filter (d : datetime) (files : list file) (acc : option (string * datetime)) :
  fold_left (scan_step d) files acc =
  fold_left (scan_step d)
    (List.filter (fun f => bool_decide (is_Some (stored_date (file_name f)))) files) acc.
Proof.
  revert acc. induction files as [| f files IH]; intros acc; simpl; [reflexivity |].
  destruct (stored_date (file_name f)) as [dt |] eqn:Hsd.
  - rewrite bool_decide_eq_true_2 by eauto. simpl. apply IH.
  - rewrite bool_decide_eq_false_2 by (intros [? ?]; congruence).
    rewrite scan_step_ignores by done. apply IH.
Qed.

(** A report that the scan returns is one whose name carries a date. *)
Lemma scan_some_dated (d : datetime) (files : list file) (p : string) :
  scan d files = Some p -> exists dt, get_report_date p = Some dt.
Proof.
  unfold scan. intros H.
  pose proof (scan_inv_all d files) as Hinv.
  destruct (fold_left (scan_step d) files None) as [[p' latest] |]; [| discriminate].
  simpl in H. injection H as ->. destruct Hinv as (_ & Hst & _).
  unfold stored_date in Hst. unfold get_report_date.
  destruct (glob_md p); [| discriminate]. eauto.
Qed.

(** C4. For every listing of the store and every reference date [d]:
    entries that are not dated report files are ignored; a report that is
    returned is an entry of the store whose date is strictly before [d] and
    is the largest such date; the answer is none exactly when the directory
    is missing, or empty, or holds no report dated strictly before [d]; in
    particular it is none when every stored date is at or after [d]. *)
Theorem find_latest_report_nearest_before (E : Env) (before_date : option datetime)
    (w : world) :
  let d := reference_date E before_date w in
  let answer := fst (find_latest_report E before_date w) in
  (forall files, reports_dir w = Some files ->
     answer = scan d (List.filter
                (fun f => bool_decide (is_Some (stored_date (file_name f)))) files))
  /\ (forall p, answer = Some p ->
        exists files dt,
          reports_dir w = Some files
          /\ (exists f, f ∈ files /\ file_name f = p)
          /\ stored_date p = Some dt
          /\ datetime_lt dt d
          /\ forall f dt', f ∈ files -> stored_date (file_name f) = Some dt' ->
                           datetime_lt dt' d -> datetime_le dt' dt)
  /\ (answer = None <->
        reports_dir w = None
        \/ reports_dir w = Some []
        \/ exists files, reports_dir w = Some files
             /\ forall f dt, f ∈ files -> stored_date (file_name f) = Some dt ->
                             ~ datetime_lt dt d)
  /\ (forall files, reports_dir w = Some files ->
        (forall f dt, f ∈ files -> stored_date (file_name f) = Some dt ->
                      datetime_le d dt) ->
        answer = None).
Proof.
  intros d answer.
  assert (Hans : answer = match reports_dir w with
                          | Some files => scan d files
                          | None => None
                          end).
  { subst answer d. unfold find_latest_report, reference_date.
    destruct before_date as [bd |]; simpl; destruct (reports_dir w); reflexivity. }
  assert (Hnone : forall files, reports_dir w = Some files ->
            (forall f dt, f ∈ files -> stored_date (file_name f) = Some dt ->
                          ~ datetime_lt dt d) -> answer = None).
  { intros files Hdir Hall. rewrite Hans, Hdir. unfold scan.
    pose proof (scan_inv_all d files) as Hinv.
    destruct (fold_left (scan_step d) files None) as [[p latest] |]; [| reflexivity].
    destruct Hinv as ([f [Hf Hp]] & Hst & Hlt & _). subst p.
    destruct (Hall _ _ Hf Hst Hlt). }
  split; [| split; [| split]].
  - intros files Hdir. rewrite Hans, Hdir. unfold scan. by rewrite scan_filter.
  - intros p Hp. rewrite Hans in Hp.
    destruct (reports_dir w) as [files |] eqn:Hdir; [| discriminate].
    unfold scan in Hp. pose proof (scan_inv_all d files) as Hinv.
    destruct (fold_left (scan_step d) files None) as [[p' latest] |]; [| discriminate].
    simpl in Hp. injection Hp as ->.
    destruct Hinv as (Hf & Hst & Hlt & Hmax).
    exists files, latest. eauto.
  - split.
    + intros Hn. rewrite Hans in Hn.
      destruct (reports_dir w) as [files |] eqn:Hdir; [| by left].
      right. right. exists files. split; [reflexivity |].
      unfold scan in Hn. pose proof (scan_inv_all d files) as Hinv.
      destruct (fold_left (scan_step d) files None) as [[p' latest] |];
        [discriminate | exact Hinv].
    + intros [Hdir | [Hdir | (files & Hdir & Hall)]].
      * by rewrite Hans, Hdir.
      * by rewrite Hans, Hdir.
      * by eapply Hnone.
  - intros files Hdir Hall. eapply Hnone; [done |].
    intros f dt Hf Hst. apply datetime_le_not_lt. by eapply Hall.
Qed.

End FindLatest.

(** ** Drift classifier: [calculate_similarity] *)

Section Classifier.

Import Differ.

Lemma py_round_two_places (x : Q) :
  exists k : Z,
    (py_round x 2 == k # 100)%Q
    /\ (x - (1 # 200) <= py_round x 2)%Q
    /\ (py_round x 2 <= x + (1 # 200))%Q.
Proof.
  destruct x as [a b]. unfold py_round. cbn [Qnum Qden].
  change (Z.to_pos (10 ^ Z.of_nat 2)) with 100%positive.
  set (d := Zpos b). set (n := a * 100).
  assert (Hd : 0 < d) by (subst d; lia).
  pose proof (Z.div_mod n d ltac:(lia)) as Hdm.
  pose proof (Z.mod_pos_bound n d Hd) as Hr.
  set (f := n / d) in *. set (r := n mod d) in *.
  assert (Hk : forall k, 2 * Z.abs (k * d - n) <= d ->
             (Qred (k # 100) == k # 100)%Q
             /\ ((a # b) - (1 # 200) <= Qred (k # 100))%Q
             /\ (Qred (k # 100) <= (a # b) + (1 # 200))%Q).
  { intros k Hkd. rewrite !Qred_correct. split; [reflexivity |].
    unfold Qle, Qminus, Qplus, Qopp. cbn [Qnum Qden].
    subst n d. split; lia. }
  destruct (Z.compare_spec (2 * r) d) as [Heq | Hlt | Hgt].
  - destruct (Z.even f); [exists f | exists (f + 1)]; apply Hk; nia.
  - exists f. apply Hk. nia.
  - exists (f + 1). apply Hk. nia.
Qed.

(** C5 as stated fails: the percentage reported for the similarity [1/1024]
    is [50.05], not the exact [(1/1024 + 1) / 2 * 100 = 50.048828125]. *)
Lemma calculate_similarity_percentage_is_rounded :
  let s := (1 # 1024)%Q in
  encode (sample_env seconds_clock s) "now" "before" = Ok ([1%Q], [1%Q])
  /\ cosine_similarity (sample_env seconds_clock s) [1%Q] [1%Q] = Ok s
  /\ (-1 <= s)%Q /\ (s <= 1)%Q
  /\ exists r, calculate_similarity (sample_env seconds_clock s) "now" "before" = Ok r
       /\ (similarity_percentage r == 5005 # 100)%Q
       /\ ~ (similarity_percentage r == (s + 1) / 2 * 100)%Q.
Proof.
  cbv zeta. repeat split; try reflexivity; try discriminate.
  eexists. split; [reflexivity |]. split; [reflexivity |]. discriminate.
Qed.

(** C5 (amended). When the embeddings of the two texts have cosine
    similarity [s] in [[-1, 1]], the result reports the percentage
    [(s + 1) / 2 * 100] rounded to two decimal places (a multiple of [0.01]
    within [0.005] of it, between 0 and 100; exactly 100, 50 and 0 for
    [s = 1], [0] and [-1]); the pair is classified [Strategic_Shift] exactly
    when the raw similarity [s] is below the threshold [0.80], else
    [minor_update]. *)
Theorem calculate_similarity_classification (E : Env) (text1 text2 : string)
    (e1 e2 : list Q) (s : Q) :
  encode E text1 text2 = Ok (e1, e2) ->
  cosine_similarity E e1 e2 = Ok s ->
  (-1 <= s)%Q -> (s <= 1)%Q ->
  exists r,
    calculate_similarity E text1 text2 = Ok r
    /\ (exists k : Z, similarity_percentage r == k # 100)%Q
    /\ (Qabs (similarity_percentage r - (s + 1) / 2 * 100) <= 1 # 200)%Q
    /\ (0 <= similarity_percentage r)%Q /\ (similarity_percentage r <= 100)%Q
    /\ ((s == 1)%Q -> (similarity_percentage r == 100)%Q)
    /\ ((s == 0)%Q -> (similarity_percentage r == 50)%Q)
    /\ ((s == -1)%Q -> (similarity_percentage r == 0)%Q)
    /\ (is_strategic_shift r = true <-> (s < 80 # 100)%Q)
    /\ shift_classification r =
         (if is_strategic_shift r then "Strategic_Shift" else "minor_update")
    /\ (shift_classification r = "Strategic_Shift" <-> (s < 80 # 100)%Q)
    /\ (threshold r == 80 # 100)%Q.
Proof.
  intros Henc Hcos Hlo Hhi.
  exists (classify s e1 e2).
  split; [unfold calculate_similarity; by rewrite Henc, Hcos |].
  unfold classify; cbn [similarity_percentage is_strategic_shift
                        shift_classification threshold].
  remember ((s + 1) / 2 * 100)%Q as x eqn:Hdef.
  assert (Hx : (x == (s + 1) * 50)%Q) by (subst x; field).
  clear Hdef.
  destruct (py_round_two_places x) as (k & Hk & Hlow & Hup).
  assert (Hx0 : (0 <= x)%Q) by lra.
  assert (Hx1 : (x <= 100)%Q) by lra.
  assert (Hgrid : forall m : Z, (x == m # 100)%Q -> (py_round x 2 == m # 100)%Q).
  { intros m Hm. rewrite Hk. rewrite Hk, Hm in Hlow, Hup.
    unfold Qle, Qminus, Qplus, Qopp in Hlow, Hup. cbn [Qnum Qden] in Hlow, Hup.
    assert (k = m) as -> by lia. reflexivity. }
  assert (Hshift : Qltb s (80 # 100) = true <-> (s < 80 # 100)%Q).
  { unfold Qltb. rewrite Qlt_alt. destruct (s ?= 80 # 100)%Q; split; congruence. }
  split; [by exists k |].
  split; [apply Qabs_Qle_condition; split; lra |].
  split.
  { assert (Hk0 : (- (1 # 200) <= k # 100)%Q) by lra.
    rewrite Hk. unfold Qle, Qopp in *. cbn [Qnum Qden] in *. lia. }
  split.
  { assert (Hk1 : (k # 100 <= 100 + (1 # 200))%Q) by lra.
    rewrite Hk. unfold Qle, Qplus in *. cbn [Qnum Qden] in *. lia. }
  split; [intros Hs; rewrite (Hgrid 10000); [reflexivity | rewrite Hx, Hs; reflexivity] |].
  split; [intros Hs; rewrite (Hgrid 5000); [reflexivity | rewrite Hx, Hs; reflexivity] |].
  split; [intros Hs; rewrite (Hgrid 0); [reflexivity | rewrite Hx, Hs; reflexivity] |].
  split; [exact Hshift |].
  split; [reflexivity |].
  split; [| reflexivity].
  rewrite <- Hshift. destruct (Qltb s (80 # 100)); split; congruence.
Qed.

Lemma calculate_similarity_classification_witness :
  exists r,
    calculate_similarity (sample_env seconds_clock (7 # 10)) "now" "before" = Ok r
    /\ (similarity_percentage r == 85)%Q
    /\ is_strategic_shift r = true.
Proof.
  destruct (calculate_similarity_classification (sample_env seconds_clock (7 # 10))
              "now" "before" [1%Q] [1%Q] (7 # 10))
    as (r & Hr & _ & _ & _ & _ & _ & _ & _ & Hs & _);
    [reflexivity | reflexivity | discriminate | discriminate |].
  exists r. split; [exact Hr |].
  split; [injection Hr as <-; reflexivity |].
  apply Hs. reflexivity.
Defined.

End Classifier.

(** ** Approval gate *)

Section ApprovalFacts.

Import Approval.

Variable E : Env.

Lemma update_request_some (r : ref) (f : ApprovalRequest -> ApprovalRequest)
    (w : world) (q : ApprovalRequest) :
  heap w !! r = Some q -> update_request r f w = set_heap (<[r := f q]> (heap w)) w.
Proof. intros H. unfold update_request. by rewrite H. Qed.

Lemma approve_not_pending (r : ref) (who : string) (w : world) :
  status_of w r <> Some PENDING -> approve E r who w = (false, w).
Proof. intros H. unfold approve. by rewrite decide_False. Qed.

Lemma reject_not_pending (r : ref) (who : string) (w : world) :
  status_of w r <> Some PENDING -> reject E r who w = (false, w).
Proof. intros H. unfold reject. by rewrite decide_False. Qed.

Lemma approve_pending (r : ref) (who : string) (w : world) (q : ApprovalRequest) :
  heap w !! r = Some q -> status q = PENDING ->
  approve E r who w =
  (true, resolved_world r (approved_by who (now E (clock_reads w)) q) w).
Proof.
  intros Hq Hs. pose proof (lookup_lt_Some _ _ _ Hq) as Hlt.
  unfold approve, status_of. rewrite Hq. simpl. rewrite decide_True by congruence.
  rewrite (update_request_some r _ w q Hq). unfold datetime_now.
  rewrite (update_request_some r (with_approved_at _) _ (with_status APPROVED q))
    by (simpl; by apply list_lookup_insert_eq).
  erewrite update_request_some
    by (simpl; apply list_lookup_insert_eq; by rewrite length_insert).
  simpl. rewrite !list_insert_insert_eq.
  reflexivity.
Qed.

Lemma reject_pending (r : ref) (who : string) (w : world) (q : ApprovalRequest) :
  heap w !! r = Some q -> status q = PENDING ->
  reject E r who w =
  (true, resolved_world r (rejected_by who (now E (clock_reads w)) q) w).
Proof.
  intros Hq Hs. pose proof (lookup_lt_Some _ _ _ Hq) as Hlt.
  unfold reject, status_of. rewrite Hq. simpl. rewrite decide_True by congruence.
  rewrite (update_request_some r _ w q Hq). unfold datetime_now.
  rewrite (update_request_some r (with_rejected_at _) _ (with_status REJECTED q))
    by (simpl; by apply list_lookup_insert_eq).
  erewrite update_request_some
    by (simpl; apply list_lookup_insert_eq; by rewrite length_insert).
  simpl. rewrite !list_insert_insert_eq.
  reflexivity.
Qed.

Lemma approve_request_untracked (r : ref) (who : string) (w : world) :
  r ∉ pending_requests w -> approve_request E r who w = (false, w).
Proof. intros H. unfold approve_request. by rewrite decide_False. Qed.

Lemma reject_request_untracked (r : ref) (who : string) (w : world) :
  r ∉ pending_requests w -> reject_request E r who w = (false, w).
Proof. intros H. unfold reject_request. by rewrite decide_False. Qed.

Lemma approve_request_not_pending (r : ref) (who : string) (w : world) :
  status_of w r <> Some PENDING -> approve_request E r who w = (false, w).
Proof.
  intros H. unfold approve_request.
  destruct (decide (r ∈ pending_requests w)); [| reflexivity].
  by rewrite approve_not_pending.
Qed.

Lemma reject_request_not_pending (r : ref) (who : string) (w : world) :
  status_of w r <> Some PENDING -> reject_request E r who w = (false, w).
Proof.
  intros H. unfold reject_request.
  destruct (decide (r ∈ pending_requests w)); [| reflexivity].
  by rewrite reject_not_pending.
Qed.

Lemma approve_request_pending (r : ref) (who : string) (w : world)
    (q : ApprovalRequest) :
  heap w !! r = Some q -> status q = PENDING -> r ∈ pending_requests w ->
  approve_request E r who w =
  (true,
   set_approved (approved_requests w ++ [r])
     (set_pending (list_remove r (pending_requests w))
        (resolved_world r (approved_by who (now E (clock_reads w)) q) w))).
Proof.
  intros Hq Hs Hin. unfold approve_request. rewrite decide_True by done.
  rewrite (approve_pending _ _ _ q) by done. reflexivity.
Qed.

Lemma reject_request_pending (r : ref) (who : string) (w : world)
    (q : ApprovalRequest) :
  heap w !! r = Some q -> status q = PENDING -> r ∈ pending_requests w ->
  reject_request E r who w =
  (true,
   set_rejected (rejected_requests w ++ [r])
     (set_pending (list_remove r (pending_requests w))
        (resolved_world r (rejected_by who (now E (clock_reads w)) q) w))).
Proof.
  intros Hq Hs Hin. unfold reject_request. rewrite decide_True by done.
  rewrite (reject_pending _ _ _ q) by done. reflexivity.
Qed.

(** C7 (amended). Resolving a request whose status is not pending returns
    false and changes nothing, through the request's own [approve] and
    [reject] and through the handler; the handler also returns false and
    changes nothing for a request it does not hold in its pending
    collection.  For a request whose status is pending, [approve] and
    [reject] return true, set the status to approved or rejected and record
    the resolver and the time; the handler does the same, and moves the
    request from the pending to the approved or rejected collection, when it
    holds the request in its pending collection. *)
Theorem resolve_only_pending (r : ref) (who : string) (w : world) :
  (status_of w r <> Some PENDING ->
     approve E r who w = (false, w) /\ reject E r who w = (false, w)
     /\ approve_request E r who w = (false, w)
     /\ reject_request E r who w = (false, w))
  /\ (r ∉ pending_requests w ->
        approve_request E r who w = (false, w)
        /\ reject_request E r who w = (false, w))
  /\ (forall q, heap w !! r = Some q -> status q = PENDING ->
        let t := now E (clock_reads w) in
        approve E r who w = (true, resolved_world r (approved_by who t q) w)
        /\ reject E r who w = (true, resolved_world r (rejected_by who t q) w)
        /\ (r ∈ pending_requests w ->
              approve_request E r who w =
                (true,
                 set_approved (approved_requests w ++ [r])
                   (set_pending (list_remove r (pending_requests w))
                      (resolved_world r (approved_by who t q) w)))
              /\ reject_request E r who w =
                (true,
                 set_rejected (rejected_requests w ++ [r])
                   (set_pending (list_remove r (pending_requests w))
                      (resolved_world r (rejected_by who t q) w))))).
Proof.
  split; [| split].
  - intros H. auto using approve_not_pending, reject_not_pending,
      approve_request_not_pending, reject_request_not_pending.
  - intros H. auto using approve_request_untracked, reject_request_untracked.
  - intros q Hq Hs t.
    split; [by apply approve_pending |].
    split; [by apply reject_pending |].
    intros Hin. split; [by apply approve_request_pending | by apply reject_request_pending].
Qed.

(** *** Requests only move forward *)

Lemma evolves_refl (w : world) : evolves w w.
Proof. split; [lia |]. intros r q Hq. exists q. auto. Qed.

Lemma evolves_trans (w1 w2 w3 : world) :
  evolves w1 w2 -> evolves w2 w3 -> evolves w1 w3.
Proof.
  intros [Hc1 H1] [Hc2 H2]. split; [lia |].
  intros r q Hq.
  destruct (H1 _ _ Hq) as (q' & Hq' & Hr' & Ht' & Hs').
  destruct (H2 _ _ Hq') as (q'' & Hq'' & Hr'' & Ht'' & Hs'').
  exists q''. repeat split; try congruence.
  intros Hne. rewrite <- (Hs' Hne). apply Hs''. by rewrite (Hs' Hne).
Qed.

Lemma evolves_same_heap (w w' : world) :
  heap w' = heap w -> (clock_reads w <= clock_reads w')%nat -> evolves w w'.
Proof.
  intros Hh Hc. split; [done |]. intros r q Hq. exists q. rewrite Hh. auto.
Qed.

Lemma evolves_insert (w w' : world) (r : ref) (q q' : ApprovalRequest) :
  heap w !! r = Some q -> status q = PENDING ->
  requested_at q' = requested_at q -> timeout_seconds q' = timeout_seconds q ->
  heap w' = <[r := q']> (heap w) -> (clock_reads w <= clock_reads w')%nat ->
  evolves w w'.
Proof.
  intros Hq Hs Hr Ht Hh Hc. split; [done |]. intros r0 q0 Hq0. rewrite Hh.
  destruct (decide (r0 = r)) as [-> | Hne].
  - exists q'. rewrite list_lookup_insert_eq by (by eapply lookup_lt_Some).
    assert (q0 = q) as -> by congruence. repeat split; congruence.
  - exists q0. rewrite list_lookup_insert_ne by done. auto.
Qed.

Lemma evolves_alloc (w w' : world) (q : ApprovalRequest) :
  heap w' = heap w ++ [q] -> (clock_reads w <= clock_reads w')%nat -> evolves w w'.
Proof.
  intros Hh Hc. split; [done |]. intros r q0 Hq0. exists q0.
  rewrite Hh, lookup_app_l by (by eapply lookup_lt_Some). auto.
Qed.

Lemma approve_evolves (r : ref) (who : string) (w : world) :
  evolves w (snd (approve E r who w)).
Proof.
  destruct (heap w !! r) as [q |] eqn:Hq.
  - destruct (decide (status q = PENDING)) as [Hs | Hs].
    + rewrite (approve_pending _ _ _ q) by done.
      eapply (evolves_insert _ _ r q (approved_by who _ q));
        [done | done | reflexivity | reflexivity | reflexivity | simpl; lia].
    + rewrite approve_not_pending; [apply evolves_refl |].
      unfold status_of. rewrite Hq. simpl. congruence.
  - rewrite approve_not_pending; [apply evolves_refl |].
    unfold status_of. by rewrite Hq.
Qed.

Lemma reject_evolves (r : ref) (who : string) (w : world) :
  evolves w (snd (reject E r who w)).
Proof.
  destruct (heap w !! r) as [q |] eqn:Hq.
  - destruct (decide (status q = PENDING)) as [Hs | Hs].
    + rewrite (reject_pending _ _ _ q) by done.
      eapply (evolves_insert _ _ r q (rejected_by who _ q));
        [done | done | reflexivity | reflexivity | reflexivity | simpl; lia].
    + rewrite reject_not_pending; [apply evolves_refl |].
      unfold status_of. rewrite Hq. simpl. congruence.
  - rewrite reject_not_pending; [apply evolves_refl |].
    unfold status_of. by rewrite Hq.
Qed.

Lemma is_expired_evolves (r : ref) (w : world) :
  evolves w (snd (is_expired E r w)).
Proof.
  unfold is_expired. destruct (heap w !! r) as [q |]; [| apply evolves_refl].
  destruct (decide (status q = PENDING)); [| apply evolves_refl].
  simpl. apply evolves_same_heap; simpl; [done | lia].
Qed.

Lemma new_request_evolves (atype descr : string) (data : dict) (timeout : Z)
    (w : world) :
  evolves w (snd (new_request E atype descr data timeout w)).
Proof. unfold new_request. simpl. eapply evolves_alloc; simpl; [done | lia]. Qed.

(** One iteration of the sweep, on the request at [r]. *)
Lemma sweep_cons (r : ref) (rest : list ref) (w : world) :
  sweep E (r :: rest) w =
  sweep E rest
    (if fst (is_expired E r w) then
       set_rejected (rejected_requests (snd (is_expired E r w)) ++ [r])
         (update_request r (with_status EXPIRED) (snd (is_expired E r w)))
     else snd (is_expired E r w)).
Proof.
  simpl. destruct (is_expired E r w) as [e w']. simpl.
  destruct e; [| reflexivity].
  f_equal. unfold update_request. destruct (heap w' !! r); reflexivity.
Qed.

Lemma is_expired_true (r : ref) (w : world) :
  fst (is_expired E r w) = true ->
  exists q, heap w !! r = Some q /\ status q = PENDING
    /\ snd (is_expired E r w) = set_clock_reads (S (clock_reads w)) w
    /\ timeout_seconds q * 1000000
       < elapsed_microseconds (now E (clock_reads w)) (requested_at q).
Proof.
  unfold is_expired. destruct (heap w !! r) as [q |]; [| discriminate].
  destruct (decide (status q = PENDING)); [| discriminate].
  simpl. intros H. exists q. repeat split; try done. lia.
Qed.

Lemma sweep_step_evolves (r : ref) (w : world) :
  evolves w
    (if fst (is_expired E r w) then
       set_rejected (rejected_requests (snd (is_expired E r w)) ++ [r])
         (update_request r (with_status EXPIRED) (snd (is_expired E r w)))
     else snd (is_expired E r w)).
Proof.
  destruct (fst (is_expired E r w)) eqn:He; [| apply is_expired_evolves].
  destruct (is_expired_true _ _ He) as (q & Hq & Hs & Hw & _).
  rewrite Hw. rewrite (update_request_some _ _ _ q) by done.
  eapply (evolves_insert _ _ r q (with_status EXPIRED q));
    [done | done | reflexivity | reflexivity | reflexivity | simpl; lia].
Qed.

Lemma sweep_evolves (rs : list ref) (w : world) : evolves w (sweep E rs w).
Proof.
  revert w. induction rs as [| r rest IH]; intros w; [apply evolves_refl |].
  rewrite sweep_cons. eapply evolves_trans; [apply sweep_step_evolves | apply IH].
Qed.

Lemma get_pending_request_evolves (w : world) :
  evolves w (snd (get_pending_request E w)).
Proof.
  unfold get_pending_request. destruct (pending_requests w) as [| x l] eqn:Hp;
    [apply evolves_refl |].
  simpl snd. eapply evolves_trans; [apply (sweep_evolves (x :: l)) |].
  apply evolves_same_heap; simpl; [done | lia].
Qed.

Lemma approve_request_evolves (r : ref) (who : string) (w : world) :
  evolves w (snd (approve_request E r who w)).
Proof.
  unfold approve_request. destruct (decide (r ∈ pending_requests w)); [| apply evolves_refl].
  pose proof (approve_evolves r who w) as H.
  destruct (approve E r who w) as [ok w']. simpl in H.
  destruct ok; [| done]. simpl.
  eapply evolves_trans; [exact H |]. apply evolves_same_heap; simpl; [done | lia].
Qed.

Lemma reject_request_evolves (r : ref) (who : string) (w : world) :
  evolves w (snd (reject_request E r who w)).
Proof.
  unfold reject_request. destruct (decide (r ∈ pending_requests w)); [| apply evolves_refl].
  pose proof (reject_evolves r who w) as H.
  destruct (reject E r who w) as [ok w']. simpl in H.
  destruct ok; [| done]. simpl.
  eapply evolves_trans; [exact H |]. apply evolves_same_heap; simpl; [done | lia].
Qed.

Lemma handler_step_evolves (c : handler_call) (w : world) :
  evolves w (handler_step E c w).
Proof.
  destruct c; simpl.
  - unfold request_terminal_approval, new_request. simpl.
    eapply evolves_alloc; simpl; [done | lia].
  - unfold request_file_approval, new_request. simpl.
    eapply evolves_alloc; simpl; [done | lia].
  - unfold request_url_approval, new_request. simpl.
    eapply evolves_alloc; simpl; [done | lia].
  - apply get_pending_request_evolves.
  - apply approve_request_evolves.
  - apply reject_request_evolves.
  - apply evolves_same_heap; simpl; [done | lia].
Qed.

Lemma step_evolves (c : call) (w : world) : evolves w (step E c w).
Proof.
  destruct c; simpl.
  - apply handler_step_evolves.
  - apply approve_evolves.
  - apply reject_evolves.
  - apply is_expired_evolves.
  - apply new_request_evolves.
Qed.

(** A status other than pending is final. *)
Lemma evolves_final_status (w w' : world) (r : ref) (s : ApprovalStatus) :
  evolves w w' -> status_of w r = Some s -> s <> PENDING -> status_of w' r = Some s.
Proof.
  intros [_ H] Hs Hne. unfold status_of in *.
  destruct (heap w !! r) as [q |] eqn:Hq; [| discriminate].
  simpl in Hs. injection Hs as <-.
  destruct (H _ _ Hq) as (q' & Hq' & _ & _ & Hsame).
  rewrite Hq'. simpl. by rewrite (Hsame Hne).
Qed.

(** *** Expiry *)

Lemma sweep_step_other (x r : ref) (w : world) :
  x <> r ->
  heap (if fst (is_expired E x w) then
          set_rejected (rejected_requests (snd (is_expired E x w)) ++ [x])
            (update_request x (with_status EXPIRED) (snd (is_expired E x w)))
        else snd (is_expired E x w)) !! r
  = heap w !! r.
Proof.
  intros Hne. destruct (fst (is_expired E x w)) eqn:He.
  - destruct (is_expired_true _ _ He) as (q & Hq & _ & Hw & _).
    rewrite Hw, (update_request_some _ _ _ q) by done. simpl.
    by rewrite list_lookup_insert_ne.
  - unfold is_expired. destruct (heap w !! x) as [q |]; [| done].
    destruct (decide (status q = PENDING)); done.
Qed.

Lemma is_expired_overdue (r : ref) (w : world) (q : ApprovalRequest) (n0 : nat) :
  monotone_clock E ->
  heap w !! r = Some q -> status q = PENDING -> (n0 <= clock_reads w)%nat ->
  timeout_seconds q * 1000000 < elapsed_microseconds (now E n0) (requested_at q) ->
  fst (is_expired E r w) = true.
Proof.
  intros Hmono Hq Hs Hn Hover. unfold is_expired. rewrite Hq.
  rewrite decide_True by done. simpl.
  apply Z.ltb_lt. unfold elapsed_microseconds in *.
  pose proof (Hmono _ _ Hn). lia.
Qed.

Lemma sweep_keeps_rejected (rs : list ref) (r : ref) (w : world) :
  r ∈ rejected_requests w -> r ∈ rejected_requests (sweep E rs w).
Proof.
  revert w. induction rs as [| y rest IH]; intros w H; [done |].
  rewrite sweep_cons. apply IH.
  destruct (fst (is_expired E y w)) eqn:He.
  - destruct (is_expired_true _ _ He) as (qy & Hqy & _ & Hw & _).
    rewrite Hw. simpl. set_solver.
  - unfold is_expired. destruct (heap w !! y) as [qy |]; [| done].
    destruct (decide (status qy = PENDING)); done.
Qed.

Lemma sweep_expires (rs : list ref) (r : ref) (q : ApprovalRequest) (n0 : nat) :
  monotone_clock E ->
  timeout_seconds q * 1000000 < elapsed_microseconds (now E n0) (requested_at q) ->
  status q = PENDING ->
  forall w, r ∈ rs -> heap w !! r = Some q -> (n0 <= clock_reads w)%nat ->
    status_of (sweep E rs w) r = Some EXPIRED
    /\ r ∈ rejected_requests (sweep E rs w).
Proof.
  intros Hmono Hover Hs.
  induction rs as [| x rest IH]; intros w Hin Hq Hn; [by apply elem_of_nil in Hin |].
  rewrite sweep_cons.
  destruct (decide (x = r)) as [-> | Hne].
  - rewrite (is_expired_overdue r w q n0) by done.
    pose proof (is_expired_overdue r w q n0 Hmono Hq Hs Hn Hover) as He.
    destruct (is_expired_true _ _ He) as (q' & Hq' & _ & Hw & _).
    assert (q' = q) as -> by congruence.
    rewrite Hw, (update_request_some _ _ _ q) by done.
    match goal with |- context [sweep E rest ?w1] => set (w1' := w1) end.
    assert (H1 : status_of w1' r = Some EXPIRED).
    { subst w1'. unfold status_of. simpl.
      rewrite list_lookup_insert_eq by (by eapply lookup_lt_Some). done. }
    split.
    + eapply evolves_final_status; [apply sweep_evolves | exact H1 | done].
    + apply sweep_keeps_rejected. subst w1'. simpl.
      apply elem_of_app. right. by apply list_elem_of_singleton.
  - apply IH.
    + apply elem_of_cons in Hin as [-> | Hin]; done.
    + by rewrite sweep_step_other.
    + pose proof (sweep_step_evolves x w) as [Hc _]. lia.
Qed.

Lemma sweep_pending (rs : list ref) (w : world) :
  pending_requests (sweep E rs w) = pending_requests w
  /\ approved_requests (sweep E rs w) = approved_requests w.
Proof.
  revert w. induction rs as [| y rest IH]; intros w; [done |].
  rewrite sweep_cons. destruct (IH
    (if fst (is_expired E y w) then
       set_rejected (rejected_requests (snd (is_expired E y w)) ++ [y])
         (update_request y (with_status EXPIRED) (snd (is_expired E y w)))
     else snd (is_expired E y w))) as [-> ->].
  destruct (fst (is_expired E y w)) eqn:He.
  - destruct (is_expired_true _ _ He) as (qy & Hqy & _ & Hw & _).
    rewrite Hw, (update_request_some _ _ _ qy) by done. done.
  - unfold is_expired. destruct (heap w !! y) as [qy |]; [| done].
    destruct (decide (status qy = PENDING)); done.
Qed.

Lemma get_pending_request_eq (w : world) :
  get_pending_request E w =
  match pending_requests w with
  | [] => (None, w)
  | _ =>
      let l := filter (fun r => status_of (swept E w) r = Some PENDING)
                      (pending_requests w) in
      (head l, set_pending l (swept E w))
  end.
Proof.
  unfold get_pending_request, swept.
  destruct (pending_requests w) as [| y l] eqn:Hp; [reflexivity |].
  cbv zeta. rewrite <- Hp.
  destruct (sweep_pending (pending_requests w) w) as [-> _]. reflexivity.
Qed.

Lemma get_pending_answer_pending (w : world) (x : ref) :
  fst (get_pending_request E w) = Some x ->
  status_of (snd (get_pending_request E w)) x = Some PENDING.
Proof.
  rewrite get_pending_request_eq.
  destruct (pending_requests w) as [| y l]; [discriminate |].
  simpl. intros H. apply head_Some_elem_of in H.
  apply list_elem_of_filter in H as [H _]. exact H.
Qed.

Lemma pending_answers_never_final (r : ref) (s : ApprovalStatus) (cs : list call) :
  s <> PENDING ->
  forall w, status_of w r = Some s ->
    Forall (fun a => a <> Some r) (pending_answers E cs w).
Proof.
  intros Hne. induction cs as [| c cs IH]; intros w Hs; [constructor |].
  assert (Hstep : status_of (step E c w) r = Some s)
    by (eapply evolves_final_status; [apply step_evolves | done | done]).
  destruct c as [[] | | | |]; simpl; try (by apply IH).
  constructor; [| by apply IH].
  intros Ha. apply get_pending_answer_pending in Ha.
  simpl in Hstep. congruence.
Qed.

Lemma run_evolves (cs : list call) (w : world) : evolves w (run (step E) cs w).
Proof.
  revert w. induction cs as [| c cs IH]; intros w; [apply evolves_refl |].
  simpl. eapply evolves_trans; [apply step_evolves | apply IH].
Qed.

(** C8. With a clock that does not run backwards: when a request that the
    handler holds as pending has been waiting for longer than its timeout,
    the next [get_pending_request] sets its status to expired and removes it
    from the pending collection (it is appended to the rejected collection);
    that call does not return it, and after any further sequence of calls
    its status is still expired and no [get_pending_request] returns it. *)
Theorem overdue_request_expires_for_good (w : world) (r : ref) (q : ApprovalRequest) :
  monotone_clock E ->
  heap w !! r = Some q -> status q = PENDING -> r ∈ pending_requests w ->
  timeout_seconds q * 1000000
    < elapsed_microseconds (now E (clock_reads w)) (requested_at q) ->
  let w1 := snd (get_pending_request E w) in
  status_of w1 r = Some EXPIRED
  /\ (r ∉ pending_requests w1)
  /\ (r ∈ rejected_requests w1)
  /\ fst (get_pending_request E w) <> Some r
  /\ forall cs : list call,
       status_of (run (step E) cs w1) r = Some EXPIRED
       /\ Forall (fun a => a <> Some r) (pending_answers E cs w1).
Proof.
  intros Hmono Hq Hs Hin Hover w1.
  assert (Hne : pending_requests w <> []) by (intros Hnil; rewrite Hnil in Hin; by apply elem_of_nil in Hin).
  destruct (sweep_expires (pending_requests w) r q (clock_reads w) Hmono Hover Hs
              w Hin Hq ltac:(lia)) as [Hst Hrej].
  fold (swept E w) in Hst, Hrej.
  assert (Hw1 : w1 = set_pending
                  (filter (fun r => status_of (swept E w) r = Some PENDING)
                          (pending_requests w)) (swept E w)).
  { subst w1. rewrite get_pending_request_eq.
    destruct (pending_requests w); [done | reflexivity]. }
  assert (Hst1 : status_of w1 r = Some EXPIRED) by (by rewrite Hw1).
  split; [exact Hst1 |].
  split.
  { rewrite Hw1. simpl. intros Hmem. apply list_elem_of_filter in Hmem as [Hmem _].
    congruence. }
  rename Hst into Hst0. rename Hst1 into Hst.
  assert (Hrej1 : r ∈ rejected_requests w1) by (by rewrite Hw1).
  clear Hrej. rename Hrej1 into Hrej.
  split; [exact Hrej |].
  split.
  { intros Ha. apply get_pending_answer_pending in Ha. fold w1 in Ha. congruence. }
  intros cs. split.
  - eapply evolves_final_status; [apply run_evolves | exact Hst | done].
  - apply (pending_answers_never_final r EXPIRED); [done | exact Hst].
Qed.

(** *** The collections of a handler *)

Lemma filter_keeps_all (P : ref -> Prop) `{forall x, Decision (P x)} (l : list ref) :
  (forall x, x ∈ l -> P x) -> filter P l = l.
Proof.
  induction l as [| y l IH]; intros Hall; [done |].
  rewrite filter_cons_True by (apply Hall; left).
  f_equal. apply IH. intros x Hx. apply Hall. by right.
Qed.

Lemma filter_drops_all (P : ref -> Prop) `{forall x, Decision (P x)} (l : list ref) :
  (forall x, x ∈ l -> ~ P x) -> filter P l = [].
Proof.
  induction l as [| y l IH]; intros Hall; [done |].
  rewrite filter_cons_False by (apply Hall; left).
  apply IH. intros x Hx. apply Hall. by right.
Qed.

Lemma list_remove_filter (r : ref) (l : list ref) :
  NoDup l -> list_remove r l = filter (fun x => x <> r) l.
Proof.
  induction l as [| x l IH]; intros Hnd; [done |].
  apply NoDup_cons in Hnd as [Hx Hnd]. simpl.
  destruct (decide (x = r)) as [-> | Hne].
  - rewrite filter_cons_False by (intros H; by apply H).
    symmetry. apply filter_keeps_all. intros y Hy ->. by apply Hx.
  - rewrite filter_cons_True by done. f_equal. by apply IH.
Qed.

Lemma status_of_same_heap (w w' : world) (r : ref) :
  heap w' = heap w -> status_of w' r = status_of w r.
Proof. intros H. unfold status_of. by rewrite H. Qed.

Lemma status_of_insert_eq (w w' : world) (r : ref) (q' : ApprovalRequest) :
  heap w' = <[r := q']> (heap w) -> (r < length (heap w))%nat ->
  status_of w' r = Some (status q').
Proof.
  intros H Hlt. unfold status_of. rewrite H, list_lookup_insert_eq by done. done.
Qed.

Lemma status_of_insert_ne (w w' : world) (r x : ref) (q' : ApprovalRequest) :
  heap w' = <[r := q']> (heap w) -> x <> r -> status_of w' x = status_of w x.
Proof.
  intros H Hne. unfold status_of. by rewrite H, list_lookup_insert_ne.
Qed.

Lemma status_of_valid (w : world) (r : ref) (s : ApprovalStatus) :
  status_of w r = Some s -> (r < length (heap w))%nat.
Proof.
  unfold status_of. destruct (heap w !! r) as [q |] eqn:Hq; [| discriminate].
  intros _. by eapply lookup_lt_Some.
Qed.

Lemma handler_inv_tracked_valid (w : world) (r : ref) :
  handler_inv w -> r ∈ tracked w -> (r < length (heap w))%nat.
Proof.
  intros (_ & Hp & Ha & Hr) Hin. unfold tracked in Hin.
  apply elem_of_app in Hin as [Hin | Hin]; [by eapply status_of_valid, Hp |].
  apply elem_of_app in Hin as [Hin | Hin]; [by eapply status_of_valid, Ha |].
  destruct (Hr _ Hin); by eapply status_of_valid.
Qed.

Lemma handler_inv_fresh (n : nat) (h : list ApprovalRequest) (w0 : world) :
  handler_inv (fresh_handler n h w0).
Proof.
  unfold handler_inv, fresh_handler. simpl.
  split; [constructor |]. repeat split; intros r Hr; by apply elem_of_nil in Hr.
Qed.

(** A new pending request enters the heap and the pending collection. *)
Lemma handler_inv_track_new (w w' : world) (q : ApprovalRequest) :
  handler_inv w -> status q = PENDING ->
  heap w' = heap w ++ [q] ->
  pending_requests w' = pending_requests w ++ [length (heap w)] ->
  approved_requests w' = approved_requests w ->
  rejected_requests w' = rejected_requests w ->
  handler_inv w'.
Proof.
  intros Hinv Hs Hh Hp Ha Hr.
  assert (Hfresh : length (heap w) ∉ tracked w).
  { intros Hin. pose proof (handler_inv_tracked_valid _ _ Hinv Hin). lia. }
  assert (Hold : forall r s, status_of w r = Some s -> status_of w' r = Some s).
  { intros r s Hr0. pose proof (status_of_valid _ _ _ Hr0) as Hlt.
    unfold status_of in *. by rewrite Hh, lookup_app_l. }
  assert (Hnew : status_of w' (length (heap w)) = Some PENDING).
  { unfold status_of. rewrite Hh, list_lookup_middle by done. simpl. by rewrite Hs. }
  destruct Hinv as (Hnd & HP & HA & HR). unfold tracked in Hfresh.
  unfold handler_inv. rewrite Hp, Ha, Hr.
  split.
  - rewrite !NoDup_app in *. rewrite !elem_of_app in Hfresh.
    destruct Hnd as (Hnd1 & Hd1 & Hnd2 & Hd2 & Hnd3).
    repeat split; try done.
    + intros x Hx ->%list_elem_of_singleton. tauto.
    + apply NoDup_singleton.
    + intros x [Hx | ->%list_elem_of_singleton]%elem_of_app.
      * by apply Hd1.
      * rewrite elem_of_app. tauto.
  - repeat split.
    + intros r [Hin | ->%list_elem_of_singleton]%elem_of_app; [by apply Hold, HP | done].
    + intros r Hin. by apply Hold, HA.
    + intros r Hin. destruct (HR _ Hin); [left | right]; by apply Hold.
Qed.

(** A pending request is resolved as [q'] and moved to [approved'] or
    [rejected']. *)
Lemma handler_inv_resolve (w w' : world) (r : ref) (q' : ApprovalRequest) :
  handler_inv w -> r ∈ pending_requests w ->
  heap w' = <[r := q']> (heap w) ->
  pending_requests w' = list_remove r (pending_requests w) ->
  (status q' = APPROVED /\ approved_requests w' = approved_requests w ++ [r]
     /\ rejected_requests w' = rejected_requests w)
  \/ (status q' = REJECTED /\ approved_requests w' = approved_requests w
     /\ rejected_requests w' = rejected_requests w ++ [r]) ->
  handler_inv w'.
Proof.
  intros Hinv Hin Hh Hp Hcase.
  assert (Hlt : (r < length (heap w))%nat).
  { apply handler_inv_tracked_valid; [done |]. unfold tracked. apply elem_of_app. by left. }
  destruct Hinv as (Hnd & HP & HA & HR).
  rewrite !NoDup_app in Hnd. destruct Hnd as (Hnd1 & Hd1 & Hnd2 & Hd2 & Hnd3).
  assert (Hra : r ∉ approved_requests w)
    by (intros H; apply (Hd1 _ Hin), elem_of_app; by left).
  assert (Hrr : r ∉ rejected_requests w)
    by (intros H; apply (Hd1 _ Hin), elem_of_app; by right).
  rewrite list_remove_filter in Hp by done.
  assert (Hst : status_of w' r = Some (status q')) by (by eapply status_of_insert_eq).
  assert (Hother : forall x, x <> r -> status_of w' x = status_of w x)
    by (intros x Hx; by eapply status_of_insert_ne).
  unfold handler_inv. rewrite Hp.
  destruct Hcase as [(Hs & -> & ->) | (Hs & -> & ->)]; rewrite Hs in Hst.
  - split.
    + rewrite !NoDup_app. repeat split; try done.
      * by apply NoDup_filter.
      * intros x [Hne Hx]%list_elem_of_filter.
        rewrite !elem_of_app, list_elem_of_singleton.
        intros [[H | H] | H]; [| done |];
          apply (Hd1 _ Hx), elem_of_app; [by left | by right].
      * by intros x Hx ->%list_elem_of_singleton.
      * apply NoDup_singleton.
      * intros x [Hx | ->%list_elem_of_singleton]%elem_of_app; [by apply Hd2 | done].
    + repeat split.
      * intros x [Hne Hx]%list_elem_of_filter. rewrite Hother by done. by apply HP.
      * intros x [Hx | ->%list_elem_of_singleton]%elem_of_app; [| done].
        rewrite Hother by (intros ->; done). by apply HA.
      * intros x Hx. rewrite Hother by (intros ->; done). by apply HR.
  - split.
    + rewrite !NoDup_app. repeat split; try done.
      * by apply NoDup_filter.
      * intros x [Hne Hx]%list_elem_of_filter.
        rewrite !elem_of_app, list_elem_of_singleton.
        intros [H | [H | H]]; [| | done];
          apply (Hd1 _ Hx), elem_of_app; [by left | by right].
      * intros x Hx [H | ->%list_elem_of_singleton]%elem_of_app; [by eapply Hd2 | done].
      * by intros x Hx ->%list_elem_of_singleton.
      * apply NoDup_singleton.
    + repeat split.
      * intros x [Hne Hx]%list_elem_of_filter. rewrite Hother by done. by apply HP.
      * intros x Hx. rewrite Hother by (intros ->; done). by apply HA.
      * intros x [Hx | ->%list_elem_of_singleton]%elem_of_app; [| by left].
        rewrite Hother by (intros ->; done). by apply HR.
Qed.

(** What one iteration of the sweep does to the request it visits. *)
Lemma sweep_step_visited (x : ref) (w : world) :
  status_of w x = Some PENDING ->
  let w1 := if fst (is_expired E x w) then
              set_rejected (rejected_requests (snd (is_expired E x w)) ++ [x])
                (update_request x (with_status EXPIRED) (snd (is_expired E x w)))
            else snd (is_expired E x w) in
  (status_of w1 x = Some PENDING /\ rejected_requests w1 = rejected_requests w)
  \/ (status_of w1 x = Some EXPIRED /\ rejected_requests w1 = rejected_requests w ++ [x]).
Proof.
  intros Hs w1. subst w1. destruct (fst (is_expired E x w)) eqn:He.
  - right. destruct (is_expired_true _ _ He) as (q & Hq & _ & Hw & _).
    rewrite Hw, (update_request_some _ _ _ q) by done. split; [| done].
    unfold status_of. simpl.
    rewrite list_lookup_insert_eq by (by eapply lookup_lt_Some). done.
  - left. unfold is_expired. destruct (heap w !! x) as [q |]; [| done].
    destruct (decide (status q = PENDING)); done.
Qed.

Lemma sweep_spec (rs : list ref) (w : world) :
  NoDup rs -> (forall r, r ∈ rs -> status_of w r = Some PENDING) ->
  rejected_requests (sweep E rs w)
    = rejected_requests w
      ++ filter (fun r => status_of (sweep E rs w) r = Some EXPIRED) rs
  /\ (forall r, r ∈ rs ->
        status_of (sweep E rs w) r = Some PENDING
        \/ status_of (sweep E rs w) r = Some EXPIRED)
  /\ (forall r, r ∉ rs -> heap (sweep E rs w) !! r = heap w !! r).
Proof.
  revert w. induction rs as [| x rest IH]; intros w Hnd Hall.
  - simpl. rewrite app_nil_r. split; [done |]. split; [| done].
    intros r Hr. by apply elem_of_nil in Hr.
  - apply NoDup_cons in Hnd as [Hx Hnd].
    rewrite sweep_cons.
    pose proof (sweep_step_visited x w (Hall x ltac:(left))) as Hvis.
    pose proof (fun r => sweep_step_other x r w) as Hoth.
    cbv zeta in Hvis.
    set (w1 := if fst (is_expired E x w) then _ else _) in *.
    assert (Hall1 : forall r, r ∈ rest -> status_of w1 r = Some PENDING).
    { intros r Hr. unfold status_of. rewrite Hoth by (intros ->; done).
      apply Hall. by right. }
    destruct (IH w1 Hnd Hall1) as (I1 & I2 & I3).
    assert (Hx1 : status_of (sweep E rest w1) x = status_of w1 x)
      by (unfold status_of; by rewrite I3).
    split; [| split].
    + rewrite I1. destruct Hvis as [[Hs Hr] | [Hs Hr]]; rewrite Hr.
      * rewrite filter_cons_False; [done |]. rewrite Hx1, Hs. discriminate.
      * rewrite filter_cons_True by (by rewrite Hx1, Hs).
        by rewrite <- app_assoc.
    + intros r [-> | Hr]%elem_of_cons; [| by apply I2].
      rewrite Hx1. destruct Hvis as [[Hs _] | [Hs _]]; auto.
    + intros r Hr. apply not_elem_of_cons in Hr as [Hne Hr].
      rewrite I3 by done. by apply Hoth.
Qed.

Lemma handler_inv_get_pending (w : world) :
  handler_inv w -> handler_inv (snd (get_pending_request E w)).
Proof.
  intros Hinv. rewrite get_pending_request_eq.
  destruct (pending_requests w) as [| y l] eqn:Hp; [exact Hinv |].
  rewrite <- Hp. cbv zeta. simpl snd.
  destruct Hinv as (Hnd & HP & HA & HR).
  rewrite !NoDup_app in Hnd. destruct Hnd as (Hnd1 & Hd1 & Hnd2 & Hd2 & Hnd3).
  destruct (sweep_spec (pending_requests w) w Hnd1 HP) as (S1 & S2 & S3).
  destruct (sweep_pending (pending_requests w) w) as [_ Sa].
  fold (swept E w) in S1, S2, S3, Sa.
  assert (Hframe : forall r, r ∉ pending_requests w ->
            status_of (swept E w) r = status_of w r)
    by (intros r Hr; unfold status_of; by rewrite S3).
  unfold handler_inv. simpl. rewrite Sa, S1.
  fold (status_of (swept E w)).
  split.
  - rewrite !NoDup_app. repeat split; try done; try (by apply NoDup_filter).
    + intros x [Hs Hx]%list_elem_of_filter.
      rewrite !elem_of_app, list_elem_of_filter.
      intros [H | [H | [H _]]].
      * apply (Hd1 _ Hx), elem_of_app. by left.
      * apply (Hd1 _ Hx), elem_of_app. by right.
      * congruence.
    + intros x Hx. rewrite elem_of_app, list_elem_of_filter.
      intros [H | [_ H]]; [by eapply Hd2 |].
      apply (Hd1 _ H), elem_of_app. by left.
    + intros x Hx [_ H]%list_elem_of_filter.
      apply (Hd1 _ H), elem_of_app. by right.
  - repeat split.
    + by intros r [Hs _]%list_elem_of_filter.
    + intros r Hr. change (status_of (swept E w) r = Some APPROVED).
      rewrite Hframe; [by apply HA |].
      intros H. apply (Hd1 _ H), elem_of_app. by left.
    + intros r [Hr | [Hs _]%list_elem_of_filter]%elem_of_app; [| by right].
      change (status_of (swept E w) r = Some REJECTED
              \/ status_of (swept E w) r = Some EXPIRED).
      rewrite Hframe; [by apply HR |].
      intros H. apply (Hd1 _ H), elem_of_app. by right.
Qed.

Lemma handler_inv_step (c : handler_call) (w : world) :
  handler_inv w -> handler_inv (handler_step E c w).
Proof.
  intros Hinv. destruct c as [command | file_path action | url | | r who | r who |].
  - simpl. unfold request_terminal_approval, new_request, datetime_now. simpl.
    eapply (handler_inv_track_new w _ (mk_request _ _ _ _ PENDING _ None None None));
      [exact Hinv | reflexivity ..].
  - simpl. unfold request_file_approval, new_request, datetime_now. simpl.
    eapply (handler_inv_track_new w _ (mk_request _ _ _ _ PENDING _ None None None));
      [exact Hinv | reflexivity ..].
  - simpl. unfold request_url_approval, new_request, datetime_now. simpl.
    eapply (handler_inv_track_new w _ (mk_request _ _ _ _ PENDING _ None None None));
      [exact Hinv | reflexivity ..].
  - by apply handler_inv_get_pending.
  - simpl. destruct (decide (r ∈ pending_requests w)) as [Hin | Hin].
    + pose proof Hinv as (_ & HP & _).
      pose proof (HP _ Hin) as Hs. unfold status_of in Hs.
      destruct (heap w !! r) as [q |] eqn:Hq; [| discriminate].
      simpl in Hs. injection Hs as Hs.
      rewrite (approve_request_pending _ _ _ q) by done. simpl snd.
      eapply (handler_inv_resolve w _ r); [exact Hinv | exact Hin | reflexivity ..|].
      left. repeat split.
    + by rewrite approve_request_untracked.
  - simpl. destruct (decide (r ∈ pending_requests w)) as [Hin | Hin].
    + pose proof Hinv as (_ & HP & _).
      pose proof (HP _ Hin) as Hs. unfold status_of in Hs.
      destruct (heap w !! r) as [q |] eqn:Hq; [| discriminate].
      simpl in Hs. injection Hs as Hs.
      rewrite (reject_request_pending _ _ _ q) by done. simpl snd.
      eapply (handler_inv_resolve w _ r); [exact Hinv | exact Hin | reflexivity ..|].
      right. repeat split.
    + by rewrite reject_request_untracked.
  - simpl. unfold handler_inv, clear_requests. simpl.
    split; [constructor |]. repeat split; intros r Hr; by apply elem_of_nil in Hr.
Qed.

Lemma handler_inv_run (cs : list handler_call) (w : world) :
  handler_inv w -> handler_inv (run (handler_step E) cs w).
Proof.
  revert w. induction cs as [| c cs IH]; intros w Hinv; [exact Hinv |].
  simpl. apply IH. by apply handler_inv_step.
Qed.

Lemma count_status_app (s : ApprovalStatus) (l1 l2 : list ref) (w : world) :
  count_status s (l1 ++ l2) w = (count_status s l1 w + count_status s l2 w)%nat.
Proof. unfold count_status. by rewrite filter_app, length_app. Qed.

Lemma count_status_none (s : ApprovalStatus) (l : list ref) (w : world) :
  (forall r, r ∈ l -> status_of w r <> Some s) -> count_status s l w = 0%nat.
Proof. intros H. unfold count_status. by rewrite filter_drops_all. Qed.

Lemma count_status_split (l : list ref) (w : world) :
  (forall r, r ∈ l -> status_of w r = Some REJECTED \/ status_of w r = Some EXPIRED) ->
  length l = (count_status REJECTED l w + count_status EXPIRED l w)%nat.
Proof.
  unfold count_status. induction l as [| x l IH]; intros H; [done |].
  pose proof (IH (fun r Hr => H r ltac:(by right))) as IH'.
  destruct (H x ltac:(by left)) as [Hx | Hx].
  - rewrite filter_cons_True by done.
    rewrite (filter_cons_False (fun r => status_of w r = Some EXPIRED))
      by (rewrite Hx; discriminate).
    simpl. lia.
  - rewrite filter_cons_False by (rewrite Hx; discriminate).
    rewrite (filter_cons_True (fun r => status_of w r = Some EXPIRED)) by done.
    simpl. lia.
Qed.

(** C10. In every state a handler reaches through its methods, the pending,
    approved and rejected collections hold no request twice and share none;
    the pending ones have status pending, the approved ones approved, and the
    rejected collection holds the requests with status rejected or expired;
    [get_pending_request] appends to the rejected collection exactly the
    pending requests it finds expired; hence [get_rejected_count] is the
    number of tracked requests with status rejected plus the number with
    status expired, which can differ from the number of rejected ones. *)
Theorem rejected_count_includes_expired (n : nat) (h : list ApprovalRequest)
    (w0 : world) (cs : list handler_call) :
  let w := run (handler_step E) cs (fresh_handler n h w0) in
  NoDup (tracked w)
  /\ (forall r, r ∈ pending_requests w -> status_of w r = Some PENDING)
  /\ (forall r, r ∈ approved_requests w -> status_of w r = Some APPROVED)
  /\ (forall r, r ∈ rejected_requests w ->
        status_of w r = Some REJECTED \/ status_of w r = Some EXPIRED)
  /\ (let w' := snd (get_pending_request E w) in
      rejected_requests w'
      = rejected_requests w
        ++ filter (fun r => status_of w' r = Some EXPIRED) (pending_requests w))
  /\ get_rejected_count w
     = (count_status REJECTED (tracked w) w + count_status EXPIRED (tracked w) w)%nat
  /\ (exists (E' : Env) (cs' : list handler_call),
        let v := run (handler_step E') cs' (initial_world ConfigMissing) in
        get_rejected_count v = 1%nat
        /\ count_status REJECTED (tracked v) v = 0%nat
        /\ count_status EXPIRED (tracked v) v = 1%nat).
Proof.
  intros w.
  assert (Hinv : handler_inv w) by apply handler_inv_run, handler_inv_fresh.
  pose proof Hinv as (Hnd & HP & HA & HR).
  split; [exact Hnd |]. split; [exact HP |]. split; [exact HA |]. split; [exact HR |].
  split; [| split].
  - cbv zeta. rewrite get_pending_request_eq.
    unfold tracked in Hnd. rewrite !NoDup_app in Hnd. destruct Hnd as (Hnd1 & _).
    destruct (sweep_spec (pending_requests w) w Hnd1 HP) as (S1 & _).
    unfold swept.
    destruct (pending_requests w) as [| y l]; [by rewrite app_nil_r |].
    exact S1.
  - unfold get_rejected_count, tracked. rewrite !count_status_app.
    rewrite (count_status_none REJECTED (pending_requests w))
      by (intros r Hr; rewrite (HP r Hr); discriminate).
    rewrite (count_status_none EXPIRED (pending_requests w))
      by (intros r Hr; rewrite (HP r Hr); discriminate).
    rewrite (count_status_none REJECTED (approved_requests w))
      by (intros r Hr; rewrite (HA r Hr); discriminate).
    rewrite (count_status_none EXPIRED (approved_requests w))
      by (intros r Hr; rewrite (HA r Hr); discriminate).
    rewrite (count_status_split (rejected_requests w) w HR). lia.
  - exists (sample_env yearly_clock 0),
      [RequestUrlApproval (VStr "https://a.example"); GetPendingRequest].
    vm_compute. auto.
Qed.

End ApprovalFacts.

Lemma days_before_year_monotone (y y' : Z) :
  0 <= y -> y <= y' -> days_before_year y <= days_before_year y'.
Proof.
  intros H0 Hle. unfold days_before_year. cbv zeta.
  assert (H1 : (y - 1) / 4 <= (y' - 1) / 4) by (apply Z.div_le_mono; lia).
  assert (H2 : (y - 1) / 400 <= (y' - 1) / 400) by (apply Z.div_le_mono; lia).
  assert (H3 : (y' - 1) / 100 - (y - 1) / 100 <= y' - y).
  { pose proof (Z.div_mod (y - 1) 100 ltac:(lia)).
    pose proof (Z.div_mod (y' - 1) 100 ltac:(lia)).
    pose proof (Z.mod_pos_bound (y - 1) 100 ltac:(lia)).
    pose proof (Z.mod_pos_bound (y' - 1) 100 ltac:(lia)).
    lia. }
  lia.
Qed.

Lemma yearly_clock_monotone (s : Q) : monotone_clock (sample_env yearly_clock s).
Proof.
  intros i j Hij. unfold to_microseconds, sample_env, yearly_clock.
  cbn [now year month day hour minute second microsecond].
  unfold ymd2ord.
  change (days_before_month (2026 + Z.of_nat i) 2) with 31.
  change (days_before_month (2026 + Z.of_nat j) 2) with 31.
  pose proof (days_before_year_monotone (2026 + Z.of_nat i) (2026 + Z.of_nat j)
                ltac:(lia) ltac:(lia)).
  lia.
Qed.

(** C7 as stated fails: a request whose status is pending, but which the
    handler no longer holds after [clear_requests], is refused by the
    handler. *)
Lemma approve_request_refuses_untracked_pending :
  let E := sample_env seconds_clock 0 in
  let w1 := snd (Approval.request_url_approval E (VStr "https://a.example")
                   (initial_world ConfigMissing)) in
  let w2 := Approval.clear_requests w1 in
  status_of w2 0%nat = Some PENDING
  /\ Approval.approve_request E 0%nat "user" w2 = (false, w2)
  /\ Approval.reject_request E 0%nat "user" w2 = (false, w2).
Proof. vm_compute. auto. Qed.

Lemma resolve_only_pending_witness :
  let E := sample_env seconds_clock 0 in
  let w1 := snd (Approval.request_url_approval E (VStr "https://a.example")
                   (initial_world ConfigMissing)) in
  let w2 := snd (Approval.approve_request E 0%nat "user" w1) in
  fst (Approval.approve_request E 0%nat "user" w1) = true
  /\ status_of w2 0%nat = Some APPROVED
  /\ Approval.reject_request E 0%nat "someone" w2 = (false, w2).
Proof.
  intros E w1 w2.
  pose (q := mk_request "url" "Browse URL: https://a.example"
               {["url" := VStr "https://a.example"]} 300 PENDING
               (seconds_clock 0) None None None).
  destruct (resolve_only_pending E 0%nat "user" w1) as (_ & _ & Hp).
  destruct (Hp q eq_refl eq_refl) as (_ & _ & Hh).
  destruct (Hh ltac:(vm_compute; left)) as [Ha _].
  destruct (resolve_only_pending E 0%nat "someone" w2) as (Hn & _ & _).
  destruct (Hn ltac:(vm_compute; discriminate)) as (_ & _ & _ & Hr).
  split; [by rewrite Ha |].
  split; [subst w2; by rewrite Ha | exact Hr].
Defined.

Lemma overdue_request_expires_for_good_witness :
  let E := sample_env yearly_clock 0 in
  let w := snd (Approval.request_url_approval E (VStr "https://a.example")
                  (initial_world ConfigMissing)) in
  let w1 := snd (Approval.get_pending_request E w) in
  status_of w1 0%nat = Some EXPIRED
  /\ Forall (fun a => a <> Some 0%nat)
       (Approval.pending_answers E
          [Approval.Handler Approval.GetPendingRequest;
           Approval.DirectApprove 0%nat "user";
           Approval.Handler Approval.GetPendingRequest] w1).
Proof.
  intros E w w1.
  pose (q := mk_request "url" "Browse URL: https://a.example"
               {["url" := VStr "https://a.example"]} 300 PENDING
               (yearly_clock 0) None None None).
  destruct (overdue_request_expires_for_good E w 0%nat q
              (yearly_clock_monotone 0) eq_refl eq_refl
              ltac:(vm_compute; left) ltac:(vm_compute; reflexivity))
    as (H1 & _ & _ & _ & H2).
  split; [exact H1 | apply H2].
Defined.

(** ** Orchestrator *)

Section MonitorFacts.

Import Monitor.

Variable E : Env.

Lemma append_assoc (a b c : string) : (a +:+ b) +:+ c = a +:+ b +:+ c.
Proof.
  induction a as [| x a IH]; [reflexivity |].
  change (String x ((a +:+ b) +:+ c) = String x (a +:+ b +:+ c)).
  by rewrite IH.
Qed.

(** The approval that [process_competitor] requests is always granted. *)
Lemma auto_approve (url : pyval) (w : world) :
  exists w2,
    Approval.approve_request E (fst (Approval.request_url_approval E url w)) "test"
      (snd (Approval.request_url_approval E url w)) = (true, w2)
    /\ status_of w2 (fst (Approval.request_url_approval E url w)) = Some APPROVED
    /\ errors w2 = errors w
    /\ reports_dir w2 = reports_dir w
    /\ diff_calls w2 = diff_calls w
    /\ config_file w2 = config_file w
    /\ clock_reads w2 = S (S (clock_reads w))
    /\ length (heap w2) = S (length (heap w)).
Proof.
  unfold Approval.request_url_approval, Approval.new_request, datetime_now. simpl.
  set (q := mk_request _ _ _ _ PENDING _ None None None).
  eexists. split.
  { apply (approve_request_pending E _ _ _ q); simpl.
    - by apply list_lookup_middle.
    - reflexivity.
    - apply elem_of_app. right. by apply list_elem_of_singleton. }
  simpl. repeat split.
  - unfold status_of. simpl.
    rewrite list_lookup_insert_eq by (rewrite length_app; simpl; lia). done.
  - rewrite length_insert, length_app. simpl. lia.
Qed.

Lemma process_competitor_eq (c : dict) (w : world) :
  let name := py_get c "name" (VStr "Unknown") in
  let url := py_get c "url" (VStr "") in
  exists w2,
    process_competitor E c w
    = fetch_and_classify E name url
        (initial_result name url (strftime_ymd (now E (clock_reads w)))) w2
    /\ errors w2 = errors w
    /\ reports_dir w2 = reports_dir w
    /\ diff_calls w2 = diff_calls w
    /\ config_file w2 = config_file w
    /\ clock_reads w2 = (3 + clock_reads w)%nat
    /\ length (heap w2) = S (length (heap w)).
Proof.
  intros name url. unfold process_competitor.
  fold name url. unfold datetime_now at 1. cbv iota beta.
  set (w1 := set_clock_reads (S (clock_reads w)) w).
  destruct (auto_approve url w1) as (w2 & Happ & Hst & He & Hr & Hd & Hc & Hk & Hh).
  destruct (Approval.request_url_approval E url w1) as [r w1'].
  simpl in Happ, Hst. rewrite Happ, Hst. simpl.
  exists w2. split; [reflexivity |]. subst w1. simpl in *. repeat split; done.
Qed.

Lemma fetch_and_classify_name (name url : pyval) (result : dict) (w : world) :
  result !! "competitor_name" = Some name ->
  fst (fetch_and_classify E name url result w) !! "competitor_name" = Some name.
Proof.
  intros H. unfold fetch_and_classify, on_exception.
  repeat case_match; simpl; by simplify_map_eq.
Qed.

Lemma process_competitor_name (c : dict) (w : world) :
  fst (process_competitor E c w) !! "competitor_name"
  = Some (py_get c "name" (VStr "Unknown")).
Proof.
  destruct (process_competitor_eq c w) as (w2 & -> & _).
  apply fetch_and_classify_name. reflexivity.
Qed.

Lemma process_all_cons (c : dict) (rest results errs : list dict) (w : world) :
  process_all E (c :: rest) results errs w =
  process_all E rest (results ++ [fst (process_competitor E c w)])
    (if findings_is_error (fst (process_competitor E c w)) then
       errs ++
       [ <["competitor_name" :=
             py_get (fst (process_competitor E c w)) "competitor_name" (VStr "Unknown")]>
         {["error_message" :=
             py_get (fst (process_competitor E c w)) "findings" (VStr "Unknown error")]} ]
     else errs)
    (snd (process_competitor E c w)).
Proof. simpl. destruct (process_competitor E c w). reflexivity. Qed.

Lemma process_all_names (cs results errs : list dict) (w : world) :
  (fun r => r !! "competitor_name") <$> (process_all E cs results errs w).1.1
  = ((fun r => r !! "competitor_name") <$> results)
    ++ ((fun c => Some (configured_name c)) <$> cs).
Proof.
  revert results errs w. induction cs as [| c rest IH]; intros results errs w.
  - simpl. by rewrite app_nil_r.
  - rewrite process_all_cons, IH, fmap_app, <- app_assoc. simpl.
    by rewrite process_competitor_name.
Qed.


Lemma competitor_section_heading (r : dict) :
  exists body,
    Report._generate_competitor_section E r =
    "## Competitor: "
    +:+ py_str (float_repr E) (py_get r "competitor_name" (VStr "Unknown")) +:+ body.
Proof.
  unfold Report._generate_competitor_section. cbv zeta.
  destruct (py_truthy (py_get r "is_strategic_shift" (VBool false)));
    rewrite !append_assoc; eexists; reflexivity.
Qed.

Lemma run_workflow_processing (w : world) (cs : list dict) (others : bool) :
  config_file w = ConfigParsed (mk_config (Some cs) others) -> cs <> [] ->
  run_workflow E w =
  let '(results, errs, w1) := process_all E cs [] [] w in
  let '(report, w2) := Report.generate_report E results (Some errs) w1 in
  (Ok report, save_to_reports_dir E report w2).
Proof.
  intros Hcfg Hne. unfold run_workflow, load_competitors_config. rewrite Hcfg.
  simpl. destruct cs as [| c cs]; [done |].
  unfold returned, process_and_report.
  destruct (process_all E (c :: cs) [] [] w) as [[results errs] w1].
  unfold Report.generate_report, datetime_now. reflexivity.
Qed.


Lemma fetch_and_classify_no_baseline (name url : pyval) (result : dict)
    (w : world) (text : string) :
  fetch E url = Ok (Some text) -> text <> "" ->
  baseline_text E w (clock_reads w) = None
  \/ baseline_text E w (clock_reads w) = Some "" ->
  fetch_and_classify E name url result w =
  (<["findings" := VStr "New competitor - no historical data for comparison"]>
   (<["detailed_changes" := VStr "No historical data available"]>
   (<["baseline_date" := VStr "N/A"]>
   (<["is_strategic_shift" := VBool false]>
   (<["shift_classification" := VStr "new_competitor"]>
   (<["similarity_percentage" := VInt 0]> result))))),
   set_clock_reads (S (clock_reads w)) w).
Proof.
  intros Hfetch Htext Hbase. unfold fetch_and_classify. rewrite Hfetch.
  assert (Hne : String.eqb text "" = false) by (by apply String.eqb_neq).
  simpl. rewrite Hne. simpl.
  unfold baseline_text in Hbase.
  unfold Retriever.find_latest_report, datetime_now. simpl.
  destruct (reports_dir w) as [files |] eqn:Hdir; [| reflexivity].
  destruct (Retriever.scan (now E (clock_reads w)) files) as [p |] eqn:Hscan;
    [| reflexivity].
  destruct (scan_some_dated _ _ _ Hscan) as [d Hd]. rewrite Hd.
  assert (Hsame : Retriever.get_baseline_text p (set_clock_reads (S (clock_reads w)) w)
                  = Retriever.get_baseline_text p w) by reflexivity.
  rewrite Hsame.
  destruct Hbase as [-> | ->]; reflexivity.
Qed.

(** C6. When the text of an entity has been fetched and the store yields no
    baseline text for it (no directory, no earlier report, an unreadable or
    empty report, or a report without body text) at the moment
    [process_competitor] consults it, which is its fourth reading of the
    clock, the result is classified
    [new_competitor] with similarity percentage 0 and the strategic-shift
    flag false, [diff_texts] is not called, and no error is logged; so this
    case never yields a [Strategic_Shift], whatever text was fetched. *)
Theorem no_baseline_is_new_competitor (c : dict) (w : world) (text : string) :
  fetch E (py_get c "url" (VStr "")) = Ok (Some text) -> text <> "" ->
  baseline_text E w (3 + clock_reads w) = None
  \/ baseline_text E w (3 + clock_reads w) = Some "" ->
  let r := fst (process_competitor E c w) in
  let w' := snd (process_competitor E c w) in
  r !! "shift_classification" = Some (VStr "new_competitor")
  /\ r !! "similarity_percentage" = Some (VInt 0)
  /\ r !! "is_strategic_shift" = Some (VBool false)
  /\ r !! "baseline_date" = Some (VStr "N/A")
  /\ r !! "shift_classification" <> Some (VStr "Strategic_Shift")
  /\ diff_calls w' = diff_calls w
  /\ errors w' = errors w.
Proof.
  intros Hfetch Htext Hbase r w'. subst r w'.
  destruct (process_competitor_eq c w) as (w2 & -> & He & Hr & Hd & _ & Hk & _).
  assert (Hb2 : baseline_text E w2 (clock_reads w2)
                = baseline_text E w (3 + clock_reads w)).
  { unfold baseline_text, Retriever.get_baseline_text, Retriever.get_report_content.
    by rewrite Hr, Hk. }
  rewrite (fetch_and_classify_no_baseline _ _ _ w2 text Hfetch Htext)
    by (by rewrite Hb2).
  simpl. repeat split; try done.
Qed.

End MonitorFacts.

Lemma no_baseline_is_new_competitor_witness :
  let E := sample_env seconds_clock 0 in
  let c : dict := <["name" := VStr "A"]> {["url" := VStr "https://a.example"]} in
  let w := initial_world (ConfigParsed (mk_config (Some [c]) false)) in
  fst (Monitor.process_competitor E c w) !! "shift_classification"
    = Some (VStr "new_competitor")
  /\ diff_calls (snd (Monitor.process_competitor E c w)) = [].
Proof.
  intros E c w.
  destruct (no_baseline_is_new_competitor E c w "Fast payments for small teams"
              eq_refl ltac:(discriminate) ltac:(left; reflexivity))
    as (H1 & _ & _ & _ & _ & H2 & _).
  split; [exact H1 | exact H2].
Defined.


(** C2 on the code. With two configured entities, the browser finding text
    for the first and nothing for the second: the run returns a report with
    a section for each; the failure is in the error ledger as a [network]
    record for the second entity; but the list of errors handed to the
    report generator is empty, so the error summary of the report states
    that all competitors were processed with no errors and has no entry for
    the second entity. *)
Lemma fetch_failure_absent_from_error_summary :
  let E := sample_env seconds_clock 0 in
  let w := initial_world (ConfigParsed (mk_config (Some two_entities) false)) in
  let ledger := errors (snd (Monitor.run_workflow E w)) in
  exists report : string,
  fst (Monitor.run_workflow E w) = Ok report
  /\ map (fun e => (error_type e, competitor_name e, message e)) ledger
    = [("network", VStr "B", "Failed to extract text from https://b.example")]
  /\ (Monitor.process_all E two_entities [] [] w).1.2 = []
  /\ report = Report.report_text E "2026-02-18"
                (Monitor.process_all E two_entities [] [] w).1.1 (Some [])
  /\ contains report "## Competitor: A" = true
  /\ contains report "- **Classification**: new_competitor" = true
  /\ contains report "## Competitor: B" = true
  /\ contains report "Failed to extract text" = true
  /\ contains report "All competitors were processed successfully with no errors." = true
  /\ contains report "The following errors occurred during processing:" = false
  /\ contains report "- **B**" = false
  /\ reports_dir (snd (Monitor.run_workflow E w))
     = Some [mk_file "2026-02-18_Intelligence.md" (Some report)].
Proof.
  cbv zeta. eexists. split; [vm_compute; reflexivity |].
  vm_compute. repeat split.
Qed.

(** ** Report compiler *)

Section ReportFacts.

Variable E : Env.

(** C1 (amended). The report is determined by the two arguments and the
    calendar date that [generate_report] reads from the clock when it is
    called: two calls with equal arguments and clock readings of the same
    date return the same text, whatever else differs between the two states;
    the call changes nothing but the count of clock readings; and the date in
    the title is that of the clock, not one taken from the arguments. *)
Theorem generate_report_determined_by_date (results : list dict)
    (errs : option (list dict)) (w1 w2 : world) :
  strftime_ymd (now E (clock_reads w1)) = strftime_ymd (now E (clock_reads w2)) ->
  fst (Report.generate_report E results errs w1)
    = fst (Report.generate_report E results errs w2)
  /\ snd (Report.generate_report E results errs w1)
     = set_clock_reads (S (clock_reads w1)) w1
  /\ exists rest,
       fst (Report.generate_report E results errs w1)
       = "# Intelligence Report: "
         +:+ strftime_ymd (now E (clock_reads w1)) +:+ rest.
Proof.
  intros Hdate. unfold Report.generate_report, datetime_now. simpl.
  rewrite Hdate. split; [reflexivity |]. split; [reflexivity |].
  unfold Report.report_text. eexists. reflexivity.
Qed.

End ReportFacts.

(** C1 as stated fails: two successive calls of [generate_report] with the
    same (empty) arguments return different texts when the date changes in
    between; the date printed comes from the clock, the arguments holding
    none. *)
Lemma generate_report_depends_on_clock :
  let E := sample_env yearly_clock 0 in
  let w := initial_world ConfigMissing in
  let first := Report.generate_report E [] None w in
  let second := Report.generate_report E [] None (snd first) in
  fst first <> fst second
  /\ contains (fst first) "# Intelligence Report: 2026-02-18" = true
  /\ contains (fst second) "# Intelligence Report: 2027-02-18" = true.
Proof.
  cbv zeta. split; [| split; vm_compute; reflexivity].
  intros H. apply String.eqb_eq in H. vm_compute in H. discriminate.
Qed.

Lemma generate_report_determined_by_date_witness :
  let E := sample_env seconds_clock 0 in
  let w1 := initial_world ConfigMissing in
  let w2 := set_clock_reads 7 (initial_world (ConfigInvalid "Expecting value")) in
  fst (Report.generate_report E two_entities None w1)
  = fst (Report.generate_report E two_entities None w2).
Proof.
  intros E w1 w2.
  destruct (generate_report_determined_by_date E two_entities None w1 w2 eq_refl)
    as [H _].
  exact H.
Defined.
(** * Further properties *)

(** ** The approval gate *)

Section ApprovalMore.

Import Approval.

Variable E : Env.

Lemma filter_partition (P Q : ref -> Prop) `{forall x, Decision (P x)}
    `{forall x, Decision (Q x)} (l : list ref) :
  (forall x, x ∈ l -> (P x \/ Q x) /\ ~ (P x /\ Q x)) ->
  filter P l ++ filter Q l ≡ₚ l.
Proof.
  induction l as [| x l IH]; intros Hall; [done |].
  assert (IH' : filter P l ++ filter Q l ≡ₚ l).
  { apply IH. intros y Hy. apply Hall. by right. }
  destruct (Hall x ltac:(left)) as [[HP | HQ] Hnot].
  - rewrite (filter_cons_True P) by done.
    rewrite (filter_cons_False Q) by tauto. simpl. by f_equiv.
  - rewrite (filter_cons_False P) by tauto.
    rewrite (filter_cons_True Q) by done.
    rewrite <- Permutation_middle. by f_equiv.
Qed.

Lemma list_remove_Permutation (r : ref) (l : list ref) :
  r ∈ l -> r :: list_remove r l ≡ₚ l.
Proof.
  induction l as [| x l IH]; intros Hin; [by apply elem_of_nil in Hin |].
  simpl. destruct (decide (x = r)) as [-> | Hne]; [done |].
  apply elem_of_cons in Hin as [-> | Hin]; [done |].
  rewrite Permutation_swap. f_equiv. by apply IH.
Qed.

(** What [get_pending_request] does to the three collections of a
    consistent handler. *)
Lemma get_pending_request_collections (w : world) :
  handler_inv w ->
  let w' := snd (get_pending_request E w) in
  pending_requests w'
    = filter (fun r => status_of w' r = Some PENDING) (pending_requests w)
  /\ rejected_requests w'
     = rejected_requests w
       ++ filter (fun r => status_of w' r = Some EXPIRED) (pending_requests w)
  /\ approved_requests w' = approved_requests w
  /\ fst (get_pending_request E w) = head (pending_requests w')
  /\ (forall r, r ∈ pending_requests w ->
        status_of w' r = Some PENDING \/ status_of w' r = Some EXPIRED).
Proof.
  intros (Hnd & HP & _). rewrite !NoDup_app in Hnd. destruct Hnd as (Hnd1 & _).
  destruct (sweep_spec E (pending_requests w) w Hnd1 HP) as (S1 & S2 & _).
  destruct (sweep_pending E (pending_requests w) w) as [_ Sa].
  fold (swept E w) in S1, S2, Sa.
  rewrite get_pending_request_eq.
  destruct (pending_requests w) as [| y l] eqn:Hp.
  - simpl. rewrite Hp. repeat split; try done.
    + by rewrite app_nil_r.
    + intros r Hr. by apply elem_of_nil in Hr.
  - rewrite <- Hp in *. cbv zeta. simpl. repeat split; done.
Qed.

End ApprovalMore.

(** X1. Once a request is approved, rejected or expired, no sequence of
    operations (methods of the handler, methods of request objects called
    directly, construction of further requests) changes anything about it:
    its status, its resolver and its time stamps stay as they are. *)
Theorem resolved_request_never_changes (E : Env) (cs : list Approval.call)
    (w : world) (r : ref) (q : ApprovalRequest) :
  heap w !! r = Some q -> status q <> PENDING ->
  heap (Approval.run (Approval.step E) cs w) !! r = Some q.
Proof.
  intros Hq Hs. destruct (run_evolves E cs w) as [_ H].
  destruct (H r q Hq) as (q' & Hq' & _ & _ & Hsame).
  by rewrite Hq', (Hsame Hs).
Qed.

(** A request approved by [alice] is then rejected and approved again by
    others, directly and through the handler, and the clock is consulted. *)
Lemma resolved_request_never_changes_witness :
  let E := sample_env seconds_clock 1 in
  let w :=
    Approval.run (Approval.step E)
      [Approval.Handler (Approval.RequestUrlApproval (VStr "https://a.example"));
       Approval.Handler (Approval.ApproveRequest 0%nat "alice")]
      (initial_world ConfigMissing) in
  exists q,
    heap w !! 0%nat = Some q
    /\ approver q = Some "alice"
    /\ heap (Approval.run (Approval.step E)
               [Approval.DirectReject 0%nat "bob";
                Approval.Handler (Approval.RejectRequest 0%nat "bob");
                Approval.DirectApprove 0%nat "carol";
                Approval.Handler Approval.GetPendingRequest] w) !! 0%nat = Some q.
Proof.
  intros E w. eexists. split; [reflexivity |]. split; [reflexivity |].
  apply (resolved_request_never_changes E); [reflexivity | discriminate].
Defined.

(** X2. On a handler whose collections are consistent, the request that
    [get_pending_request] returns is the first request of the pending
    collection that the call did not find expired: every request ahead of it
    has been given the status expired and moved to the rejected collection,
    and the request itself is still pending and is now first.  When the call
    returns nothing, it has expired every request of the pending collection
    and left the collection empty. *)
Theorem get_pending_request_first_unexpired (E : Env) (w : world) :
  handler_inv w ->
  let w' := snd (Approval.get_pending_request E w) in
  match fst (Approval.get_pending_request E w) with
  | Some r =>
      exists l1 l2,
        pending_requests w = l1 ++ r :: l2
        /\ (forall x, x ∈ l1 ->
              status_of w' x = Some EXPIRED /\ x ∈ rejected_requests w')
        /\ status_of w' r = Some PENDING
        /\ pending_requests w'
           = r :: filter (fun x => status_of w' x = Some PENDING) l2
  | None =>
      pending_requests w' = []
      /\ forall x, x ∈ pending_requests w ->
           status_of w' x = Some EXPIRED /\ x ∈ rejected_requests w'
  end.
Proof.
  intros Hinv w'.
  destruct (get_pending_request_collections E w Hinv) as (Hp & Hr & _ & Hans & Hst).
  fold w' in Hp, Hr, Hans, Hst. rewrite Hans.
  assert (Hexp : forall x, x ∈ pending_requests w ->
            status_of w' x <> Some PENDING ->
            status_of w' x = Some EXPIRED /\ x ∈ rejected_requests w').
  { intros x Hx Hne. destruct (Hst x Hx) as [H | H]; [done |].
    split; [done |]. rewrite Hr. apply elem_of_app. right.
    by apply list_elem_of_filter. }
  destruct (head (pending_requests w')) as [r |] eqn:Hhead.
  - rewrite Hp in Hhead.
    destruct (head_filter_Some _ _ _ Hhead) as (l1 & l2 & Hl & Hl1).
    exists l1, l2. split; [done |].
    assert (Hrp : status_of w' r = Some PENDING).
    { apply head_Some_elem_of in Hhead. by apply list_elem_of_filter in Hhead as [? _]. }
    split; [| split; [done |]].
    + intros x Hx. apply Hexp.
      * rewrite Hl. apply elem_of_app. by left.
      * by eapply Forall_forall in Hl1.
    + rewrite Hp, Hl, filter_app, filter_cons_True by done.
      rewrite (filter_drops_all _ l1); [done |].
      intros x Hx. by eapply Forall_forall in Hl1.
  - apply head_None in Hhead. split; [done |].
    intros x Hx. apply Hexp; [done |].
    intros Hs. assert (x ∈ pending_requests w') as Hin
      by (rewrite Hp; by apply list_elem_of_filter).
    rewrite Hhead in Hin. by apply elem_of_nil in Hin.
Qed.

(** Two requests made ten minutes apart: two minutes later the first has
    expired when the pending request is asked for, the second has not. *)
Lemma get_pending_request_first_unexpired_witness :
  let E := mk_env (fun k => match k with
                            | 0%nat => mk_datetime 2026 2 18 10 0 0 0
                            | 1%nat => mk_datetime 2026 2 18 10 10 0 0
                            | _ => mk_datetime 2026 2 18 10 12 0 0
                            end)
             (fun _ => "") (fun _ => Ok None) (fun _ _ => Ok ([], []))
             (fun _ _ => Ok 1%Q) None (fun _ => None) (fun _ => "")
             (fun _ _ => None) in
  let w :=
    Approval.run (Approval.handler_step E)
      [Approval.RequestUrlApproval (VStr "https://a.example");
       Approval.RequestTerminalApproval "ls"]
      (initial_world ConfigMissing) in
  fst (Approval.get_pending_request E w) = Some 1%nat
  /\ status_of (snd (Approval.get_pending_request E w)) 0%nat = Some EXPIRED.
Proof.
  intros E w.
  pose proof (get_pending_request_first_unexpired E w
                (handler_inv_run E _ _ (handler_inv_fresh 0 [] (initial_world ConfigMissing))))
    as H.
  split; [reflexivity |].
  change (fst (Approval.get_pending_request E w)) with (Some 1%nat) in H.
  destruct H as (l1 & l2 & Hl & Hall & _).
  apply Hall.
  change (pending_requests w) with [0%nat; 1%nat] in Hl.
  destruct l1 as [| a l1]; [discriminate |].
  injection Hl as -> _. left.
Defined.

(** X3. A consistent handler never loses or duplicates a request: asking
    for the pending request, approving and rejecting only move requests
    between the three collections, a new request adds the one new object, and
    only [clear_requests] drops requests (all of them). *)
Theorem handler_step_conserves_requests (E : Env) (c : Approval.handler_call)
    (w : world) :
  handler_inv w ->
  match c with
  | Approval.ClearRequests => tracked (Approval.handler_step E c w) = []
  | Approval.RequestTerminalApproval _
  | Approval.RequestFileApproval _ _
  | Approval.RequestUrlApproval _ =>
      tracked (Approval.handler_step E c w) ≡ₚ tracked w ++ [length (heap w)]
      /\ length (heap w) ∉ tracked w
  | _ => tracked (Approval.handler_step E c w) ≡ₚ tracked w
  end.
Proof.
  intros Hinv.
  assert (Hfresh : length (heap w) ∉ tracked w).
  { intros Hin. pose proof (handler_inv_tracked_valid _ _ Hinv Hin). lia. }
  assert (Hnew : forall p a r : list ref,
            (p ++ [length (heap w)]) ++ a ++ r ≡ₚ (p ++ a ++ r) ++ [length (heap w)]).
  { intros p a r. rewrite <- !app_assoc. f_equiv.
    rewrite (Permutation_app_comm [_]). by rewrite <- !app_assoc. }
  destruct c as [command | file_path action | url | | r who | r who |]; simpl.
  - split; [| done]. unfold tracked. simpl. apply Hnew.
  - split; [| done]. unfold tracked. simpl. apply Hnew.
  - split; [| done]. unfold tracked. simpl. apply Hnew.
  - destruct (get_pending_request_collections E w Hinv) as (Hp & Hr & Ha & _ & Hst).
    unfold tracked. rewrite Hp, Hr, Ha.
    set (w' := snd (Approval.get_pending_request E w)) in *.
    rewrite (app_assoc (approved_requests w)).
    rewrite (Permutation_app_comm (approved_requests w ++ rejected_requests w)).
    rewrite (app_assoc (filter _ _)).
    apply Permutation_app; [| done].
    apply filter_partition. intros x Hx. split; [by apply Hst |].
    intros [H1 H2]. congruence.
  - destruct (decide (r ∈ pending_requests w)) as [Hin | Hin];
      [| by rewrite approve_request_untracked].
    pose proof Hinv as (_ & HP & _).
    pose proof (HP _ Hin) as Hs. unfold status_of in Hs.
    destruct (heap w !! r) as [q |] eqn:Hq; [| discriminate].
    simpl in Hs. injection Hs as Hs.
    rewrite (approve_request_pending E _ _ _ q) by done.
    unfold tracked. simpl.
    etrans; [| apply Permutation_app;
                 [apply (list_remove_Permutation r _ Hin) | reflexivity]].
    rewrite <- !app_assoc. simpl. by rewrite <- !Permutation_middle.
  - destruct (decide (r ∈ pending_requests w)) as [Hin | Hin];
      [| by rewrite reject_request_untracked].
    pose proof Hinv as (_ & HP & _).
    pose proof (HP _ Hin) as Hs. unfold status_of in Hs.
    destruct (heap w !! r) as [q |] eqn:Hq; [| discriminate].
    simpl in Hs. injection Hs as Hs.
    rewrite (reject_request_pending E _ _ _ q) by done.
    unfold tracked. simpl.
    etrans; [| apply Permutation_app;
                 [apply (list_remove_Permutation r _ Hin) | reflexivity]].
    rewrite (Permutation_app_comm (rejected_requests w) [r]). simpl.
    by rewrite <- !Permutation_middle.
  - reflexivity.
Qed.

Lemma handler_step_conserves_requests_witness :
  let E := sample_env seconds_clock 1 in
  let w :=
    Approval.run (Approval.handler_step E)
      [Approval.RequestUrlApproval (VStr "https://a.example");
       Approval.RequestTerminalApproval "ls"]
      (initial_world ConfigMissing) in
  tracked (Approval.handler_step E (Approval.ApproveRequest 1%nat "alice") w)
  ≡ₚ tracked w.
Proof.
  intros E w.
  apply (handler_step_conserves_requests E (Approval.ApproveRequest 1%nat "alice") w).
  apply handler_inv_run.
  exact (handler_inv_fresh 0 [] (initial_world ConfigMissing)).
Defined.

(** X4. On a consistent handler [get_approval_status] answers pending
    exactly for the requests of the pending collection and approved exactly
    for those of the approved collection; an answer rejected means the
    request is in the rejected collection; and the answer is expired for every
    request the handler does not track, whatever the status of the request
    object is. *)
Theorem get_approval_status_reflects_collections (w : world) (r : ref) :
  handler_inv w ->
  (Approval.get_approval_status r w = Some PENDING <-> r ∈ pending_requests w)
  /\ (Approval.get_approval_status r w = Some APPROVED <-> r ∈ approved_requests w)
  /\ (Approval.get_approval_status r w = Some REJECTED -> r ∈ rejected_requests w)
  /\ (r ∈ rejected_requests w ->
        Approval.get_approval_status r w = Some REJECTED
        \/ Approval.get_approval_status r w = Some EXPIRED)
  /\ (r ∉ tracked w -> Approval.get_approval_status r w = Some EXPIRED).
Proof.
  intros (Hnd & HP & HA & HR). unfold Approval.get_approval_status, tracked.
  rewrite !NoDup_app in Hnd. destruct Hnd as (_ & Hd1 & _ & Hd2 & _).
  destruct (decide (r ∈ pending_requests w)) as [Hp | Hp].
  { pose proof (HP _ Hp) as Hs. rewrite Hs.
    assert (Hna : r ∉ approved_requests w)
      by (intros Hx; apply (Hd1 _ Hp), elem_of_app; by left).
    assert (Hnr : r ∉ rejected_requests w)
      by (intros Hx; apply (Hd1 _ Hp), elem_of_app; by right).
    repeat split; try done. intros Hn. exfalso. apply Hn, elem_of_app. by left. }
  destruct (decide (r ∈ approved_requests w)) as [Ha | Ha].
  { pose proof (HA _ Ha) as Hs. rewrite Hs.
    assert (Hnr : r ∉ rejected_requests w) by (intros Hx; by apply (Hd2 _ Ha)).
    repeat split; try done.
    intros Hn. exfalso. apply Hn. rewrite !elem_of_app. tauto. }
  destruct (decide (r ∈ rejected_requests w)) as [Hr | Hr].
  { destruct (HR _ Hr) as [Hs | Hs]; rewrite Hs; repeat split; try done; auto;
      intros Hn; exfalso; apply Hn; rewrite !elem_of_app; tauto. }
  repeat split; done.
Qed.

Lemma get_approval_status_reflects_collections_witness :
  let E := sample_env seconds_clock 1 in
  let w :=
    Approval.run (Approval.handler_step E)
      [Approval.RequestUrlApproval (VStr "https://a.example");
       Approval.ApproveRequest 0%nat "alice";
       Approval.ClearRequests]
      (initial_world ConfigMissing) in
  status_of w 0%nat = Some APPROVED
  /\ Approval.get_approval_status 0%nat w = Some EXPIRED.
Proof.
  intros E w. split; [reflexivity |].
  apply (get_approval_status_reflects_collections w 0%nat).
  - apply handler_inv_run.
    exact (handler_inv_fresh 0 [] (initial_world ConfigMissing)).
  - intros H. by apply elem_of_nil in H.
Defined.
(** ** The attributes of a request *)

Section RequestFacts.

Import Approval.

Variable E : Env.

Lemma heap_wf_same (w w' : world) : heap w' = heap w -> heap_wf w -> heap_wf w'.
Proof. intros H Hwf r q. rewrite H. apply Hwf. Qed.

Lemma heap_wf_insert (w w' : world) (r : ref) (q' : ApprovalRequest) :
  heap w' = <[r := q']> (heap w) -> request_wf q' -> heap_wf w -> heap_wf w'.
Proof.
  intros H Hq' Hwf x q. rewrite H. intros Hx.
  destruct (decide (x = r)) as [-> | Hne].
  - assert (Hlt : (r < length (heap w))%nat).
    { apply lookup_lt_Some in Hx. by rewrite length_insert in Hx. }
    rewrite list_lookup_insert_eq in Hx by done. by injection Hx as <-.
  - rewrite list_lookup_insert_ne in Hx by done. by eapply Hwf.
Qed.

Lemma heap_wf_alloc (w w' : world) (q' : ApprovalRequest) :
  heap w' = heap w ++ [q'] -> request_wf q' -> heap_wf w -> heap_wf w'.
Proof.
  intros H Hq' Hwf x q. rewrite H. intros Hx.
  apply lookup_app_Some in Hx as [Hx | [_ Hx]]; [by eapply Hwf |].
  apply list_lookup_singleton_Some in Hx as [_ <-]. exact Hq'.
Qed.

Lemma status_of_pending (w : world) (r : ref) :
  status_of w r = Some PENDING ->
  exists q, heap w !! r = Some q /\ status q = PENDING.
Proof.
  unfold status_of. destruct (heap w !! r) as [q |]; [| discriminate].
  simpl. intros [= H]. eauto.
Qed.

Lemma approve_heap_wf (r : ref) (who : string) (w : world) :
  heap_wf w -> heap_wf (snd (approve E r who w)).
Proof.
  intros Hwf. destruct (decide (status_of w r = Some PENDING)) as [Hs | Hs];
    [| by rewrite approve_not_pending].
  destruct (status_of_pending _ _ Hs) as (q & Hq & Hp).
  rewrite (approve_pending E _ _ _ q) by done. simpl.
  eapply heap_wf_insert; [reflexivity | | exact Hwf].
  pose proof (Hwf _ _ Hq) as Hq0. unfold request_wf in *. rewrite Hp in Hq0.
  simpl. destruct Hq0 as (_ & -> & _). eauto.
Qed.

Lemma reject_heap_wf (r : ref) (who : string) (w : world) :
  heap_wf w -> heap_wf (snd (reject E r who w)).
Proof.
  intros Hwf. destruct (decide (status_of w r = Some PENDING)) as [Hs | Hs];
    [| by rewrite reject_not_pending].
  destruct (status_of_pending _ _ Hs) as (q & Hq & Hp).
  rewrite (reject_pending E _ _ _ q) by done. simpl.
  eapply heap_wf_insert; [reflexivity | | exact Hwf].
  pose proof (Hwf _ _ Hq) as Hq0. unfold request_wf in *. rewrite Hp in Hq0.
  simpl. destruct Hq0 as (-> & _ & _). eauto.
Qed.

Lemma is_expired_heap (r : ref) (w : world) :
  heap (snd (is_expired E r w)) = heap w.
Proof.
  unfold is_expired. destruct (heap w !! r) as [q |]; [| reflexivity].
  destruct (decide (status q = PENDING)); reflexivity.
Qed.

Lemma sweep_heap_wf (rs : list ref) (w : world) :
  heap_wf w -> heap_wf (sweep E rs w).
Proof.
  revert w. induction rs as [| r rest IH]; intros w Hwf; [exact Hwf |].
  rewrite sweep_cons. apply IH.
  destruct (fst (is_expired E r w)) eqn:He.
  - destruct (is_expired_true E _ _ He) as (q & Hq & Hp & Hw & _).
    rewrite Hw, (update_request_some _ _ _ q) by done.
    eapply heap_wf_insert; [reflexivity | | exact Hwf].
    pose proof (Hwf _ _ Hq) as Hq0. unfold request_wf in *. rewrite Hp in Hq0.
    exact Hq0.
  - eapply heap_wf_same; [apply is_expired_heap | exact Hwf].
Qed.

Lemma new_request_heap_wf (atype descr : string) (data : dict) (timeout : Z)
    (w : world) :
  heap_wf w -> heap_wf (snd (new_request E atype descr data timeout w)).
Proof.
  intros Hwf. unfold new_request, datetime_now. simpl.
  eapply heap_wf_alloc; [reflexivity | | exact Hwf]. by repeat split.
Qed.

Lemma handler_step_heap_wf (c : handler_call) (w : world) :
  heap_wf w -> heap_wf (handler_step E c w).
Proof.
  intros Hwf. destruct c as [command | file_path action | url | | r who | r who |];
    simpl.
  - unfold request_terminal_approval, new_request, datetime_now. simpl.
    eapply heap_wf_alloc; [reflexivity | by repeat split | exact Hwf].
  - unfold request_file_approval, new_request, datetime_now. simpl.
    eapply heap_wf_alloc; [reflexivity | by repeat split | exact Hwf].
  - unfold request_url_approval, new_request, datetime_now. simpl.
    eapply heap_wf_alloc; [reflexivity | by repeat split | exact Hwf].
  - rewrite get_pending_request_eq.
    destruct (pending_requests w); [exact Hwf |].
    eapply heap_wf_same; [| apply (sweep_heap_wf (pending_requests w) w Hwf)].
    reflexivity.
  - unfold approve_request. destruct (decide (r ∈ pending_requests w)); [| exact Hwf].
    pose proof (approve_heap_wf r who w Hwf) as H.
    destruct (approve E r who w) as [[] w1]; simpl in *; [| exact H].
    eapply heap_wf_same; [| exact H]. reflexivity.
  - unfold reject_request. destruct (decide (r ∈ pending_requests w)); [| exact Hwf].
    pose proof (reject_heap_wf r who w Hwf) as H.
    destruct (reject E r who w) as [[] w1]; simpl in *; [| exact H].
    eapply heap_wf_same; [| exact H]. reflexivity.
  - exact Hwf.
Qed.

Lemma step_heap_wf (c : call) (w : world) : heap_wf w -> heap_wf (step E c w).
Proof.
  intros Hwf. destruct c as [c | r who | r who | r | atype descr data timeout]; simpl.
  - by apply handler_step_heap_wf.
  - by apply approve_heap_wf.
  - by apply reject_heap_wf.
  - eapply heap_wf_same; [apply is_expired_heap | exact Hwf].
  - by apply new_request_heap_wf.
Qed.

End RequestFacts.

(** X22. The resolver and the time stamps of a request always agree with
    its status.  If that holds of every request object at some point, it
    still holds after any sequence of operations (handler methods, direct
    calls of [approve], [reject] or [is_expired], creation of requests): a
    pending or expired request has no resolver and no approval or rejection
    time, an approved one has a resolver and an approval time only, and a
    rejected one has a resolver and a rejection time only. *)
Theorem request_attributes_agree_with_status (E : Env) (cs : list Approval.call)
    (w : world) :
  heap_wf w -> heap_wf (Approval.run (Approval.step E) cs w).
Proof.
  revert w. induction cs as [| c cs IH]; intros w Hwf; [exact Hwf |].
  simpl. apply IH. by apply step_heap_wf.
Qed.

Lemma request_attributes_agree_with_status_witness :
  let E := sample_env yearly_clock 1 in
  let w :=
    Approval.run (Approval.step E)
      [Approval.Handler (Approval.RequestUrlApproval (VStr "https://a.example"));
       Approval.Handler (Approval.RequestTerminalApproval "ls");
       Approval.Handler (Approval.RejectRequest 1%nat "bob");
       Approval.Handler Approval.GetPendingRequest]
      (initial_world ConfigMissing) in
  heap_wf w
  /\ (status <$> heap w !! 0%nat) = Some EXPIRED
  /\ (status <$> heap w !! 1%nat) = Some REJECTED.
Proof.
  intros E w. split; [| split; reflexivity].
  apply (request_attributes_agree_with_status E).
  intros r q Hq. destruct r; discriminate.
Defined.
(** ** The error ledger *)

Section CounterFacts.

Import Errors.

Context {K : Type} (eqb : K -> K -> bool).

Hypothesis eqb_sym : forall a b, eqb a b = true -> eqb b a = true.
Hypothesis eqb_trans : forall a b c, eqb a b = true -> eqb b c = true -> eqb a c = true.

Lemma eqb_same_class (a b c : K) : eqb a b = true -> eqb a c = eqb b c.
Proof.
  intros Hab. destruct (eqb a c) eqn:Hac, (eqb b c) eqn:Hbc; try reflexivity.
  - rewrite (eqb_trans b a c) in Hbc; [discriminate | by apply eqb_sym | done].
  - rewrite (eqb_trans a b c) in Hac; [discriminate | done | done].
Qed.

Lemma counter_get_proper (k k' : K) (d : list (K * nat)) :
  eqb k k' = true -> counter_get eqb k d = counter_get eqb k' d.
Proof.
  intros Hk. induction d as [| [k0 n] d IH]; [reflexivity |].
  simpl. destruct (eqb k0 k) eqn:H0.
  - by rewrite (eqb_trans k0 k k').
  - destruct (eqb k0 k') eqn:H1; [| exact IH].
    rewrite (eqb_trans k0 k' k) in H0; [discriminate | done | by apply eqb_sym].
Qed.

Lemma counter_get_set (k k' : K) (v : nat) (d : list (K * nat)) :
  counter_get eqb k (counter_set eqb k' v d)
  = if eqb k' k then v else counter_get eqb k d.
Proof.
  induction d as [| [k0 n] d IH]; [reflexivity |].
  simpl. destruct (eqb k0 k') eqn:H0; simpl.
  - rewrite <- (eqb_same_class k0 k' k H0). by destruct (eqb k0 k).
  - destruct (eqb k0 k) eqn:H1; [| exact IH].
    destruct (eqb k' k) eqn:H2; [| reflexivity].
    rewrite (eqb_trans k0 k k') in H0; [discriminate | done | by apply eqb_sym].
Qed.

Lemma counter_get_bump (k k' : K) (d : list (K * nat)) :
  counter_get eqb k (counter_bump eqb k' d)
  = (counter_get eqb k d + if eqb k' k then 1 else 0)%nat.
Proof.
  unfold counter_bump. rewrite counter_get_set.
  destruct (eqb k' k) eqn:Hk; [| lia].
  by rewrite (counter_get_proper k' k).
Qed.

Lemma counter_get_fold {A : Type} (key : A -> K) (k : K) (l : list A)
    (d : list (K * nat)) :
  counter_get eqb k (fold_left (fun d e => counter_bump eqb (key e) d) l d)
  = (counter_get eqb k d + length (List.filter (fun e => eqb (key e) k) l))%nat.
Proof.
  revert d. induction l as [| e l IH]; intros d; simpl; [lia |].
  rewrite IH, counter_get_bump. destruct (eqb (key e) k); simpl; lia.
Qed.

End CounterFacts.

Section CounterTotal.

Import Errors.

Context {K : Type} (eqb : K -> K -> bool).

Lemma counter_total_set (k : K) (v : nat) (d : list (K * nat)) :
  (counter_total (counter_set eqb k v d) + counter_get eqb k d
   = counter_total d + v)%nat.
Proof.
  induction d as [| [k0 n] d IH]; simpl; [lia |].
  destruct (eqb k0 k); simpl; lia.
Qed.

Lemma counter_total_fold {A : Type} (key : A -> K) (l : list A) (d : list (K * nat)) :
  counter_total (fold_left (fun d e => counter_bump eqb (key e) d) l d)
  = (counter_total d + length l)%nat.
Proof.
  revert d. induction l as [| e l IH]; intros d; simpl; [lia |].
  rewrite IH. unfold counter_bump.
  pose proof (counter_total_set (key e) (counter_get eqb (key e) d + 1) d). lia.
Qed.

End CounterTotal.

Lemma string_eqb_sym (a b : string) : String.eqb a b = true -> String.eqb b a = true.
Proof. by rewrite String.eqb_sym. Qed.

Lemma string_eqb_trans (a b c : string) :
  String.eqb a b = true -> String.eqb b c = true -> String.eqb a c = true.
Proof. rewrite !String.eqb_eq. congruence. Qed.

Lemma py_eq_sym (a b : pyval) : py_eq a b = true -> py_eq b a = true.
Proof.
  destruct a as [| [] | | |], b as [| [] | | |]; simpl; try done;
    try apply Qeq_bool_sym; apply string_eqb_sym.
Qed.

Lemma py_eq_trans (a b c : pyval) :
  py_eq a b = true -> py_eq b c = true -> py_eq a c = true.
Proof.
  destruct a as [| [] | | |], b as [| [] | | |], c as [| [] | | |]; simpl;
    try done; try apply Qeq_bool_trans; apply string_eqb_trans.
Qed.

Lemma py_eq_truthy (a b : pyval) : py_eq a b = true -> py_truthy a = py_truthy b.
Proof.
  assert (Hq : forall x y, Qeq_bool x y = true -> Qeq_bool x 0 = Qeq_bool y 0).
  { intros x y H. apply (eqb_same_class Qeq_bool Qeq_bool_sym Qeq_bool_trans _ _ _ H). }
  assert (Hz : forall z, Qeq_bool (inject_Z z) 0 = (z =? 0)).
  { intros z. unfold Qeq_bool, inject_Z. simpl. f_equal; lia. }
  destruct a as [| [] | | |], b as [| [] | | |]; simpl; try done; intros H;
    try (apply String.eqb_eq in H; by subst);
    apply Hq in H; rewrite ?Hz in H;
    try change (Qeq_bool 1 0) with false in H;
    try change (Qeq_bool 0 0) with true in H;
    by (rewrite H || rewrite <- H).
Qed.

(** X5. The summary of the ledger counts, for every kind of error, as many
    errors as [get_errors_by_type] lists, and its total is the number of
    errors in the ledger. *)
Theorem error_summary_counts_by_type (E : Env) (w : world) (etype : string) :
  Errors.counter_get String.eqb etype
    (Errors.errors_by_type (fst (Errors.get_error_summary E w)))
  = length (Errors.get_errors_by_type etype w)
  /\ Errors.total_errors (fst (Errors.get_error_summary E w))
     = length (Errors.get_errors w).
Proof.
  unfold Errors.get_error_summary, Errors.get_errors_by_type, datetime_now. simpl.
  split; [| reflexivity].
  by rewrite (counter_get_fold String.eqb string_eqb_sym string_eqb_trans).
Qed.

(** X6. In the summary of the ledger the counts by kind add up to the total
    number of errors, and so do the counts by competitor: every error is
    counted once under its kind and once under a competitor key. *)
Theorem error_summary_counts_add_up (E : Env) (w : world) :
  let s := fst (Errors.get_error_summary E w) in
  counter_total (Errors.errors_by_type s) = Errors.total_errors s
  /\ counter_total (Errors.errors_by_competitor s) = Errors.total_errors s.
Proof.
  unfold Errors.get_error_summary, datetime_now. simpl.
  by rewrite !counter_total_fold.
Qed.

(** X7. In the summary of the ledger, a competitor name that is not empty
    and is not ['N/A'] is counted as many times as
    [get_errors_by_competitor] lists errors for it; the key ['N/A'] counts
    the errors logged without a competitor name (or with an empty one)
    together with those of a competitor called ['N/A']. *)
Theorem error_summary_counts_by_competitor (E : Env) (w : world) (name : pyval) :
  py_truthy name = true -> py_eq name (VStr "N/A") = false ->
  let s := fst (Errors.get_error_summary E w) in
  Errors.counter_get py_eq name (Errors.errors_by_competitor s)
  = length (Errors.get_errors_by_competitor name w)
  /\ Errors.counter_get py_eq (VStr "N/A") (Errors.errors_by_competitor s)
     = length (List.filter counted_as_unnamed (errors w)).
Proof.
  intros Ht Hna.
  unfold Errors.get_error_summary, Errors.get_errors_by_competitor, datetime_now.
  simpl. split;
    rewrite (counter_get_fold py_eq py_eq_sym py_eq_trans); simpl; f_equal;
    apply filter_ext; intros e; unfold Errors.summary_key, py_or, counted_as_unnamed.
  - destruct (py_truthy (competitor_name e)) eqn:Hn; [reflexivity |].
    destruct (py_eq (VStr "N/A") name) eqn:H1.
    { apply py_eq_sym in H1. congruence. }
    destruct (py_eq (competitor_name e) name) eqn:H2; [| reflexivity].
    apply py_eq_truthy in H2. congruence.
  - by destruct (py_truthy (competitor_name e)).
Qed.

(** A ledger with a configuration error (no competitor), a network error
    for [B] and a script error for [B]. *)
Lemma error_summary_counts_by_competitor_witness :
  let E := sample_env seconds_clock 1 in
  let w :=
    snd (Errors.log_script_error E "boom" (VStr "B")
      (snd (Errors.log_network_error E "no text" (VStr "B")
        (snd (Errors.log_configuration_error E "competitors.json not found"
           (initial_world ConfigMissing)))))) in
  let s := fst (Errors.get_error_summary E w) in
  Errors.counter_get py_eq (VStr "B") (Errors.errors_by_competitor s)
  = length (Errors.get_errors_by_competitor (VStr "B") w)
  /\ Errors.counter_get py_eq (VStr "N/A") (Errors.errors_by_competitor s)
     = length (List.filter counted_as_unnamed (errors w)).
Proof.
  intros E w.
  apply (error_summary_counts_by_competitor E w (VStr "B")); reflexivity.
Defined.
(** ** The classifier *)

(** X8. On the scale of the percentage that the classifier reports, the
    boundary between drift and stability lies at 90: a pair reported as a
    strategic shift never shows more than 90 percent, and a pair reported as
    a minor update never shows less than 90 percent. *)
Theorem reported_percentage_boundary (E : Env) (text1 text2 : string)
    (r : Differ.diff_result) :
  Differ.calculate_similarity E text1 text2 = Ok r ->
  (Differ.is_strategic_shift r = true -> (Differ.similarity_percentage r <= 90)%Q)
  /\ (Differ.is_strategic_shift r = false -> (90 <= Differ.similarity_percentage r)%Q).
Proof.
  unfold Differ.calculate_similarity.
  destruct (encode E text1 text2) as [[e1 e2] |]; [| discriminate].
  destruct (cosine_similarity E e1 e2) as [s |]; [| discriminate].
  intros [= <-]. unfold Differ.classify.
  cbn [Differ.similarity_percentage Differ.is_strategic_shift].
  remember ((s + 1) / 2 * 100)%Q as x eqn:Hdef.
  assert (Hx : (x == (s + 1) * 50)%Q) by (subst x; field).
  clear Hdef.
  destruct (py_round_two_places x) as (k & Hk & Hlow & Hup).
  unfold Differ.Qltb. rewrite Hk.
  destruct (s ?= 80 # 100)%Q eqn:Hc; split; intros Hs; try discriminate.
  - apply Qeq_alt in Hc.
    assert (Hb : (90 - (1 # 200) <= k # 100)%Q) by lra.
    unfold Qle, Qminus, Qplus, Qopp in *. cbn [Qnum Qden] in *. lia.
  - apply Qlt_alt in Hc.
    assert (Hb : (k # 100 < 90 + (1 # 200))%Q) by lra.
    unfold Qle, Qlt, Qplus in *. cbn [Qnum Qden] in *. lia.
  - apply Qgt_alt in Hc.
    assert (Hb : (90 - (1 # 200) < k # 100)%Q) by lra.
    unfold Qle, Qlt, Qminus, Qplus, Qopp in *. cbn [Qnum Qden] in *. lia.
Qed.

(** The similarity 52428/65536, just below 0.8, is drift, and is reported as
    90 percent. *)
Lemma reported_percentage_boundary_witness :
  exists r,
    Differ.calculate_similarity (sample_env seconds_clock (52428 # 65536))
      "now" "before" = Ok r
    /\ Differ.is_strategic_shift r = true
    /\ (Differ.similarity_percentage r == 90)%Q
    /\ (Differ.similarity_percentage r <= 90)%Q.
Proof.
  eexists. split; [reflexivity |]. split; [reflexivity |]. split; [reflexivity |].
  apply (reported_percentage_boundary (sample_env seconds_clock (52428 # 65536))
           "now" "before"); reflexivity.
Defined.
(** ** Dates and file names *)

Lemma digits_ok_upto (w : nat) (bound : Z) (n : Z) :
  forallb (fun k => digits_ok w (Z.of_nat k)) (seq 0 (S (Z.to_nat bound))) = true ->
  0 <= n <= bound -> digits_ok w n = true.
Proof.
  intros Hall Hn. rewrite forallb_forall in Hall.
  specialize (Hall (Z.to_nat n)). rewrite Z2Nat.id in Hall by lia.
  apply Hall. apply in_seq. lia.
Qed.

Lemma four_digits (n : Z) : 0 <= n <= 9999 -> digits_ok 4 n = true.
Proof. apply (digits_ok_upto 4 9999). vm_compute. reflexivity. Qed.

Lemma two_digits (n : Z) : 0 <= n <= 99 -> digits_ok 2 n = true.
Proof. apply (digits_ok_upto 2 99). vm_compute. reflexivity. Qed.

Lemma digits_ok_four (n : Z) :
  digits_ok 4 n = true ->
  exists a b c d,
    zfill 4 n = String a (String b (String c (String d "")))
    /\ forallb is_digit [a; b; c; d] = true
    /\ int_of_digits (String a (String b (String c (String d "")))) = n.
Proof.
  unfold digits_ok. cbv zeta.
  destruct (zfill 4 n) as [| a [| b [| c [| d [| e s]]]]]; try discriminate.
  intros H. apply andb_prop in H as [H Hv]. apply andb_prop in H as [_ Hd].
  exists a, b, c, d. split; [reflexivity |]. split; [exact Hd |]. by apply Z.eqb_eq.
Qed.

Lemma digits_ok_two (n : Z) :
  digits_ok 2 n = true ->
  exists a b,
    zfill 2 n = String a (String b "")
    /\ forallb is_digit [a; b] = true
    /\ int_of_digits (String a (String b "")) = n.
Proof.
  unfold digits_ok. cbv zeta.
  destruct (zfill 2 n) as [| a [| b [| c s]]]; try discriminate.
  intros H. apply andb_prop in H as [H Hv]. apply andb_prop in H as [_ Hd].
  exists a, b. split; [reflexivity |]. split; [exact Hd |]. by apply Z.eqb_eq.
Qed.

Lemma days_in_month_le (y m : Z) : days_in_month y m <= 31.
Proof.
  unfold days_in_month.
  destruct (m =? 2); [destruct (is_leap y); lia |].
  destruct ((m =? 4) || (m =? 6) || (m =? 9) || (m =? 11)); lia.
Qed.

(** *** The digit class on ASCII text *)

Lemma is_digit_cases (c : Ascii.ascii) :
  is_digit c = true ->
  c = "0"%char \/ c = "1"%char \/ c = "2"%char \/ c = "3"%char \/ c = "4"%char
  \/ c = "5"%char \/ c = "6"%char \/ c = "7"%char \/ c = "8"%char \/ c = "9"%char.
Proof.
  destruct c as [[] [] [] [] [] [] [] []]; intros H; vm_compute in H;
    try discriminate H; clear H;
    repeat (first [left; reflexivity | right]); reflexivity.
Qed.

Ltac digit_cases H :=
  apply is_digit_cases in H;
  destruct H as [-> | [-> | [-> | [-> | [-> | [-> | [-> | [-> | [-> | ->]]]]]]]]].

Lemma is_digit_ascii (c : Ascii.ascii) : is_digit c = true -> byte_value c < 128.
Proof.
  unfold is_digit, byte_value. cbv zeta.
  rewrite andb_true_iff, !Nat.leb_le. lia.
Qed.

(** On a character of the ASCII range the class [\d] is the class
    [[0-9]]. *)
Lemma decimal_digit_ascii (c : Ascii.ascii) (rest : string) :
  byte_value c < 128 ->
  decimal_digit (String c rest)
  = if is_digit c then Some (digit_value c, rest) else None.
Proof.
  destruct c as [b0 b1 b2 b3 b4 b5 b6 []].
  - intros H. exfalso. revert H.
    destruct b0, b1, b2, b3, b4, b5, b6; vm_compute; discriminate.
  - intros _. destruct b0, b1, b2, b3, b4, b5, b6; vm_compute; reflexivity.
Qed.

Lemma int_of_digits_cons (c : Ascii.ascii) (s : string) :
  int_of_digits (String c s)
  = digit_value c * 10 ^ Z.of_nat (String.length s) + int_of_digits s.
Proof.
  unfold int_of_digits. simpl.
  assert (H : forall l acc,
            fold_left (fun acc c => acc * 10 + digit_value c) l acc
            = acc * 10 ^ Z.of_nat (length l)
              + fold_left (fun acc c => acc * 10 + digit_value c) l 0).
  { induction l as [| x l IH]; intros acc; cbn [fold_left length]; [simpl; lia |].
    rewrite (IH (acc * 10 + digit_value x)), (IH (0 * 10 + digit_value x)).
    replace (Z.of_nat (S (length l))) with (Z.of_nat (length l) + 1) by lia.
    rewrite Z.pow_add_r by lia. lia. }
  assert (Hlen : length (String.list_ascii_of_string s) = String.length s).
  { clear H. induction s as [| x s IH]; simpl; [reflexivity | by rewrite IH]. }
  rewrite H, Hlen. lia.
Qed.

(** A numeral of ASCII digits is read by [\d{n}] as the number it writes. *)
Lemma decimal_digits_ascii (s rest : string) (acc : Z) :
  forallb is_digit (String.list_ascii_of_string s) = true ->
  decimal_digits (String.length s) acc (s +:+ rest)
  = Some (acc * 10 ^ Z.of_nat (String.length s) + int_of_digits s, rest).
Proof.
  revert acc. induction s as [| c s IH]; intros acc Hd.
  - simpl. f_equal. f_equal. unfold int_of_digits. simpl. lia.
  - simpl in Hd. apply andb_prop in Hd as [Hc Hd].
    change (String c s +:+ rest) with (String c (s +:+ rest)).
    cbn [String.length decimal_digits].
    rewrite (decimal_digit_ascii c _ (is_digit_ascii c Hc)), Hc.
    cbn [mbind option_bind]. rewrite (IH _ Hd), int_of_digits_cons.
    f_equal. f_equal.
    replace (Z.of_nat (S (String.length s))) with (Z.of_nat (String.length s) + 1)
      by lia.
    rewrite Z.pow_add_r by lia. lia.
Qed.

Lemma digit_not_dash (c : Ascii.ascii) : is_digit c = true -> Ascii.eqb c "-" = false.
Proof. intros H. digit_cases H; reflexivity. Qed.

(** The directive [%m] on two ASCII digits followed by the dash. *)
Lemma month_field_two (m1 m2 : Ascii.ascii) (rest : string) :
  is_digit m1 = true -> is_digit m2 = true ->
  month_field (String m1 (String m2 (String "-" rest)))
  = let v := digit_value m1 * 10 + digit_value m2 in
    if (1 <=? v) && (v <=? 12) then Some (v, String "-" rest)
    else if 1 <=? digit_value m1
         then Some (digit_value m1, String m2 (String "-" rest))
         else None.
Proof. intros H1 H2. digit_cases H1; digit_cases H2; reflexivity. Qed.

(** The directive [%d] on two ASCII digits at the end of the text. *)
Lemma day_field_two (d1 d2 : Ascii.ascii) :
  is_digit d1 = true -> is_digit d2 = true ->
  day_field (String d1 (String d2 ""))
  = let v := digit_value d1 * 10 + digit_value d2 in
    if (1 <=? v) && (v <=? 31) then Some (v, "")
    else if 1 <=? digit_value d1
         then Some (digit_value d1, String d2 "")
         else None.
Proof. intros H1 H2. digit_cases H1; digit_cases H2; reflexivity. Qed.

Lemma int_of_two_digits (a b : Ascii.ascii) :
  int_of_digits (String a (String b "")) = digit_value a * 10 + digit_value b.
Proof. unfold int_of_digits. simpl. lia. Qed.

(** On a date written with ASCII digits, [strptime] reads the three numbers
    and accepts the calendar days from year 1 on. *)
Lemma strptime_ymd_ascii (y m d : string) :
  String.length y = 4%nat -> String.length m = 2%nat -> String.length d = 2%nat ->
  forallb is_digit (String.list_ascii_of_string y) = true ->
  forallb is_digit (String.list_ascii_of_string m) = true ->
  forallb is_digit (String.list_ascii_of_string d) = true ->
  strptime_ymd (y +:+ "-" +:+ m +:+ "-" +:+ d)
  = let Y := int_of_digits y in
    let M := int_of_digits m in
    let D := int_of_digits d in
    if (1 <=? Y) && (1 <=? M) && (M <=? 12) && (1 <=? D)
       && (D <=? days_in_month Y M)
    then Some (mk_datetime Y M D 0 0 0 0)
    else None.
Proof.
  intros Ly Lm Ld Dy Dm Dd. unfold strptime_ymd.
  rewrite <- Ly at 1. rewrite (decimal_digits_ascii y _ 0 Dy).
  cbn [mbind option_bind]. rewrite Z.mul_0_l, Z.add_0_l.
  destruct m as [| m1 [| m2 [| ? ?]]]; try discriminate.
  destruct d as [| d1 [| d2 [| ? ?]]]; try discriminate.
  simpl in Dm, Dd.
  apply andb_prop in Dm as [Hm1 Dm]. apply andb_prop in Dm as [Hm2 _].
  apply andb_prop in Dd as [Hd1 Dd]. apply andb_prop in Dd as [Hd2 _].
  change ("-" +:+ String m1 (String m2 "") +:+ "-" +:+ String d1 (String d2 ""))
    with (String "-" (String m1 (String m2 (String "-" (String d1 (String d2 "")))))).
  cbn [literal]. change (Ascii.eqb "-" "-") with true. cbn [mbind option_bind].
  rewrite (month_field_two m1 m2 _ Hm1 Hm2), !int_of_two_digits. cbv zeta.
  set (Y := int_of_digits y).
  set (M := digit_value m1 * 10 + digit_value m2).
  set (D := digit_value d1 * 10 + digit_value d2).
  pose proof (days_in_month_le Y M) as Hdim.
  destruct ((1 <=? M) && (M <=? 12)) eqn:HM.
  - cbn [mbind option_bind literal]. change (Ascii.eqb "-" "-") with true.
    cbn [mbind option_bind].
    rewrite (day_field_two d1 d2 Hd1 Hd2). cbv zeta. fold D.
    apply andb_prop in HM as [HM1 HM2]. rewrite HM1, HM2, !andb_true_r.
    destruct ((1 <=? D) && (D <=? 31)) eqn:HD.
    + cbn [mbind option_bind]. change (String.eqb "" "") with true.
      apply andb_prop in HD as [HD1 HD2]. rewrite HD1, andb_true_r, andb_true_l.
      reflexivity.
    + assert (Hno : (1 <=? Y) && (1 <=? D) && (D <=? days_in_month Y M) = false).
      { apply andb_false_iff in HD as [HD | HD].
        - rewrite HD, andb_false_r. reflexivity.
        - apply Z.leb_gt in HD.
          assert (Hgt : (D <=? days_in_month Y M) = false) by (apply Z.leb_gt; lia).
          rewrite Hgt, andb_false_r. reflexivity. }
      rewrite Hno.
      destruct (1 <=? digit_value d1); [| reflexivity].
      cbn [mbind option_bind]. reflexivity.
  - assert (Hno : (1 <=? Y) && (1 <=? M) && (M <=? 12) = false).
    { rewrite <- andb_assoc, HM, andb_false_r. reflexivity. }
    rewrite Hno. cbn [andb].
    destruct (1 <=? digit_value m1); [| reflexivity].
    cbn [mbind option_bind literal]. rewrite (digit_not_dash m2 Hm2). reflexivity.
Qed.

(** What follows the date in a name that begins with a date in ASCII
    digits. *)
Lemma after_date_group_ascii (y m d tail : string) :
  String.length y = 4%nat -> String.length m = 2%nat -> String.length d = 2%nat ->
  forallb is_digit (String.list_ascii_of_string y) = true ->
  forallb is_digit (String.list_ascii_of_string m) = true ->
  forallb is_digit (String.list_ascii_of_string d) = true ->
  Retriever.after_date_group (y +:+ "-" +:+ m +:+ "-" +:+ d +:+ tail) = Some tail.
Proof.
  intros Ly Lm Ld Dy Dm Dd. unfold Retriever.after_date_group.
  rewrite <- Ly at 1. rewrite (decimal_digits_ascii y _ 0 Dy).
  cbn [mbind option_bind].
  change ("-" +:+ m +:+ "-" +:+ d +:+ tail)
    with (String "-" (m +:+ "-" +:+ d +:+ tail)).
  cbn [literal]. change (Ascii.eqb "-" "-") with true. cbn [mbind option_bind].
  rewrite <- Lm at 1. rewrite (decimal_digits_ascii m _ 0 Dm).
  cbn [mbind option_bind].
  change ("-" +:+ d +:+ tail) with (String "-" (d +:+ tail)).
  cbn [literal]. change (Ascii.eqb "-" "-") with true. cbn [mbind option_bind].
  rewrite <- Ld at 1. rewrite (decimal_digits_ascii d _ 0 Dd).
  reflexivity.
Qed.

(** *** Names of reports *)

Lemma year_four_digits (y : Z) : 1000 <= y <= 9999 -> pretty y = zfill 4 y.
Proof.
  intros Hy.
  assert (Hall : forallb (fun k => (Z.of_nat k <? 1000)
                                   || String.eqb (pretty (Z.of_nat k))
                                                 (zfill 4 (Z.of_nat k)))
                         (seq 0 (S (Z.to_nat 9999))) = true)
    by (vm_compute; reflexivity).
  rewrite forallb_forall in Hall.
  specialize (Hall (Z.to_nat y)). rewrite Z2Nat.id in Hall by lia.
  destruct (y <? 1000) eqn:Hlt; [apply Z.ltb_lt in Hlt; lia |].
  apply String.eqb_eq, Hall, in_seq. lia.
Qed.

(** The name under which a report of a valid date is filed, spelled out. *)
Lemma generate_filename_for_shape (t : datetime) :
  valid_date t ->
  exists y m d,
    Organizer.generate_filename_for t
    = y +:+ "-" +:+ m +:+ "-" +:+ d +:+ "_Intelligence.md"
    /\ String.length y = 4%nat /\ String.length m = 2%nat
    /\ String.length d = 2%nat
    /\ forallb is_digit (String.list_ascii_of_string y) = true
    /\ forallb is_digit (String.list_ascii_of_string m) = true
    /\ forallb is_digit (String.list_ascii_of_string d) = true
    /\ int_of_digits y = year t
    /\ int_of_digits m = month t
    /\ int_of_digits d = day t.
Proof.
  intros (Hy & Hm & Hd). pose proof (days_in_month_le (year t) (month t)).
  destruct (digits_ok_four (year t)) as (y1 & y2 & y3 & y4 & Ey & Dy & Vy);
    [apply four_digits; lia |].
  destruct (digits_ok_two (month t)) as (m1 & m2 & Em & Dm & Vm);
    [apply two_digits; lia |].
  destruct (digits_ok_two (day t)) as (d1 & d2 & Ed & Dd & Vd);
    [apply two_digits; lia |].
  exists (String y1 (String y2 (String y3 (String y4 "")))),
         (String m1 (String m2 "")), (String d1 (String d2 "")).
  unfold Organizer.generate_filename_for, strftime_ymd.
  rewrite (year_four_digits (year t) Hy), Ey, Em, Ed.
  split; [by rewrite !append_assoc |].
  repeat split; done.
Qed.

(** A name made of a date in ASCII digits and the suffix of the reports
    matches the report pattern, with the date as its group. *)
Lemma report_pattern_match_ascii (y m d : string) :
  String.length y = 4%nat -> String.length m = 2%nat -> String.length d = 2%nat ->
  forallb is_digit (String.list_ascii_of_string y) = true ->
  forallb is_digit (String.list_ascii_of_string m) = true ->
  forallb is_digit (String.list_ascii_of_string d) = true ->
  let name := y +:+ "-" +:+ m +:+ "-" +:+ d +:+ "_Intelligence.md" in
  Retriever.glob_md name = true
  /\ Retriever.report_pattern_match name = Some (y +:+ "-" +:+ m +:+ "-" +:+ d).
Proof.
  intros Ly Lm Ld Dy Dm Dd name. subst name.
  unfold Retriever.report_pattern_match.
  rewrite (after_date_group_ascii y m d _ Ly Lm Ld Dy Dm Dd).
  destruct y as [| y1 [| y2 [| y3 [| y4 [| ? ?]]]]]; try discriminate.
  destruct m as [| m1 [| m2 [| ? ?]]]; try discriminate.
  destruct d as [| d1 [| d2 [| ? ?]]]; try discriminate.
  split; reflexivity.
Qed.

Lemma filename_reads_back (t : datetime) :
  valid_date t ->
  Retriever.glob_md (Organizer.generate_filename_for t) = true
  /\ is_Some (Retriever.report_pattern_match (Organizer.generate_filename_for t))
  /\ Retriever.stored_date (Organizer.generate_filename_for t) = Some (midnight t)
  /\ Retriever.get_report_date (Organizer.generate_filename_for t)
     = Some (midnight t).
Proof.
  intros Hv.
  destruct (generate_filename_for_shape t Hv)
    as (y & m & d & -> & Ly & Lm & Ld & Dy & Dm & Dd & Vy & Vm & Vd).
  destruct (report_pattern_match_ascii y m d Ly Lm Ld Dy Dm Dd) as [Hg Hp].
  cbv zeta in Hg, Hp.
  unfold Retriever.stored_date, Retriever.get_report_date. rewrite Hg, Hp.
  rewrite (strptime_ymd_ascii y m d Ly Lm Ld Dy Dm Dd). cbv zeta.
  rewrite Vy, Vm, Vd.
  destruct Hv as (Hy & Hm & Hd).
  assert (Hc : (1 <=? year t) && (1 <=? month t) && (month t <=? 12)
               && (1 <=? day t) && (day t <=? days_in_month (year t) (month t))
               = true).
  { rewrite !andb_true_iff, !Z.leb_le. lia. }
  rewrite Hc. repeat split; eauto.
Qed.

(** X9. The name under which a report is filed reads back as its date: for
    every calendar day with a year of four digits, from 1000 to 9999, the
    name that [generate_filename] produces for that day matches the report
    pattern, so the scan of the reports directory takes it into account, and
    [get_report_date] extracts the day from it. *)
Theorem generate_filename_round_trip (t : datetime) :
  valid_date t ->
  exists g,
    Retriever.report_pattern_match (Organizer.generate_filename_for t) = Some g
    /\ strptime_ymd g = Some (midnight t)
    /\ Retriever.stored_date (Organizer.generate_filename_for t) = Some (midnight t)
    /\ Retriever.get_report_date (Organizer.generate_filename_for t)
       = Some (midnight t).
Proof.
  intros Hv. destruct (filename_reads_back t Hv) as (_ & [g Hg] & Hs & Hd).
  exists g. split; [exact Hg |]. split; [| by split].
  unfold Retriever.get_report_date in Hd. by rewrite Hg in Hd.
Qed.

Lemma generate_filename_round_trip_witness :
  Retriever.stored_date
    (Organizer.generate_filename_for (mk_datetime 2026 2 18 10 0 0 0))
  = Some (mk_datetime 2026 2 18 0 0 0 0).
Proof.
  destruct (generate_filename_round_trip (mk_datetime 2026 2 18 10 0 0 0))
    as (g & _ & _ & H & _); [| exact H].
  unfold valid_date, days_in_month, is_leap. simpl. lia.
Defined.

(** The bound on the year is needed: the year 999 is written with three
    digits, and the name of a report of that year is not one the store
    recognises. *)
Lemma short_year_is_not_read_back :
  let t := mk_datetime 999 1 2 0 0 0 0 in
  Organizer.generate_filename_for t = "999-01-02_Intelligence.md"
  /\ Retriever.report_pattern_match (Organizer.generate_filename_for t) = None
  /\ Retriever.stored_date (Organizer.generate_filename_for t) = None.
Proof. vm_compute. repeat split. Qed.
(** ** Strings *)

Lemma append_nil_r (s : string) : s +:+ "" = s.
Proof.
  induction s as [| c s IH]; [reflexivity |].
  change (String c (s +:+ "") = String c s). by rewrite IH.
Qed.

Lemma string_rev_app_append (a b c : string) :
  String.rev_app (String.rev_app a b) c = String.rev_app b (a +:+ c).
Proof.
  revert b c. induction a as [| x a IH]; intros b c; [reflexivity |].
  simpl. rewrite IH. reflexivity.
Qed.

Lemma string_rev_app_spec (a b : string) : String.rev_app a b = String.rev a +:+ b.
Proof.
  unfold String.rev. revert b. induction a as [| x a IH]; intros b; [reflexivity |].
  simpl. rewrite (IH (String x b)), (IH (String x "")).
  by rewrite append_assoc.
Qed.

Lemma string_rev_rev_app (a cur : string) :
  String.rev (String.rev_app a cur) = String.rev cur +:+ a.
Proof.
  unfold String.rev at 1. rewrite string_rev_app_append, append_nil_r.
  apply string_rev_app_spec.
Qed.

Lemma string_rev_involutive (s : string) : String.rev (String.rev s) = s.
Proof. unfold String.rev at 2. by rewrite string_rev_rev_app. Qed.

Lemma string_rev_cons (c : Ascii.ascii) (s : string) :
  String.rev (String c s) = String.rev s +:+ String c "".
Proof. unfold String.rev at 1. simpl. apply string_rev_app_spec. Qed.

Lemma string_rev_append (a b : string) :
  String.rev (a +:+ b) = String.rev b +:+ String.rev a.
Proof.
  induction a as [| x a IH].
  - by rewrite append_nil_r.
  - change (String.rev (String x (a +:+ b)) = String.rev b +:+ String.rev (String x a)).
    by rewrite !string_rev_cons, IH, append_assoc.
Qed.

(** *** Prefixes and suffixes *)

Lemma prefix_append (n x : string) : String.prefix n (n +:+ x) = true.
Proof.
  induction n as [| c n IH]; [by destruct x |].
  change (String.prefix (String c n) (String c (n +:+ x)) = true).
  cbn [String.prefix]. by destruct (Ascii.ascii_dec c c).
Qed.

Lemma prefix_append_l (n s b : string) :
  String.prefix n s = true -> String.prefix n (s +:+ b) = true.
Proof.
  revert n. induction s as [| c s IH]; intros n H.
  - destruct n; [by destruct b | discriminate].
  - destruct n as [| a n]; [reflexivity |].
    change (String.prefix (String a n) (String c (s +:+ b)) = true).
    cbn [String.prefix] in *. destruct (Ascii.ascii_dec a c); [by apply IH | done].
Qed.

Lemma endswith_append (a p : string) : endswith (a +:+ p) p = true.
Proof. unfold endswith. rewrite string_rev_append. apply prefix_append. Qed.

(** *** Lines *)

Lemma split_lines_go_newline (cur a rest : string) :
  split_lines_go cur (String "010" a +:+ rest)
  = String.rev cur :: split_lines_go "" (a +:+ rest).
Proof. reflexivity. Qed.

Lemma split_lines_go_char (c : Ascii.ascii) (cur a rest : string) :
  Ascii.eqb c "010" = false ->
  split_lines_go cur (String c a +:+ rest) = split_lines_go (String c cur) (a +:+ rest).
Proof.
  intros H. change (String c a +:+ rest) with (String c (a +:+ rest)).
  simpl. by rewrite H.
Qed.

Lemma split_lines_go_no_newline (a cur rest : string) :
  no_newline a = true ->
  split_lines_go cur (a +:+ rest) = split_lines_go (String.rev_app a cur) rest.
Proof.
  revert cur. induction a as [| c a IH]; intros cur Ha; [reflexivity |].
  unfold no_newline in Ha. simpl in Ha. apply andb_prop in Ha as [Hc Ha].
  apply negb_true_iff in Hc.
  rewrite split_lines_go_char by done. by rewrite IH.
Qed.

(** The first line of a text is the text up to its first line break. *)
Lemma split_lines_go_head (cur s : string) :
  exists t ls, split_lines_go cur s = (String.rev cur +:+ t) :: ls.
Proof.
  revert cur. induction s as [| c s IH]; intros cur; simpl.
  - exists "", []. by rewrite append_nil_r.
  - destruct (Ascii.eqb c "010").
    + exists "", (split_lines_go "" s). by rewrite append_nil_r.
    + destruct (IH (String c cur)) as (t & ls & ->).
      exists (String c t), ls. by rewrite string_rev_cons, append_assoc.
Qed.

(** *** Stripping *)

Lemma lstrip_app (u v : string) (c : Ascii.ascii) :
  is_whitespace c = false ->
  lstrip (u +:+ String c v) = lstrip u +:+ String c v.
Proof.
  intros Hc. induction u as [| x u IH].
  - change (lstrip (String c v) = String c v). simpl. by rewrite Hc.
  - change (lstrip (String x (u +:+ String c v))
            = lstrip (String x u) +:+ String c v).
    simpl. destruct (is_whitespace x); [exact IH | reflexivity].
Qed.

Lemma lstrip_app_nonempty (u v : string) :
  lstrip u <> "" -> lstrip (u +:+ v) = lstrip u +:+ v.
Proof.
  induction u as [| x u IH]; intros Hne; [done |].
  change (lstrip (String x (u +:+ v)) = lstrip (String x u) +:+ v).
  simpl in *. destruct (is_whitespace x); [by apply IH | reflexivity].
Qed.

Lemma string_rev_empty (s : string) : String.rev s = "" -> s = "".
Proof. intros H. by rewrite <- (string_rev_involutive s), H. Qed.

(** Stripping on the right only looks at the end of a text. *)
Lemma rstrip_app (a b : string) :
  rstrip b <> "" -> rstrip (a +:+ b) = a +:+ rstrip b.
Proof.
  unfold rstrip. intros Hne. rewrite string_rev_append, lstrip_app_nonempty.
  - by rewrite string_rev_append, string_rev_involutive.
  - intros H. apply Hne. by rewrite H.
Qed.

(** Stripping keeps a first character that is not white space. *)
Lemma strip_head (c : Ascii.ascii) (s : string) :
  is_whitespace c = false -> exists t, strip (String c s) = String c t.
Proof.
  intros Hc. unfold strip, rstrip. simpl lstrip. rewrite Hc.
  rewrite string_rev_cons, lstrip_app by done.
  rewrite string_rev_append. eexists. reflexivity.
Qed.

(** *** Numerals *)

(** The characters of a numeral, of a padded numeral and of a date are
    digits and dashes. *)
Section NumeralCharacters.

Variable P : Ascii.ascii -> bool.

Hypothesis P_digit : forall c, is_digit c = true -> P c = true.

Hypothesis P_dash : P "-" = true.

Lemma chars_pretty_N_go (x : N) (s : string) :
  forallb P (String.list_ascii_of_string s) = true ->
  forallb P (String.list_ascii_of_string (pretty_N_go x s)) = true.
Proof.
  revert s. induction (N.lt_wf_0 x) as [x _ IH]; intros s Hs.
  destruct (decide (x = 0%N)) as [-> | Hx]; [by rewrite pretty_N_go_0 |].
  rewrite pretty_N_go_step by lia. apply IH.
  - apply N.div_lt; lia.
  - simpl. rewrite Hs, andb_true_r. apply P_digit.
    unfold pretty_N_char. by repeat case_match.
Qed.

Lemma chars_pretty_N (x : N) :
  forallb P (String.list_ascii_of_string (pretty x)) = true.
Proof.
  unfold pretty, pretty_N. case_decide; [| by apply chars_pretty_N_go].
  simpl. rewrite andb_true_r. by apply P_digit.
Qed.

Lemma chars_pretty_nat (n : nat) :
  forallb P (String.list_ascii_of_string (pretty n)) = true.
Proof. apply chars_pretty_N. Qed.

Lemma chars_pretty_Z (z : Z) :
  forallb P (String.list_ascii_of_string (pretty z)) = true.
Proof.
  unfold pretty, pretty_Z. destruct z as [| p | p].
  - simpl. rewrite andb_true_r. by apply P_digit.
  - apply chars_pretty_N.
  - change (forallb P (String.list_ascii_of_string (String "-" (pretty p))) = true).
    simpl. rewrite P_dash. apply chars_pretty_N.
Qed.

Lemma chars_append (a b : string) :
  forallb P (String.list_ascii_of_string a) = true ->
  forallb P (String.list_ascii_of_string b) = true ->
  forallb P (String.list_ascii_of_string (a +:+ b)) = true.
Proof.
  intros Ha Hb. induction a as [| c a IH]; [exact Hb |].
  change (forallb P (String.list_ascii_of_string (String c (a +:+ b))) = true).
  simpl in *. apply andb_prop in Ha as [Hc Ha].
  rewrite Hc. simpl. by apply IH.
Qed.

Lemma chars_zfill (w : nat) (z : Z) :
  forallb P (String.list_ascii_of_string (zfill w z)) = true.
Proof.
  unfold zfill. cbv zeta. induction (w - String.length (pretty z))%nat as [| k IH].
  - apply chars_pretty_Z.
  - simpl zfill_go. apply chars_append; [| exact IH].
    simpl. rewrite andb_true_r. by apply P_digit.
Qed.

Lemma chars_strftime_ymd (t : datetime) :
  forallb P (String.list_ascii_of_string (strftime_ymd t)) = true.
Proof.
  unfold strftime_ymd.
  apply chars_append; [apply chars_pretty_Z |].
  apply chars_append; [simpl; by rewrite P_dash |].
  apply chars_append; [apply chars_zfill |].
  apply chars_append; [simpl; by rewrite P_dash |].
  apply chars_zfill.
Qed.

End NumeralCharacters.

Lemma digit_is_not (x : Ascii.ascii) (c : Ascii.ascii) :
  is_digit x = false -> is_digit c = true -> negb (Ascii.eqb c x) = true.
Proof.
  intros Hx Hc. apply negb_true_iff, Ascii.eqb_neq. intros ->. congruence.
Qed.

Lemma no_newline_pretty_nat (n : nat) : no_newline (pretty n) = true.
Proof. apply chars_pretty_nat. intros c. by apply (digit_is_not "010"). Qed.

Lemma no_newline_pretty_Z (z : Z) : no_newline (pretty z) = true.
Proof.
  apply chars_pretty_Z; [intros c; by apply (digit_is_not "010") | reflexivity].
Qed.

Lemma no_newline_append (a b : string) :
  no_newline a = true -> no_newline b = true -> no_newline (a +:+ b) = true.
Proof. apply chars_append. Qed.

Lemma no_newline_zfill (w : nat) (z : Z) : no_newline (zfill w z) = true.
Proof.
  apply chars_zfill; [intros c; by apply (digit_is_not "010") | reflexivity].
Qed.

Lemma no_newline_strftime_ymd (t : datetime) : no_newline (strftime_ymd t) = true.
Proof.
  apply chars_strftime_ymd; [intros c; by apply (digit_is_not "010") | reflexivity].
Qed.

Lemma split_lines_go_newline_last (cur rest : string) :
  split_lines_go cur (String "010" "" +:+ rest)
  = String.rev cur :: split_lines_go "" rest.
Proof. reflexivity. Qed.

Lemma split_lines_go_char_last (c : Ascii.ascii) (cur rest : string) :
  Ascii.eqb c "010" = false ->
  split_lines_go cur (String c "" +:+ rest) = split_lines_go (String c cur) rest.
Proof. intros H. by rewrite split_lines_go_char. Qed.

(** The lines of a text that begins with [c]: the first begins with [c]. *)
Lemma split_lines_head_char (c : Ascii.ascii) (s : string) :
  Ascii.eqb c "010" = false ->
  exists t ls, split_lines (String c s) = String c t :: ls.
Proof.
  intros Hc. unfold split_lines. simpl. rewrite Hc.
  destruct (split_lines_go_head (String c "") s) as (t & ls & ->).
  by exists t, ls.
Qed.

(** *** The loop that extracts the baseline *)

Lemma baseline_lines_cons (line : string) (rest : list string) (in_content : bool)
    (acc : list string) :
  Retriever.baseline_lines (line :: rest) in_content acc
  = if String.eqb (strip line) "---"
    then Retriever.baseline_lines rest in_content acc
    else if startswith line "#" then
      (if in_content then acc else Retriever.baseline_lines rest in_content acc)
    else if negb in_content && String.eqb (strip line) "" then
      Retriever.baseline_lines rest in_content acc
    else Retriever.baseline_lines rest true (acc ++ [line]).
Proof. reflexivity. Qed.

Lemma baseline_lines_rule (line : string) (rest : list string) (in_content : bool)
    (acc : list string) :
  String.eqb (strip line) "---" = true ->
  Retriever.baseline_lines (line :: rest) in_content acc
  = Retriever.baseline_lines rest in_content acc.
Proof. intros H. by rewrite baseline_lines_cons, H. Qed.

Lemma baseline_lines_header (t : string) (rest : list string) (in_content : bool)
    (acc : list string) :
  Retriever.baseline_lines (String "#" t :: rest) in_content acc
  = if in_content then acc else Retriever.baseline_lines rest in_content acc.
Proof.
  destruct (strip_head "#" t eq_refl) as (t' & Ht).
  assert (Hs : startswith (String "#" t) "#" = true) by (by destruct t).
  by rewrite baseline_lines_cons, Ht, Hs.
Qed.

Lemma baseline_lines_blank (rest : list string) (in_content : bool)
    (acc : list string) :
  Retriever.baseline_lines ("" :: rest) in_content acc
  = if in_content then Retriever.baseline_lines rest true (acc ++ [""])
    else Retriever.baseline_lines rest false acc.
Proof. by destruct in_content. Qed.

Lemma baseline_lines_text (c : Ascii.ascii) (t : string) (rest : list string)
    (in_content : bool) (acc : list string) :
  is_whitespace c = false -> Ascii.eqb c "#" = false -> Ascii.eqb c "-" = false ->
  Retriever.baseline_lines (String c t :: rest) in_content acc
  = Retriever.baseline_lines rest true (acc ++ [String c t]).
Proof.
  intros Hw Hh Hd. destruct (strip_head c t Hw) as (t' & Ht).
  assert (H1 : String.eqb (String c t') "---" = false)
    by (simpl; by rewrite Hd).
  assert (H2 : startswith (String c t) "#" = false).
  { unfold startswith. apply Ascii.eqb_neq in Hh.
    destruct (Ascii.ascii_dec "#" c) as [Heq | Hne] eqn:Hdec.
    - exfalso. apply Hh. by symmetry.
    - destruct t; cbn [String.prefix]; by rewrite Hdec. }
  rewrite baseline_lines_cons, Ht, H1, H2. simpl. by rewrite andb_false_r.
Qed.
(** ** Days between dates *)

Lemma days_in_month_ge (y m : Z) : 28 <= days_in_month y m.
Proof.
  unfold days_in_month.
  destruct (m =? 2); [destruct (is_leap y); lia |].
  destruct ((m =? 4) || (m =? 6) || (m =? 9) || (m =? 11)); lia.
Qed.

Lemma days_before_month_step (y m : Z) :
  1 <= m -> days_before_month y (m + 1) = days_before_month y m + days_in_month y m.
Proof.
  intros Hm. unfold days_before_month.
  replace (Z.to_nat (m + 1 - 1)) with (S (Z.to_nat (m - 1))) by lia.
  rewrite seq_S, map_app, fold_left_app. simpl.
  do 2 f_equal. lia.
Qed.

Lemma days_before_month_monotone (y m m' : Z) :
  1 <= m -> m <= m' -> days_before_month y m <= days_before_month y m'.
Proof.
  intros Hm Hle.
  replace m' with (m + Z.of_nat (Z.to_nat (m' - m))) by lia.
  induction (Z.to_nat (m' - m)) as [| k IH].
  - replace (m + Z.of_nat 0) with m by lia. lia.
  - replace (m + Z.of_nat (S k)) with (m + Z.of_nat k + 1) by lia.
    rewrite days_before_month_step by lia.
    pose proof (days_in_month_ge y (m + Z.of_nat k)). lia.
Qed.

Lemma days_before_month_end (y : Z) :
  days_before_month y 13 = 365 + (if is_leap y then 1 else 0).
Proof.
  unfold days_before_month, days_in_month.
  generalize (is_leap y). intros b. destruct b; vm_compute; reflexivity.
Qed.

Lemma div_pred_step (y c : Z) :
  0 < c -> y / c = (y - 1) / c + (if y mod c =? 0 then 1 else 0).
Proof.
  intros Hc.
  pose proof (Z.div_mod y c ltac:(lia)) as H1.
  pose proof (Z.div_mod (y - 1) c ltac:(lia)) as H2.
  pose proof (Z.mod_pos_bound y c Hc) as B1.
  pose proof (Z.mod_pos_bound (y - 1) c Hc) as B2.
  destruct (y mod c =? 0) eqn:H0; rewrite ?Z.eqb_eq, ?Z.eqb_neq in H0; nia.
Qed.

Lemma days_before_year_step (y : Z) :
  days_before_year (y + 1)
  = days_before_year y + 365 + (if is_leap y then 1 else 0).
Proof.
  unfold days_before_year, is_leap. cbv zeta.
  replace (y + 1 - 1) with y by lia.
  rewrite (div_pred_step y 4), (div_pred_step y 100), (div_pred_step y 400) by lia.
  assert (H1 : y mod 400 = 0 -> y mod 100 = 0).
  { intros H. rewrite (Z.div_mod y 400) by lia. rewrite H, Z.add_0_r.
    replace (400 * (y / 400)) with ((4 * (y / 400)) * 100) by lia.
    apply Z.mod_mul. lia. }
  assert (H2 : y mod 100 = 0 -> y mod 4 = 0).
  { intros H. rewrite (Z.div_mod y 100) by lia. rewrite H, Z.add_0_r.
    replace (100 * (y / 100)) with ((25 * (y / 100)) * 4) by lia.
    apply Z.mod_mul. lia. }
  destruct (y mod 4 =? 0) eqn:H4; destruct (y mod 100 =? 0) eqn:H100;
    destruct (y mod 400 =? 0) eqn:H400; simpl;
    rewrite ?Z.eqb_eq, ?Z.eqb_neq in *; lia.
Qed.

(** Later calendar days have larger ordinals. *)
Lemma ymd2ord_lt (y m d y' m' d' : Z) :
  1 <= y -> 1 <= m <= 12 -> 1 <= d <= days_in_month y m ->
  1 <= m' -> 1 <= d' ->
  y < y' \/ (y = y' /\ (m < m' \/ (m = m' /\ d < d'))) ->
  ymd2ord y m d < ymd2ord y' m' d'.
Proof.
  intros Hy Hm Hd Hm' Hd' Hlt. unfold ymd2ord.
  pose proof (days_before_month_step y m ltac:(lia)) as Hstep.
  pose proof (days_before_month_monotone y' 1 m' ltac:(lia) ltac:(lia)) as H0.
  change (days_before_month y' 1) with 0 in H0.
  destruct Hlt as [Hlt | [<- [Hlt | [<- Hlt]]]].
  - pose proof (days_before_month_monotone y (m + 1) 13 ltac:(lia) ltac:(lia)) as H1.
    rewrite days_before_month_end in H1.
    pose proof (days_before_year_step y) as H2.
    pose proof (days_before_year_monotone (y + 1) y' ltac:(lia) ltac:(lia)).
    lia.
  - pose proof (days_before_month_monotone y (m + 1) m' ltac:(lia) ltac:(lia)). lia.
  - lia.
Qed.

(** What [strptime] returns is the first instant of a calendar day. *)
Lemma digit_between_range (lo hi : Z) (s r : string) (v : Z) :
  digit_between lo hi s = Some (v, r) -> lo <= v <= hi.
Proof.
  destruct s as [| c s]; [discriminate |]. unfold digit_between.
  destruct (is_digit c && (lo <=? digit_value c) && (digit_value c <=? hi)) eqn:H;
    [| discriminate].
  intros [= <- <-]. rewrite !andb_true_iff, !Z.leb_le in H. lia.
Qed.

Lemma decimal_digit_range (s r : string) (v : Z) :
  decimal_digit s = Some (v, r) -> 0 <= v <= 9.
Proof.
  unfold decimal_digit. destruct (utf8_decode s) as [[cp rest] |]; [| discriminate].
  cbn [mbind option_bind].
  destruct (List.find _ decimal_zeros) as [z |] eqn:Hz; [| discriminate].
  cbn [mbind option_bind]. intros [= <- <-].
  apply find_some in Hz as [_ Hz].
  rewrite andb_true_iff, Z.leb_le, Z.ltb_lt in Hz. lia.
Qed.

Ltac field_range :=
  repeat match goal with
         | H : digit_between _ _ _ = Some _ |- _ => apply digit_between_range in H
         | H : decimal_digit _ = Some _ |- _ => apply decimal_digit_range in H
         end;
  lia.

Lemma month_field_range (s r : string) (m : Z) :
  month_field s = Some (m, r) -> 1 <= m <= 12.
Proof.
  unfold month_field. cbn [first_match]. intros H.
  repeat (case_match; simplify_option_eq); field_range.
Qed.

Lemma day_field_range (s r : string) (d : Z) :
  day_field s = Some (d, r) -> 1 <= d.
Proof.
  unfold day_field. cbn [first_match]. intros H.
  repeat (case_match; simplify_option_eq); field_range.
Qed.

Lemma strptime_ymd_valid (s : string) (t : datetime) :
  strptime_ymd s = Some t ->
  1 <= year t /\ 1 <= month t <= 12 /\ 1 <= day t <= days_in_month (year t) (month t)
  /\ t = midnight t.
Proof.
  unfold strptime_ymd. intros H.
  destruct (decimal_digits 4 0 s) as [[y s1] |]; [| discriminate].
  cbn [mbind option_bind] in H.
  destruct (literal "-" s1) as [s2 |]; [| discriminate].
  cbn [mbind option_bind] in H.
  destruct (month_field s2) as [[m s3] |] eqn:Hm; [| discriminate].
  cbn [mbind option_bind] in H.
  destruct (literal "-" s3) as [s4 |]; [| discriminate].
  cbn [mbind option_bind] in H.
  destruct (day_field s4) as [[d s5] |] eqn:Hd; [| discriminate].
  cbn [mbind option_bind] in H.
  destruct (String.eqb s5 "" && (1 <=? y) && (d <=? days_in_month y m)) eqn:Hc;
    [| discriminate].
  injection H as <-. rewrite !andb_true_iff, !Z.leb_le in Hc.
  apply month_field_range in Hm. apply day_field_range in Hd.
  simpl. repeat split; lia.
Qed.

Lemma lexico_cons (x y : Z) (l k : list Z) :
  lexico (x :: l) (y :: k) <-> x < y \/ (x = y /\ lexico l k).
Proof. reflexivity. Qed.

Lemma lexico_nil : lexico (@nil Z) [] <-> False.
Proof. reflexivity. Qed.

Lemma midnight_lt (a b : datetime) :
  datetime_lt (midnight a) (midnight b)
  <-> year a < year b
      \/ (year a = year b
          /\ (month a < month b \/ (month a = month b /\ day a < day b))).
Proof.
  unfold datetime_lt, midnight, fields. simpl.
  rewrite !lexico_cons, lexico_nil. lia.
Qed.

Lemma to_microseconds_midnight (t : datetime) :
  to_microseconds (midnight t)
  = ymd2ord (year t) (month t) (day t) * 86400000000.
Proof. unfold to_microseconds, midnight. simpl. lia. Qed.

(** Among the first instants of calendar days, the later one is fewer whole
    days away from any reference date. *)
Lemma timedelta_days_antitone (d a b : datetime) (sa sb : string) :
  strptime_ymd sa = Some a -> strptime_ymd sb = Some b ->
  (Retriever.timedelta_days d b <? Retriever.timedelta_days d a) = datetime_ltb a b.
Proof.
  intros Ha Hb.
  destruct (strptime_ymd_valid _ _ Ha) as (Hya & Hma & Hda & Ea).
  destruct (strptime_ymd_valid _ _ Hb) as (Hyb & Hmb & Hdb & Eb).
  assert (Hdays : forall t, Retriever.timedelta_days d (midnight t)
            = to_microseconds d / 86400000000
              - ymd2ord (year t) (month t) (day t)).
  { intros t. unfold Retriever.timedelta_days, elapsed_microseconds.
    rewrite to_microseconds_midnight.
    replace (to_microseconds d - ymd2ord (year t) (month t) (day t) * 86400000000)
      with (to_microseconds d
            + (- ymd2ord (year t) (month t) (day t)) * 86400000000) by lia.
    rewrite Z.div_add by lia. lia. }
  rewrite Ea, Eb, !Hdays.
  destruct (datetime_ltb (midnight a) (midnight b)) eqn:Hlt.
  - apply datetime_ltb_spec, midnight_lt in Hlt.
    apply Z.ltb_lt.
    pose proof (ymd2ord_lt (year a) (month a) (day a) (year b) (month b) (day b)
                  Hya Hma Hda ltac:(lia) ltac:(lia) Hlt). lia.
  - apply datetime_ltb_false in Hlt. apply Z.ltb_ge.
    destruct Hlt as [Hlt | Heq].
    + apply midnight_lt in Hlt.
      pose proof (ymd2ord_lt (year b) (month b) (day b) (year a) (month a) (day a)
                    Hyb Hmb Hdb ltac:(lia) ltac:(lia) Hlt). lia.
    + injection Heq as -> -> ->. lia.
Qed.

(** The accumulators of the two scans of the directory, side by side. *)
Lemma closest_step_scan_step (d : datetime) (files : list file)
    (acc_c : option (string * Z)) (acc_s : option (string * datetime)) :
  match acc_c, acc_s with
  | None, None => True
  | Some (p, diff), Some (p', latest) =>
      p = p' /\ diff = Retriever.timedelta_days d latest
      /\ exists s, strptime_ymd s = Some latest
  | _, _ => False
  end ->
  fst <$> fold_left (Retriever.closest_step d) files acc_c
  = fst <$> fold_left (Retriever.scan_step d) files acc_s.
Proof.
  revert acc_c acc_s. induction files as [| f files IH]; intros acc_c acc_s Hrel.
  - simpl. destruct acc_c as [[p diff] |], acc_s as [[p' latest] |]; try done.
    by destruct Hrel as [-> _].
  - simpl. apply IH.
    unfold Retriever.closest_step, Retriever.scan_step.
    destruct (Retriever.glob_md (file_name f)); [| exact Hrel].
    destruct (Retriever.report_pattern_match (file_name f)) as [g |]; [| exact Hrel].
    destruct (strptime_ymd g) as [rd |] eqn:Hrd; [| exact Hrel].
    destruct (datetime_ltb rd d); [| exact Hrel].
    destruct acc_c as [[p diff] |], acc_s as [[p' latest] |]; try done.
    + destruct Hrel as (-> & -> & s & Hs).
      rewrite (timedelta_days_antitone d latest rd s g Hs Hrd).
      destruct (datetime_ltb latest rd); eauto.
    + eauto.
Qed.

(** X10. [find_report_for_date] and [find_latest_report] are the same
    search: for every directory and every target date, the report whose date
    is the fewest whole days before the target is the report with the latest
    date before the target, and where several entries qualify equally both
    keep the first one met. *)
Theorem find_report_for_date_is_latest_before (E : Env) (target_date : datetime)
    (w : world) :
  Retriever.find_report_for_date target_date w
  = fst (Retriever.find_latest_report E (Some target_date) w).
Proof.
  unfold Retriever.find_report_for_date, Retriever.find_latest_report.
  destruct (reports_dir w) as [files |]; [| reflexivity].
  simpl. unfold Retriever.scan. by apply closest_step_scan_step.
Qed.
(** ** The reports directory *)

Section DirectoryFacts.

Import Retriever.

Lemma write_report_find_same (name content : string) (files : list file) :
  List.find (fun f => String.eqb (file_name f) name)
            (Monitor.write_report name content files)
  = Some (mk_file name (Some content)).
Proof.
  unfold Monitor.write_report.
  destruct (existsb _ files) eqn:Hex.
  - induction files as [| f files IH]; [discriminate |].
    simpl in *. destruct (String.eqb (file_name f) name) eqn:Hf; simpl.
    + by rewrite String.eqb_refl.
    + rewrite Hf. by apply IH.
  - induction files as [| f files IH]; simpl.
    + by rewrite String.eqb_refl.
    + simpl in Hex. apply orb_false_elim in Hex as [Hf Hex].
      rewrite Hf. by apply IH.
Qed.

Lemma write_report_find_other (name other content : string) (files : list file) :
  other <> name ->
  List.find (fun f => String.eqb (file_name f) other)
            (Monitor.write_report name content files)
  = List.find (fun f => String.eqb (file_name f) other) files.
Proof.
  intros Hne. apply String.eqb_neq in Hne.
  assert (Hne' : String.eqb name other = false) by (by rewrite String.eqb_sym).
  unfold Monitor.write_report.
  destruct (existsb _ files) eqn:Hex.
  - clear Hex. induction files as [| f files IH]; [reflexivity |].
    simpl. destruct (String.eqb (file_name f) name) eqn:Hf; simpl.
    + apply String.eqb_eq in Hf. rewrite Hf, Hne'. exact IH.
    + destruct (String.eqb (file_name f) other); [reflexivity | exact IH].
  - clear Hex. induction files as [| f files IH]; simpl.
    + by rewrite Hne'.
    + destruct (String.eqb (file_name f) other); [reflexivity | exact IH].
Qed.

Lemma write_report_again (name c1 c2 : string) (files : list file) :
  Monitor.write_report name c2 (Monitor.write_report name c1 files)
  = Monitor.write_report name c2 files.
Proof.
  assert (Hmap : forall l : list file,
            map (fun f => if String.eqb (file_name f) name
                          then mk_file name (Some c2) else f)
                (map (fun f => if String.eqb (file_name f) name
                               then mk_file name (Some c1) else f) l)
            = map (fun f => if String.eqb (file_name f) name
                            then mk_file name (Some c2) else f) l).
  { intros l. rewrite map_map. apply map_ext. intros f.
    destruct (String.eqb (file_name f) name) eqn:Hf; simpl.
    - by rewrite String.eqb_refl.
    - by rewrite Hf. }
  assert (Hex : existsb (fun f => String.eqb (file_name f) name)
                  (Monitor.write_report name c1 files) = true).
  { pose proof (write_report_find_same name c1 files) as H.
    apply existsb_exists. apply find_some in H. eauto. }
  unfold Monitor.write_report at 1. rewrite Hex.
  unfold Monitor.write_report.
  destruct (existsb _ files) eqn:Hex0.
  - apply Hmap.
  - rewrite map_app. simpl. rewrite String.eqb_refl. f_equal.
    clear Hex. induction files as [| f files IH]; [reflexivity |].
    simpl in *. apply orb_false_elim in Hex0 as [Hf Hex0].
    rewrite Hf. f_equal. by apply IH.
Qed.

Lemma write_report_elem (name content : string) (files : list file) (f : file) :
  f ∈ files -> file_name f <> name -> f ∈ Monitor.write_report name content files.
Proof.
  intros Hin Hne. apply String.eqb_neq in Hne. unfold Monitor.write_report.
  destruct (existsb _ files).
  - apply list_elem_of_In, in_map_iff. exists f. rewrite Hne.
    split; [reflexivity | by apply list_elem_of_In].
  - apply elem_of_app. by left.
Qed.

Lemma write_report_new_elem (name content : string) (files : list file) :
  mk_file name (Some content) ∈ Monitor.write_report name content files.
Proof.
  pose proof (write_report_find_same name content files) as H.
  apply find_some in H as [H _]. by apply list_elem_of_In.
Qed.

Lemma universal_newlines_no_cr (s : string) :
  no_carriage_return s = true -> universal_newlines s = s.
Proof.
  unfold no_carriage_return. induction s as [| c s IH]; [reflexivity |].
  cbn [String.list_ascii_of_string forallb universal_newlines].
  intros H. apply andb_prop in H as [Hc Hs].
  apply negb_true_iff in Hc. rewrite Hc. f_equal. by apply IH.
Qed.

Lemma name_order_trans (a b c : string) :
  String.le b a -> String.le c b -> String.le c a.
Proof. intros H1 H2. by etrans. Qed.

Lemma sort_reverse_sorted (names : list string) :
  StronglySorted (fun a b => String.le b a) (sort_reverse names).
Proof.
  apply Sorted_StronglySorted.
  - intros a b c. apply name_order_trans.
  - apply Sorted_merge_sort. intros a b. destruct (total String.le b a); auto.
Qed.

Lemma sort_reverse_elem (names : list string) (x : string) :
  x ∈ sort_reverse names <-> x ∈ names.
Proof. unfold sort_reverse. by rewrite merge_sort_Permutation. Qed.

Lemma sort_reverse_head (names : list string) (p : string) :
  head (sort_reverse names) = Some p ->
  p ∈ names /\ forall x, x ∈ names -> String.le x p.
Proof.
  intros Hh. pose proof (sort_reverse_sorted names) as Hs.
  assert (Hp : forall x, x ∈ sort_reverse names -> String.le x p).
  { destruct (sort_reverse names) as [| q l]; [discriminate |].
    injection Hh as ->. apply StronglySorted_inv in Hs as [_ Hall].
    intros x [-> | Hx]%elem_of_cons; [done |].
    by eapply Forall_forall in Hall. }
  split.
  - apply sort_reverse_elem. by apply head_Some_elem_of.
  - intros x Hx. by apply Hp, sort_reverse_elem.
Qed.

(** When no name of the directory is taken into account, the scan finds
    nothing. *)
Lemma scan_nothing_stored (d : datetime) (files : list file) :
  (forall f, f ∈ files -> stored_date (file_name f) = None) ->
  scan d files = None.
Proof.
  intros Hall. unfold scan.
  assert (H : fold_left (scan_step d) files None = None); [| by rewrite H].
  induction files as [| f files IH]; [reflexivity |].
  simpl. rewrite scan_step_ignores by (apply Hall; left).
  apply IH. intros g Hg. apply Hall. by right.
Qed.

End DirectoryFacts.

(** X11. [is_new_competitor] does not look at the competitor it is asked
    about; and when it answers yes, there is no baseline to be found: both
    [find_latest_report], for any reference date, and [find_report_for_date],
    for any target date, return nothing. *)
Theorem is_new_competitor_no_baseline (E : Env) (competitor_name : string)
    (w : world) :
  Retriever.is_new_competitor competitor_name w = true ->
  (forall other, Retriever.is_new_competitor other w = true)
  /\ (forall before_date,
        fst (Retriever.find_latest_report E before_date w) = None)
  /\ (forall target_date, Retriever.find_report_for_date target_date w = None).
Proof.
  intros Hnew. split; [intros other; exact Hnew |].
  assert (Hscan : forall d files, reports_dir w = Some files ->
            Retriever.scan d files = None).
  { intros d files Hdir. apply scan_nothing_stored. intros f Hf.
    unfold Retriever.is_new_competitor, Retriever.get_all_reports in Hnew.
    rewrite Hdir in Hnew. apply Nat.eqb_eq in Hnew.
    unfold Retriever.sort_reverse in Hnew.
    rewrite merge_sort_Permutation in Hnew.
    apply length_zero_iff_nil in Hnew.
    unfold Retriever.stored_date.
    destruct (Retriever.glob_md (file_name f)) eqn:Hg; [| reflexivity].
    destruct (Retriever.report_pattern_match (file_name f)) as [g |] eqn:Hm;
      [| reflexivity].
    exfalso.
    assert (Hin : In (file_name f)
              (List.filter
                 (fun name => Retriever.glob_md name
                    && bool_decide (is_Some (Retriever.report_pattern_match name)))
                 (map file_name files))).
    { apply filter_In. split.
      - apply in_map. by apply list_elem_of_In.
      - by rewrite Hg, Hm. }
    rewrite Hnew in Hin. destruct Hin. }
  split.
  - intros before_date. unfold Retriever.find_latest_report.
    destruct before_date as [d |]; unfold datetime_now; simpl;
      destruct (reports_dir w) as [files |] eqn:Hdir; simpl; eauto.
  - intros d. unfold Retriever.find_report_for_date.
    destruct (reports_dir w) as [files |] eqn:Hdir; [| reflexivity].
    rewrite (closest_step_scan_step d files None None I).
    by apply Hscan.
Qed.

(** A directory whose only entry is not a report. *)
Lemma is_new_competitor_no_baseline_witness :
  let w := mk_world 0 [] [] [] [] [] (Some [mk_file "README.md" (Some "notes")])
             ConfigMissing [] in
  Retriever.find_report_for_date (mk_datetime 2026 2 18 10 0 0 0) w = None.
Proof.
  intros w.
  apply (is_new_competitor_no_baseline (sample_env seconds_clock 1) "A" w).
  reflexivity.
Defined.

(** X12. [FileOrganizer.save_report] touches one file only, the one named
    after the date, and logs nothing.  When the directory can be made, the
    file opened and the content written, it returns the name, and the
    content is then read back under that name with its line ends
    translated, hence unchanged if it has no carriage return.  Otherwise it
    returns nothing, and the directory is as it was (it could not be made),
    or it exists with its files as they were (the file could not be
    opened), or the file holds what the failing write left in it. *)
Theorem save_report_round_trip (E : Env) (content : string)
    (date : option datetime) (w : world) :
  let name :=
    match date with
    | Some d => Organizer.generate_filename_for d
    | None => Organizer.generate_filename_for (now E (clock_reads w))
    end in
  let result := fst (FileOrganizer.save_report E content date w) in
  let w' := snd (FileOrganizer.save_report E content date w) in
  errors w' = errors w
  /\ (forall other, other <> name ->
        Retriever.get_report_content other w'
        = Retriever.get_report_content other w)
  /\ ((reports_dir w <> None \/ mkdir_error E = None)
      /\ open_error E name = None /\ write_error E name content = None ->
      result = Some name)
  /\ (result = Some name
      /\ Retriever.get_report_content name w' = Some (universal_newlines content)
      /\ (no_carriage_return content = true ->
          Retriever.get_report_content name w' = Some content)
      \/ result = None
         /\ (reports_dir w' = reports_dir w
             \/ (reports_dir w' = Some (default [] (reports_dir w))
                 /\ is_Some (open_error E name))
             \/ exists e kept,
                  write_error E name content = Some (e, kept)
                  /\ Retriever.get_report_content name w'
                     = Some (universal_newlines kept))).
Proof.
  intros name result w'. subst result w'.
  assert (Hsave : FileOrganizer.save_report E content date w
                  = let w0 := match date with
                              | Some _ => w
                              | None => set_clock_reads (S (clock_reads w)) w
                              end in
                    match reports_dir w, mkdir_error E with
                    | None, Some _ => (None, w0)
                    | _, _ =>
                        let '(failure, files) :=
                          Monitor.write_text E name content
                            (default [] (reports_dir w)) in
                        (match failure with Some _ => None | None => Some name end,
                         set_reports_dir (Some files) w0)
                    end).
  { unfold FileOrganizer.save_report, name. by destruct date. }
  rewrite Hsave. clear Hsave. cbv zeta.
  set (w0 := match date with Some _ => w | None => _ end).
  assert (Hw0 : errors w0 = errors w /\ reports_dir w0 = reports_dir w)
    by (subst w0; by destruct date).
  destruct Hw0 as [He0 Hd0]. clearbody w0.
  assert (Hother : forall other content',
             other <> name ->
             Retriever.get_report_content other
               (set_reports_dir
                  (Some (Monitor.write_report name content'
                           (default [] (reports_dir w)))) w0)
             = Retriever.get_report_content other w).
  { intros other content' Hne. unfold Retriever.get_report_content. simpl.
    rewrite write_report_find_other by done. by destruct (reports_dir w). }
  assert (Hsame : forall content',
             Retriever.get_report_content name
               (set_reports_dir
                  (Some (Monitor.write_report name content'
                           (default [] (reports_dir w)))) w0)
             = Some (universal_newlines content')).
  { intros content'. unfold Retriever.get_report_content. simpl.
    by rewrite write_report_find_same. }
  assert (Hkeep : forall other,
             Retriever.get_report_content other
               (set_reports_dir (Some (default [] (reports_dir w))) w0)
             = Retriever.get_report_content other w).
  { intros other. unfold Retriever.get_report_content. simpl.
    by destruct (reports_dir w). }
  assert (Hnone : forall other,
             Retriever.get_report_content other w0
             = Retriever.get_report_content other w).
  { intros other. unfold Retriever.get_report_content. by rewrite Hd0. }
  assert (Hcases : forall files,
             (exists e, open_error E name = Some e
                        /\ Monitor.write_text E name content files = (Some e, files))
             \/ (exists e kept,
                   open_error E name = None
                   /\ write_error E name content = Some (e, kept)
                   /\ Monitor.write_text E name content files
                      = (Some e, Monitor.write_report name kept files))
             \/ (open_error E name = None /\ write_error E name content = None
                 /\ Monitor.write_text E name content files
                    = (None, Monitor.write_report name content files))).
  { intros files. unfold Monitor.write_text.
    destruct (open_error E name) as [eo |]; [left; eauto |].
    destruct (write_error E name content) as [[e kept] |]; [right; left | right; right];
      eauto 6. }
  assert (Hwritten : forall w1 : option string * world,
             w1 = (let '(failure, files) :=
                     Monitor.write_text E name content (default [] (reports_dir w)) in
                   (match failure with Some _ => None | None => Some name end,
                    set_reports_dir (Some files) w0)) ->
             errors w1.2 = errors w
             /\ (forall other, other <> name ->
                   Retriever.get_report_content other w1.2
                   = Retriever.get_report_content other w)
             /\ (open_error E name = None /\ write_error E name content = None ->
                 w1.1 = Some name)
             /\ (w1.1 = Some name
                 /\ Retriever.get_report_content name w1.2
                    = Some (universal_newlines content)
                 /\ (no_carriage_return content = true ->
                     Retriever.get_report_content name w1.2 = Some content)
                 \/ w1.1 = None
                    /\ ((reports_dir w1.2 = Some (default [] (reports_dir w))
                         /\ is_Some (open_error E name))
                        \/ exists e kept,
                             write_error E name content = Some (e, kept)
                             /\ Retriever.get_report_content name w1.2
                                = Some (universal_newlines kept)))).
  { intros w1 ->.
    destruct (Hcases (default [] (reports_dir w)))
      as [(e & Ho & ->) | [(e & kept & Ho & Hwr & ->) | (Ho & Hwr & ->)]];
      cbn [fst snd].
    - split; [done |]. split; [intros other _; apply Hkeep |].
      split; [intros [? _]; congruence |].
      right. split; [reflexivity |]. left. split; [reflexivity | by rewrite Ho].
    - split; [done |]. split; [intros other Hne; by apply Hother |].
      split; [intros [_ ?]; congruence |].
      right. split; [reflexivity |]. right. exists e, kept.
      split; [exact Hwr | apply Hsame].
    - split; [done |]. split; [intros other Hne; by apply Hother |].
      split; [done |].
      left. split; [reflexivity |]. split; [apply Hsame |].
      intros Hcr. rewrite Hsame. f_equal. by apply universal_newlines_no_cr. }
  destruct (reports_dir w) as [files |] eqn:Hdir;
    [| destruct (mkdir_error E) as [em |] eqn:Hmk].
  - destruct (Hwritten _ eq_refl) as (H1 & H2 & H3 & H4).
    split; [exact H1 |]. split; [exact H2 |].
    split; [intros (_ & ? & ?); by apply H3 |].
    destruct H4 as [H4 | [H4 H5]]; [by left | right].
    split; [exact H4 |]. by right.
  - cbn [fst snd]. split; [done |]. split; [intros other _; apply Hnone |].
    split; [intros ([? | ?] & _); congruence |].
    right. split; [reflexivity |]. left. exact Hd0.
  - destruct (Hwritten _ eq_refl) as (H1 & H2 & H3 & H4).
    split; [exact H1 |]. split; [exact H2 |].
    split; [intros (_ & ? & ?); by apply H3 |].
    destruct H4 as [H4 | [H4 H5]]; [by left | right].
    split; [exact H4 |]. by right.
Qed.

(** A text with a carriage return before the line feed is read back with
    the line feed alone. *)
Lemma save_report_round_trip_witness :
  let E := sample_env seconds_clock 1 in
  let w := initial_world ConfigMissing in
  let d := mk_datetime 2026 2 18 10 0 0 0 in
  let content := String "A" (String "013" (String "010" (String "B" ""))) in
  fst (FileOrganizer.save_report E content (Some d) w)
  = Some "2026-02-18_Intelligence.md"
  /\ Retriever.get_report_content "2026-02-18_Intelligence.md"
       (snd (FileOrganizer.save_report E content (Some d) w))
     = Some (String "A" (String "010" (String "B" ""))).
Proof.
  intros E w d content.
  destruct (save_report_round_trip E content (Some d) w)
    as (_ & _ & Hok & [(_ & Hread & _) | (Hnone & _)]).
  - split; [| exact Hread]. apply Hok. repeat split. by left.
  - exfalso. rewrite Hok in Hnone; [discriminate |]. repeat split. by left.
Defined.

(** X13. Saving a second report for a date replaces the first: the
    directory is then as if only the second had been saved. *)
Theorem save_report_overwrites (E : Env) (c1 c2 : string) (d : datetime)
    (w : world) :
  reports_dir
    (snd (FileOrganizer.save_report E c2 (Some d)
            (snd (FileOrganizer.save_report E c1 (Some d) w))))
  = reports_dir (snd (FileOrganizer.save_report E c2 (Some d) w)).
Proof.
  unfold FileOrganizer.save_report, Monitor.write_text.
  destruct (reports_dir w) as [files |] eqn:Hdir;
    [| destruct (mkdir_error E) as [em |] eqn:Hmk];
    try (destruct (open_error E (Organizer.generate_filename_for d)) as [eo |];
         [| destruct (write_error E (Organizer.generate_filename_for d) c1)
              as [[e1 k1] |];
            destruct (write_error E (Organizer.generate_filename_for d) c2)
              as [[e2 k2] |]]);
    simpl; rewrite ?Hdir, ?Hmk; simpl; rewrite ?write_report_again;
    first [reflexivity | exact Hdir].
Qed.

Lemma intelligence_names_elem (files : list file) (x : string) :
  x ∈ List.filter (fun name => endswith name "_Intelligence.md") (map file_name files)
  <-> endswith x "_Intelligence.md" = true
      /\ exists f, f ∈ files /\ file_name f = x.
Proof.
  rewrite list_elem_of_In, filter_In, in_map_iff. split.
  - intros [(f & <- & Hf) He]. split; [done |]. exists f.
    by rewrite list_elem_of_In.
  - intros [He (f & Hf & <-)]. split; [| done]. exists f.
    by rewrite <- list_elem_of_In.
Qed.

(** X14. [get_latest_report_path] returns the entry of the directory whose
    name is the greatest among the names that end in [_Intelligence.md],
    whether or not the rest of the name is a date; it returns nothing exactly
    when the directory is missing or has no such entry. *)
Theorem get_latest_report_path_greatest (w : world) :
  match FileOrganizer.get_latest_report_path w with
  | Some p =>
      endswith p "_Intelligence.md" = true
      /\ (exists files f,
            reports_dir w = Some files /\ f ∈ files /\ file_name f = p)
      /\ forall files f,
           reports_dir w = Some files -> f ∈ files ->
           endswith (file_name f) "_Intelligence.md" = true ->
           String.le (file_name f) p
  | None =>
      forall files f,
        reports_dir w = Some files -> f ∈ files ->
        endswith (file_name f) "_Intelligence.md" = false
  end.
Proof.
  unfold FileOrganizer.get_latest_report_path.
  destruct (reports_dir w) as [files |]; [| by intros ? ? [=]].
  pose proof (intelligence_names_elem files) as Hnames.
  set (names := List.filter _ _) in *.
  destruct (head (Retriever.sort_reverse names)) as [p |] eqn:Hh.
  - destruct (sort_reverse_head names p Hh) as [Hp Hmax].
    apply Hnames in Hp as [He (f & Hf & Hfn)].
    split; [done |]. split; [by exists files, f |].
    intros files' g [= <-] Hg Heg. apply Hmax, Hnames. eauto.
  - intros files' g [= <-] Hg. apply head_None in Hh.
    destruct (endswith (file_name g) "_Intelligence.md") eqn:He; [| done].
    assert (Hin : file_name g ∈ Retriever.sort_reverse names)
      by (apply sort_reverse_elem, Hnames; eauto).
    rewrite Hh in Hin. by apply elem_of_nil in Hin.
Qed.

(** X15. A report saved for a calendar day with a year of four digits is
    there as a baseline afterwards, as soon as its file could be opened
    (whether or not the write that follows succeeds): for every reference
    date after the start of that day, [find_latest_report] returns a report,
    dated on that day or later and before the reference date. *)
Theorem saved_report_is_found_later (E : Env) (content : string)
    (d before_date : datetime) (w : world) :
  valid_date d ->
  reports_dir w <> None \/ mkdir_error E = None ->
  open_error E (Organizer.generate_filename_for d) = None ->
  datetime_lt (midnight d) before_date ->
  let w' := snd (FileOrganizer.save_report E content (Some d) w) in
  exists p dt,
    fst (Retriever.find_latest_report E (Some before_date) w') = Some p
    /\ Retriever.stored_date p = Some dt
    /\ datetime_le (midnight d) dt
    /\ datetime_lt dt before_date.
Proof.
  intros Hv Hmk Ho Hlt.
  assert (Hdir : exists kept,
             reports_dir (snd (FileOrganizer.save_report E content (Some d) w))
             = Some (Monitor.write_report (Organizer.generate_filename_for d) kept
                       (default [] (reports_dir w)))).
  { unfold FileOrganizer.save_report, Monitor.write_text. rewrite Ho.
    destruct (reports_dir w) as [files |] eqn:Hd;
      [| destruct Hmk as [Hmk | Hmk]; [done | rewrite Hmk]];
      destruct (write_error E _ content) as [[e kept] |]; simpl; eauto. }
  destruct Hdir as [kept Hdir].
  unfold Retriever.find_latest_report. cbv zeta. rewrite Hdir. cbn [fst].
  set (files := Monitor.write_report _ _ _).
  destruct (filename_reads_back d Hv) as (_ & _ & Hsd & _).
  pose proof (scan_inv_all before_date files) as Hinv.
  unfold Retriever.scan.
  destruct (fold_left (Retriever.scan_step before_date) files None)
    as [[p latest] |]; simpl in *.
  - destruct Hinv as (_ & Hst & Hbefore & Hmax).
    exists p, latest. repeat split; try done.
    apply (Hmax (mk_file (Organizer.generate_filename_for d) (Some kept)));
      [apply write_report_new_elem | exact Hsd | exact Hlt].
  - exfalso.
    apply (Hinv (mk_file (Organizer.generate_filename_for d) (Some kept))
                (midnight d)); [apply write_report_new_elem | exact Hsd | exact Hlt].
Qed.

Lemma saved_report_is_found_later_witness :
  exists p dt,
    fst (Retriever.find_latest_report (sample_env seconds_clock 1)
           (Some (mk_datetime 2026 3 1 9 0 0 0))
           (snd (FileOrganizer.save_report (sample_env seconds_clock 1) "text"
                   (Some (mk_datetime 2026 2 18 10 0 0 0))
                   (initial_world ConfigMissing)))) = Some p
    /\ Retriever.stored_date p = Some dt
    /\ datetime_le (midnight (mk_datetime 2026 2 18 10 0 0 0)) dt
    /\ datetime_lt dt (mk_datetime 2026 3 1 9 0 0 0).
Proof.
  apply (saved_report_is_found_later (sample_env seconds_clock 1) "text"
           (mk_datetime 2026 2 18 10 0 0 0) (mk_datetime 2026 3 1 9 0 0 0)
           (initial_world ConfigMissing)).
  - unfold valid_date, days_in_month, is_leap. simpl. lia.
  - by left.
  - reflexivity.
  - apply datetime_ltb_spec. reflexivity.
Defined.
(** ** The listing of the reports *)

Section ListingFacts.

Import Retriever.

Lemma compare_append (s1 t1 s2 t2 : string) :
  String.length s1 = String.length t1 ->
  String.compare (s1 +:+ s2) (t1 +:+ t2)
  = match String.compare s1 t1 with
    | Eq => String.compare s2 t2
    | c => c
    end.
Proof.
  revert t1. induction s1 as [| a s1 IH]; intros [| b t1] Hlen; try discriminate.
  - reflexivity.
  - change (String.compare (String a (s1 +:+ s2)) (String b (t1 +:+ t2))
            = match String.compare (String a s1) (String b t1) with
              | Eq => String.compare s2 t2
              | c => c
              end).
    simpl. destruct (Ascii.compare a b); [| reflexivity ..].
    apply IH. simpl in Hlen. lia.
Qed.

Lemma digit_value_range (c : Ascii.ascii) :
  is_digit c = true -> 0 <= digit_value c <= 9.
Proof.
  unfold is_digit, digit_value. cbv zeta.
  rewrite andb_true_iff, !Nat.leb_le. lia.
Qed.

Lemma int_of_digits_range (s : string) :
  forallb is_digit (String.list_ascii_of_string s) = true ->
  0 <= int_of_digits s < 10 ^ Z.of_nat (String.length s).
Proof.
  induction s as [| c s IH]; intros Hd.
  - unfold int_of_digits. simpl. lia.
  - simpl in Hd. apply andb_prop in Hd as [Hc Hd].
    rewrite int_of_digits_cons. specialize (IH Hd).
    pose proof (digit_value_range c Hc).
    replace (Z.of_nat (String.length (String c s)))
      with (Z.of_nat (String.length s) + 1) by (simpl; lia).
    rewrite Z.pow_add_r by lia. nia.
Qed.

Lemma digit_compare (a b : Ascii.ascii) :
  Ascii.compare a b = (digit_value a ?= digit_value b).
Proof.
  unfold Ascii.compare, digit_value, Ascii.nat_of_ascii.
  rewrite !N_nat_Z.
  destruct (N.compare_spec (Ascii.N_of_ascii a) (Ascii.N_of_ascii b)) as [H | H | H];
    symmetry; [apply Z.compare_eq_iff | apply Z.compare_lt_iff | apply Z.compare_gt_iff];
    lia.
Qed.

(** Numerals of the same length are ordered as the numbers they denote. *)
Lemma compare_digits (s t : string) :
  String.length s = String.length t ->
  forallb is_digit (String.list_ascii_of_string s) = true ->
  forallb is_digit (String.list_ascii_of_string t) = true ->
  String.compare s t = (int_of_digits s ?= int_of_digits t).
Proof.
  revert t. induction s as [| a s IH]; intros [| b t] Hlen Hs Ht; try discriminate.
  - reflexivity.
  - simpl in Hlen, Hs, Ht.
    apply andb_prop in Hs as [Ha Hs]. apply andb_prop in Ht as [Hb Ht].
    rewrite !int_of_digits_cons.
    pose proof (int_of_digits_range s Hs) as Rs.
    pose proof (int_of_digits_range t Ht) as Rt.
    pose proof (digit_value_range a Ha). pose proof (digit_value_range b Hb).
    assert (Hl : String.length s = String.length t) by lia.
    rewrite <- Hl in *.
    simpl. rewrite digit_compare, (IH t Hl Hs Ht).
    set (P := 10 ^ Z.of_nat (String.length s)) in *.
    destruct (Z.compare_spec (digit_value a) (digit_value b)) as [He | Hlt | Hgt].
    + rewrite He.
      destruct (Z.compare_spec (int_of_digits s) (int_of_digits t));
        symmetry; [apply Z.compare_eq_iff | apply Z.compare_lt_iff
                  | apply Z.compare_gt_iff]; lia.
    + symmetry. apply Z.compare_lt_iff. nia.
    + symmetry. apply Z.compare_gt_iff. nia.
Qed.

Lemma strptime_ymd_valid_stored (name : string) (dt : datetime) :
  stored_date name = Some dt -> 1 <= year dt /\ dt = midnight dt.
Proof.
  unfold stored_date. destruct (glob_md name); [| discriminate].
  destruct (report_pattern_match name) as [g |]; [| discriminate].
  intros H. destruct (strptime_ymd_valid _ _ H) as (Hy & _ & _ & He). by split.
Qed.

(** *** What the pattern consumes *)

Lemma literal_inv (c : Ascii.ascii) (s r : string) :
  literal c s = Some r -> s = String c r.
Proof.
  destruct s as [| c' s]; [discriminate |]. simpl.
  destruct (Ascii.eqb c' c) eqn:Hc; [| discriminate].
  apply Ascii.eqb_eq in Hc. by intros [= <-]; subst.
Qed.

Lemma utf8_continuation_inv (s r : string) (a : Z) :
  utf8_continuation s = Some (a, r) -> exists c, s = String c r.
Proof.
  destruct s as [| c s]; [discriminate |]. unfold utf8_continuation.
  case_match; [| discriminate]. intros [= _ <-]. by exists c.
Qed.

Ltac continuation_step H :=
  match type of H with
  | context [utf8_continuation ?s] =>
      let E := fresh "E" in
      destruct (utf8_continuation s) as [[? ?] |] eqn:E; [| discriminate H];
      cbn [mbind option_bind] in H;
      apply utf8_continuation_inv in E as [? ->]
  end.

Lemma utf8_decode_suffix (s r : string) (cp : Z) :
  utf8_decode s = Some (cp, r) -> exists p, s = p +:+ r.
Proof.
  destruct s as [| c s]; [discriminate |]. unfold utf8_decode.
  destruct (byte_value c <? 128).
  { intros [= _ <-]. by exists (String c ""). }
  destruct ((192 <=? byte_value c) && (byte_value c <? 224)).
  { intros H. continuation_step H.
    match type of H with (if ?b then _ else _) = _ => destruct b end;
      [| discriminate].
    injection H as _ <-. by eexists (String c (String _ "")). }
  destruct ((224 <=? byte_value c) && (byte_value c <? 240)).
  { intros H. continuation_step H. continuation_step H.
    match type of H with (if ?b then _ else _) = _ => destruct b end;
      [| discriminate].
    injection H as _ <-. by eexists (String c (String _ (String _ ""))). }
  destruct ((240 <=? byte_value c) && (byte_value c <? 248)); [| discriminate].
  intros H. continuation_step H. continuation_step H. continuation_step H.
  match type of H with (if ?b then _ else _) = _ => destruct b end;
    [| discriminate].
  injection H as _ <-. by eexists (String c (String _ (String _ (String _ "")))).
Qed.

Lemma decimal_digit_suffix (s r : string) (v : Z) :
  decimal_digit s = Some (v, r) -> exists p, s = p +:+ r.
Proof.
  unfold decimal_digit.
  destruct (utf8_decode s) as [[cp rest] |] eqn:Hdec; [| discriminate].
  cbn [mbind option_bind].
  destruct (List.find _ decimal_zeros); [| discriminate].
  cbn [mbind option_bind]. intros [= _ <-].
  by apply utf8_decode_suffix in Hdec.
Qed.

Lemma decimal_digits_suffix (n : nat) (acc v : Z) (s r : string) :
  decimal_digits n acc s = Some (v, r) -> exists p, s = p +:+ r.
Proof.
  revert acc s. induction n as [| n IH]; intros acc s; simpl.
  - intros [= _ <-]. by exists "".
  - destruct (decimal_digit s) as [[d rest] |] eqn:Hd; [| discriminate].
    cbn [mbind option_bind]. intros H.
    apply decimal_digit_suffix in Hd as [p ->].
    apply IH in H as [q ->]. exists (p +:+ q). by rewrite append_assoc.
Qed.

(** A name that matches the pattern ends with what follows the date. *)
Lemma after_date_group_suffix (name tail : string) :
  after_date_group name = Some tail -> exists p, name = p +:+ tail.
Proof.
  unfold after_date_group. intros H.
  destruct (decimal_digits 4 0 name) as [[v1 s1] |] eqn:H1; [| discriminate].
  cbn [mbind option_bind] in H.
  destruct (literal "-" s1) as [s2 |] eqn:H2; [| discriminate].
  cbn [mbind option_bind] in H.
  destruct (decimal_digits 2 0 s2) as [[v3 s3] |] eqn:H3; [| discriminate].
  cbn [mbind option_bind] in H.
  destruct (literal "-" s3) as [s4 |] eqn:H4; [| discriminate].
  cbn [mbind option_bind] in H.
  destruct (decimal_digits 2 0 s4) as [[v5 s5] |] eqn:H5; [| discriminate].
  cbn [mbind option_bind] in H. injection H as ->.
  apply decimal_digits_suffix in H1 as [p1 ->], H3 as [p3 ->], H5 as [p5 ->].
  apply literal_inv in H2 as ->. apply literal_inv in H4 as ->.
  exists (p1 +:+ "-" +:+ p3 +:+ "-" +:+ p5).
  by rewrite !append_assoc.
Qed.

(** The names that the scans take into account end with the suffix of the
    reports, whatever the script of their digits. *)
Lemma stored_name_suffix (name : string) (dt : datetime) :
  stored_date name = Some dt -> endswith name "_Intelligence.md" = true.
Proof.
  unfold stored_date. destruct (glob_md name) eqn:Hg; [| discriminate].
  unfold report_pattern_match.
  destruct (after_date_group name) as [tail |] eqn:Ht; [| discriminate].
  cbn [mbind option_bind].
  apply after_date_group_suffix in Ht as [p ->].
  destruct (String.eqb tail "_Intelligence.md") eqn:H1.
  - intros _. apply String.eqb_eq in H1 as ->. apply endswith_append.
  - destruct (String.eqb tail ("_Intelligence.md" +:+ newline)) eqn:H2.
    + intros _. apply String.eqb_eq in H2 as ->. exfalso.
      unfold glob_md, endswith in Hg. rewrite string_rev_append in Hg.
      vm_compute in Hg. discriminate.
    + simpl. discriminate.
Qed.

(** *** Names written with ASCII digits *)

Lemma ascii_only_cons (c : Ascii.ascii) (s : string) :
  ascii_only (String c s) = (byte_value c <? 128) && ascii_only s.
Proof. reflexivity. Qed.

Lemma ascii_only_append (a b : string) :
  ascii_only (a +:+ b) = true -> ascii_only a = true /\ ascii_only b = true.
Proof.
  induction a as [| c a IH]; [by split |].
  change (ascii_only (String c (a +:+ b)) = true
          -> ascii_only (String c a) = true /\ ascii_only b = true).
  rewrite !ascii_only_cons, !andb_true_iff. intros [Hc H].
  destruct (IH H). by repeat split.
Qed.

Lemma decimal_digits_ascii_inv (n : nat) (acc v : Z) (s rest : string) :
  ascii_only s = true ->
  decimal_digits n acc s = Some (v, rest) ->
  exists ds,
    s = ds +:+ rest /\ String.length ds = n
    /\ forallb is_digit (String.list_ascii_of_string ds) = true
    /\ v = acc * 10 ^ Z.of_nat n + int_of_digits ds.
Proof.
  revert acc s. induction n as [| n IH]; intros acc s Ha; simpl.
  - intros [= <- <-]. exists "". repeat split. unfold int_of_digits. simpl. lia.
  - destruct s as [| c s]; [discriminate |].
    rewrite ascii_only_cons in Ha. apply andb_prop in Ha as [Hc Ha].
    apply Z.ltb_lt in Hc. rewrite (decimal_digit_ascii c s Hc).
    destruct (is_digit c) eqn:Hd; [| discriminate].
    cbn [mbind option_bind]. intros H.
    destruct (IH _ _ Ha H) as (ds & -> & Hlen & Hds & ->).
    exists (String c ds). split; [reflexivity |].
    split; [simpl; by rewrite Hlen |].
    split; [simpl; by rewrite Hd |].
    rewrite int_of_digits_cons, Hlen.
    replace (Z.of_nat (S n)) with (Z.of_nat n + 1) by lia.
    rewrite Z.pow_add_r by lia. lia.
Qed.

(** What a name in ASCII that the listing takes into account looks like. *)
Lemma stored_name_shape (name : string) (dt : datetime) :
  ascii_only name = true ->
  stored_date name = Some dt ->
  exists y m d,
    name = y +:+ "-" +:+ m +:+ "-" +:+ d +:+ "_Intelligence.md"
    /\ String.length y = 4%nat /\ String.length m = 2%nat /\ String.length d = 2%nat
    /\ forallb is_digit (String.list_ascii_of_string y) = true
    /\ forallb is_digit (String.list_ascii_of_string m) = true
    /\ forallb is_digit (String.list_ascii_of_string d) = true
    /\ dt = mk_datetime (int_of_digits y) (int_of_digits m) (int_of_digits d) 0 0 0 0.
Proof.
  intros Ha Hs. pose proof (stored_name_suffix name dt Hs) as Hsuffix.
  revert Hs. unfold stored_date. destruct (glob_md name) eqn:Hg; [| discriminate].
  destruct (report_pattern_match name) as [g |] eqn:Hp; [| discriminate].
  intros Hs. revert Hp. unfold report_pattern_match.
  destruct (after_date_group name) as [tail |] eqn:Ht; [| discriminate].
  cbn [mbind option_bind].
  assert (Hshape : exists y m d,
             name = y +:+ "-" +:+ m +:+ "-" +:+ d +:+ tail
             /\ String.length y = 4%nat /\ String.length m = 2%nat
             /\ String.length d = 2%nat
             /\ forallb is_digit (String.list_ascii_of_string y) = true
             /\ forallb is_digit (String.list_ascii_of_string m) = true
             /\ forallb is_digit (String.list_ascii_of_string d) = true).
  { revert Ht. unfold after_date_group. intros H.
    destruct (decimal_digits 4 0 name) as [[v1 s1] |] eqn:H1; [| discriminate].
    cbn [mbind option_bind] in H.
    destruct (literal "-" s1) as [s2 |] eqn:H2; [| discriminate].
    cbn [mbind option_bind] in H.
    destruct (decimal_digits 2 0 s2) as [[v3 s3] |] eqn:H3; [| discriminate].
    cbn [mbind option_bind] in H.
    destruct (literal "-" s3) as [s4 |] eqn:H4; [| discriminate].
    cbn [mbind option_bind] in H.
    destruct (decimal_digits 2 0 s4) as [[v5 s5] |] eqn:H5; [| discriminate].
    cbn [mbind option_bind] in H. injection H as ->.
    destruct (decimal_digits_ascii_inv _ _ _ _ _ Ha H1) as (y & -> & Ly & Dy & _).
    apply ascii_only_append in Ha as [_ Ha].
    apply literal_inv in H2 as ->.
    rewrite ascii_only_cons in Ha. apply andb_prop in Ha as [_ Ha].
    destruct (decimal_digits_ascii_inv _ _ _ _ _ Ha H3) as (m & -> & Lm & Dm & _).
    apply ascii_only_append in Ha as [_ Ha].
    apply literal_inv in H4 as ->.
    rewrite ascii_only_cons in Ha. apply andb_prop in Ha as [_ Ha].
    destruct (decimal_digits_ascii_inv _ _ _ _ _ Ha H5) as (d & -> & Ld & Dd & _).
    exists y, m, d. repeat split; done. }
  destruct Hshape as (y & m & d & -> & Ly & Lm & Ld & Dy & Dm & Dd).
  intros Hmatch.
  assert (Htail : tail = "_Intelligence.md").
  { destruct (String.eqb tail "_Intelligence.md") eqn:H1;
      [by apply String.eqb_eq |].
    destruct (String.eqb tail ("_Intelligence.md" +:+ newline)) eqn:H2.
    - apply String.eqb_eq in H2 as ->. exfalso.
      unfold glob_md, endswith in Hg. rewrite !string_rev_append in Hg.
      vm_compute in Hg. discriminate.
    - simpl in Hmatch. discriminate. }
  subst tail.
  destruct (report_pattern_match_ascii y m d Ly Lm Ld Dy Dm Dd) as [_ Hp].
  cbv zeta in Hp. unfold report_pattern_match in Hp.
  rewrite Ht in Hp. cbn [mbind option_bind] in Hp. rewrite Hp in Hmatch.
  injection Hmatch as <-.
  rewrite (strptime_ymd_ascii y m d Ly Lm Ld Dy Dm Dd) in Hs. cbv zeta in Hs.
  destruct (_ && _) in Hs; [| discriminate]. injection Hs as <-.
  exists y, m, d. repeat split; done.
Qed.

(** The names in ASCII that the listing takes into account are ordered as
    their dates. *)
Lemma stored_names_chronological (a b : string) (da db : datetime) :
  ascii_only a = true -> ascii_only b = true ->
  stored_date a = Some da -> stored_date b = Some db ->
  String.le b a -> datetime_le db da.
Proof.
  intros Aa Ab Ha Hb Hle.
  destruct (strptime_ymd_valid_stored a da Ha) as (Va & Ea).
  destruct (strptime_ymd_valid_stored b db Hb) as (Vb & Eb).
  destruct (stored_name_shape a da Aa Ha)
    as (ya & ma & d_a & -> & Lya & Lma & Lda & Dya & Dma & Dda & ->).
  destruct (stored_name_shape b db Ab Hb)
    as (yb & mb & d_b & -> & Lyb & Lmb & Ldb & Dyb & Dmb & Ddb & ->).
  unfold String.le, String.leb in Hle.
  rewrite compare_append in Hle by congruence.
  rewrite (compare_append "-" "-") in Hle by reflexivity.
  rewrite compare_append in Hle by congruence.
  rewrite (compare_append "-" "-") in Hle by reflexivity.
  rewrite compare_append in Hle by congruence.
  rewrite (compare_digits yb ya), (compare_digits mb ma), (compare_digits d_b d_a)
    in Hle by congruence.
  change (String.compare "-" "-") with Eq in Hle.
  change (String.compare "_Intelligence.md" "_Intelligence.md") with Eq in Hle.
  simpl in Va, Vb.
  set (Ya := int_of_digits ya) in *. set (Ma := int_of_digits ma) in *.
  set (Da := int_of_digits d_a) in *. set (Yb := int_of_digits yb) in *.
  set (Mb := int_of_digits mb) in *. set (Db := int_of_digits d_b) in *.
  clearbody Ya Ma Da Yb Mb Db.
  assert (Hlex : Yb < Ya \/ (Yb = Ya /\ (Mb < Ma \/ (Mb = Ma /\ Db <= Da)))).
  { revert Hle.
    destruct (Z.compare_spec Yb Ya) as [H1 | H1 | H1];
      [| by left | simpl; by intros []].
    destruct (Z.compare_spec Mb Ma) as [H2 | H2 | H2];
      [| lia | simpl; by intros []].
    destruct (Z.compare_spec Db Da) as [H3 | H3 | H3];
      [lia | lia | simpl; by intros []]. }
  destruct (decide (Yb = Ya /\ Mb = Ma /\ Db = Da)) as [(-> & -> & ->) | Hne].
  - by right.
  - left.
    apply (proj2 (midnight_lt (mk_datetime Yb Mb Db 0 0 0 0)
                              (mk_datetime Ya Ma Da 0 0 0 0))).
    simpl. lia.
Qed.

(** Two names in ASCII that carry the same date are the same name. *)
Lemma stored_date_inj (a b : string) (dt : datetime) :
  ascii_only a = true -> ascii_only b = true ->
  stored_date a = Some dt -> stored_date b = Some dt -> a = b.
Proof.
  intros Aa Ab Ha Hb.
  destruct (stored_name_shape a dt Aa Ha)
    as (ya & ma & d_a & -> & Lya & Lma & Lda & Dya & Dma & Dda & Ea).
  destruct (stored_name_shape b dt Ab Hb)
    as (yb & mb & d_b & -> & Lyb & Lmb & Ldb & Dyb & Dmb & Ddb & Eb).
  rewrite Ea in Eb. injection Eb as Hy Hm Hd.
  assert (Heq : forall s t, String.length s = String.length t ->
            forallb is_digit (String.list_ascii_of_string s) = true ->
            forallb is_digit (String.list_ascii_of_string t) = true ->
            int_of_digits s = int_of_digits t -> s = t).
  { intros s t Hl Hs Ht Hv. apply String.compare_eq_iff.
    rewrite compare_digits by done. by apply Z.compare_eq_iff. }
  rewrite (Heq ya yb), (Heq ma mb), (Heq d_a d_b) by congruence. reflexivity.
Qed.

End ListingFacts.

Lemma StronglySorted_lookup_lt {A : Type} (R : A -> A -> Prop) (l : list A)
    (i j : nat) (a b : A) :
  StronglySorted R l -> (i < j)%nat -> l !! i = Some a -> l !! j = Some b -> R a b.
Proof.
  intros Hs. revert i j. induction Hs as [| x l Hs IH Hall]; intros i j Hij Hi Hj.
  - discriminate.
  - destruct j as [| j]; [lia |]. simpl in Hj.
    destruct i as [| i].
    + simpl in Hi. injection Hi as <-.
      eapply Forall_forall in Hall; [exact Hall |]. by eapply list_elem_of_lookup_2.
    + simpl in Hi. apply (IH i j); [lia | done | done].
Qed.

(** X23. [get_all_reports] lists exactly the entries of the directory
    whose names match the report pattern, in descending order of their names.
    For names written in ASCII this is newest first: of two listed names in
    ASCII that carry valid dates, the one listed earlier has the same or the
    later date.  (The pattern also takes digits of other scripts, whose names
    sort after the ASCII ones whatever their date.) *)
Theorem get_all_reports_newest_first (w : world) :
  (forall name,
     name ∈ Retriever.get_all_reports w <->
     exists files f,
       reports_dir w = Some files /\ f ∈ files /\ file_name f = name
       /\ Retriever.glob_md name = true
       /\ is_Some (Retriever.report_pattern_match name))
  /\ (forall i j a b,
        (i < j)%nat ->
        Retriever.get_all_reports w !! i = Some a ->
        Retriever.get_all_reports w !! j = Some b ->
        String.le b a)
  /\ (forall i j a b da db,
        (i < j)%nat ->
        Retriever.get_all_reports w !! i = Some a ->
        Retriever.get_all_reports w !! j = Some b ->
        ascii_only a = true -> ascii_only b = true ->
        Retriever.stored_date a = Some da -> Retriever.stored_date b = Some db ->
        datetime_le db da).
Proof.
  assert (Hsorted : forall i j a b,
             (i < j)%nat ->
             Retriever.get_all_reports w !! i = Some a ->
             Retriever.get_all_reports w !! j = Some b ->
             String.le b a).
  { unfold Retriever.get_all_reports. intros i j a b Hij Hi Hj.
    destruct (reports_dir w) as [files |]; [| discriminate].
    eapply (StronglySorted_lookup_lt (fun x y => String.le y x));
      [apply sort_reverse_sorted | exact Hij | exact Hi | exact Hj]. }
  split; [| split; [exact Hsorted |]].
  - unfold Retriever.get_all_reports.
    intros name. destruct (reports_dir w) as [files |].
    + rewrite sort_reverse_elem, list_elem_of_In, filter_In, in_map_iff.
      rewrite andb_true_iff, bool_decide_eq_true. split.
      * intros [(f & <- & Hf) [Hg Hm]]. exists files, f.
        by rewrite list_elem_of_In.
      * intros (files' & f & [= <-] & Hf & <- & Hg & Hm).
        split; [| done]. exists f. by rewrite <- list_elem_of_In.
    + split; [by intros H%elem_of_nil | by intros (? & ? & [=] & _)].
  - intros i j a b da db Hij Hi Hj Aa Ab Ha Hb.
    apply (stored_names_chronological a b da db Aa Ab Ha Hb).
    by apply (Hsorted i j).
Qed.

(** A report of 2024 whose year is written in Arabic-Indic digits is listed
    before the report of 2025 written in ASCII, and both are dated. *)
Lemma get_all_reports_other_digits :
  let old := "٢٠٢٤-01-01_Intelligence.md" in
  let new := "2025-01-01_Intelligence.md" in
  let w := mk_world 0 [] [] [] [] []
             (Some [mk_file new (Some "new"); mk_file old (Some "old")])
             ConfigMissing [] in
  Retriever.get_all_reports w = [old; new]
  /\ Retriever.stored_date old = Some (mk_datetime 2024 1 1 0 0 0 0)
  /\ Retriever.stored_date new = Some (mk_datetime 2025 1 1 0 0 0 0)
  /\ ascii_only old = false.
Proof. vm_compute. repeat split. Qed.

(** X24. The two ways of asking for the latest report agree when the
    directory is in order: if every entry whose name ends in
    [_Intelligence.md] is written in ASCII and carries a valid date that
    lies before the reference date, then [find_latest_report] returns the
    very entry that [get_latest_report_path] returns (and both return nothing
    when there is no such entry). *)
Theorem latest_report_functions_agree (E : Env) (before_date : datetime)
    (w : world) (files : list file) :
  reports_dir w = Some files ->
  (forall f, f ∈ files -> endswith (file_name f) "_Intelligence.md" = true ->
     ascii_only (file_name f) = true
     /\ exists dt, Retriever.stored_date (file_name f) = Some dt
                   /\ datetime_lt dt before_date) ->
  fst (Retriever.find_latest_report E (Some before_date) w)
  = FileOrganizer.get_latest_report_path w.
Proof.
  intros Hdir Hall.
  unfold Retriever.find_latest_report, FileOrganizer.get_latest_report_path.
  rewrite Hdir. simpl.
  pose proof (intelligence_names_elem files) as Hnames.
  set (names := List.filter _ _) in *.
  pose proof (scan_inv_all before_date files) as Hinv.
  unfold Retriever.scan.
  destruct (head (Retriever.sort_reverse names)) as [q |] eqn:Hh.
  - destruct (sort_reverse_head names q Hh) as [Hq Hmax].
    apply Hnames in Hq as [Hq (fq & Hfq & <-)].
    destruct (Hall fq Hfq Hq) as (Aq & dq & Hdq & Hlt).
    destruct (fold_left (Retriever.scan_step before_date) files None)
      as [[p latest] |]; simpl in *.
    + destruct Hinv as ((fp & Hfp & <-) & Hst & Hbefore & Hmaxd).
      f_equal.
      pose proof (stored_name_suffix _ _ Hst) as Hsp.
      destruct (Hall fp Hfp Hsp) as (Ap & _).
      assert (Hle1 : datetime_le dq latest) by (by eapply Hmaxd).
      assert (Hle2 : datetime_le latest dq).
      { apply (stored_names_chronological (file_name fq) (file_name fp)); try done.
        apply Hmax, Hnames. eauto. }
      assert (latest = dq) as ->.
      { destruct Hle1 as [H1 | H1]; [| done].
        destruct (datetime_le_not_lt _ _ Hle2 H1). }
      by eapply stored_date_inj.
    + destruct (Hinv fq dq Hfq Hdq Hlt).
  - apply head_None in Hh.
    destruct (fold_left (Retriever.scan_step before_date) files None)
      as [[p latest] |]; simpl in *; [| reflexivity].
    destruct Hinv as ((fp & Hfp & <-) & Hst & _).
    assert (Hin : file_name fp ∈ Retriever.sort_reverse names).
    { apply sort_reverse_elem, Hnames.
      split; [by eapply stored_name_suffix | eauto]. }
    rewrite Hh in Hin. by apply elem_of_nil in Hin.
Qed.

Lemma latest_report_functions_agree_witness :
  let files := [mk_file "2026-02-17_Intelligence.md" (Some "old");
                mk_file "2026-02-18_Intelligence.md" (Some "new");
                mk_file "README.md" (Some "notes")] in
  let w := mk_world 0 [] [] [] [] [] (Some files) ConfigMissing [] in
  fst (Retriever.find_latest_report (sample_env seconds_clock 1)
         (Some (mk_datetime 2026 3 1 9 0 0 0)) w)
  = FileOrganizer.get_latest_report_path w.
Proof.
  intros files w.
  apply (latest_report_functions_agree (sample_env seconds_clock 1)
           (mk_datetime 2026 3 1 9 0 0 0) w files); [reflexivity |].
  intros f Hf Hs.
  apply elem_of_cons in Hf as [-> | Hf];
    [split; [reflexivity |];
     eexists; split; [reflexivity | by apply datetime_ltb_spec] |].
  apply elem_of_cons in Hf as [-> | Hf];
    [split; [reflexivity |];
     eexists; split; [reflexivity | by apply datetime_ltb_spec] |].
  apply list_elem_of_singleton in Hf as ->. discriminate.
Defined.

(** With an entry whose year is written in Arabic-Indic digits the two
    functions part: the scan goes by the date, the path by the name. *)
Lemma latest_report_functions_other_digits :
  let old := "٢٠٢٤-01-01_Intelligence.md" in
  let new := "2025-01-01_Intelligence.md" in
  let w := mk_world 0 [] [] [] [] []
             (Some [mk_file new (Some "new"); mk_file old (Some "old")])
             ConfigMissing [] in
  fst (Retriever.find_latest_report (sample_env seconds_clock 1)
         (Some (mk_datetime 2026 3 1 9 0 0 0)) w) = Some new
  /\ FileOrganizer.get_latest_report_path w = Some old.
Proof. vm_compute. repeat split. Qed.
(** ** The orchestrator *)

Section MonitorMore.

Import Monitor.

Variable E : Env.

(** What [fetch_and_classify] leaves untouched. *)
Lemma fetch_and_classify_frame (name url : pyval) (result : dict) (w : world) :
  let w' := snd (fetch_and_classify E name url result w) in
  heap w' = heap w
  /\ pending_requests w' = pending_requests w
  /\ approved_requests w' = approved_requests w
  /\ rejected_requests w' = rejected_requests w
  /\ reports_dir w' = reports_dir w
  /\ config_file w' = config_file w.
Proof.
  unfold fetch_and_classify, on_exception, Errors.log_script_error,
    Errors.log_network_error, Errors.log_error, Retriever.find_latest_report,
    Differ.diff_texts, datetime_now.
  repeat case_match; simplify_eq/=; repeat split; reflexivity.
Qed.

Lemma fetch_and_classify_ledger (name url : pyval) (result : dict) (w : world) :
  exists (o : entity_outcome) (k : nat),
    (clock_reads w <= k)%nat
    /\ errors (snd (fetch_and_classify E name url result w))
       = errors w ++ outcome_record E name url k o
    /\ match o with
       | Analysed =>
           findings_is_error (fst (fetch_and_classify E name url result w)) = false
           /\ exists s,
                fst (fetch_and_classify E name url result w) !! "findings"
                = Some (VStr s)
                /\ (startswith s "Strategic shift detected!" = true
                    \/ startswith s "No major changes detected." = true
                    \/ s = "New competitor - no historical data for comparison")
       | NoContent =>
           fst (fetch_and_classify E name url result w) !! "findings"
           = Some (VStr "Failed to extract text")
       | Crashed e =>
           fst (fetch_and_classify E name url result w) !! "findings"
           = Some (VStr ("Error: " +:+ e))
       end.
Proof.
  unfold fetch_and_classify, on_exception, Errors.log_script_error,
    Errors.log_network_error, Errors.log_error, Retriever.find_latest_report,
    Differ.diff_texts, datetime_now.
  repeat case_match; simplify_eq/=;
    first
      [ exists Analysed, (clock_reads w); split; [lia |];
        split; [by rewrite app_nil_r |];
        split; [unfold findings_is_error, py_get; by simplify_map_eq |];
        eexists; split; [by simplify_map_eq |]; auto
      | exists NoContent, (clock_reads w); split; [lia |];
        split; [reflexivity | by simplify_map_eq]
      | eexists (Crashed _), _; split; [| split; [reflexivity | by simplify_map_eq]];
        lia ].
Qed.

Lemma findings_is_error_lookup (result : dict) (s : string) :
  result !! "findings" = Some (VStr s) ->
  findings_is_error result = startswith s "Error:".
Proof. intros H. unfold findings_is_error, py_get. by rewrite H. Qed.

Lemma list_remove_last (r : ref) (l : list ref) :
  r ∉ l -> Approval.list_remove r (l ++ [r]) = l.
Proof.
  induction l as [| x l IH]; intros Hr; simpl.
  - by rewrite decide_True.
  - apply not_elem_of_cons in Hr as [Hne Hr].
    rewrite decide_False by congruence. f_equal. by apply IH.
Qed.

Lemma handler_inv_same (w w' : world) :
  heap w' = heap w -> pending_requests w' = pending_requests w ->
  approved_requests w' = approved_requests w ->
  rejected_requests w' = rejected_requests w ->
  handler_inv w -> handler_inv w'.
Proof.
  intros Hh Hp Ha Hr. unfold handler_inv, status_of. by rewrite Hh, Hp, Ha, Hr.
Qed.

(** [process_competitor] asks the handler for an approval and grants it
    itself, then goes on to fetch and classify. *)
Lemma process_competitor_unfold (c : dict) (w : world) :
  let name := py_get c "name" (VStr "Unknown") in
  let url := py_get c "url" (VStr "") in
  process_competitor E c w
  = fetch_and_classify E name url
      (initial_result name url (strftime_ymd (now E (clock_reads w))))
      (Approval.handler_step E (Approval.ApproveRequest (length (heap w)) "test")
         (Approval.handler_step E (Approval.RequestUrlApproval url)
            (set_clock_reads (S (clock_reads w)) w))).
Proof.
  intros name url. unfold process_competitor.
  fold name url. unfold datetime_now at 1. cbv iota beta.
  set (w1 := set_clock_reads (S (clock_reads w)) w).
  destruct (auto_approve E url w1) as (w2 & Happ & Hst & _).
  unfold Approval.handler_step.
  assert (Hr : fst (Approval.request_url_approval E url w1) = length (heap w))
    by reflexivity.
  destruct (Approval.request_url_approval E url w1) as [r w1'].
  simpl in Happ, Hst, Hr. subst r. cbn [fst snd]. rewrite Happ, Hst. reflexivity.
Qed.

End MonitorMore.


(** X17. The approval that [process_competitor] asks for is never in
    doubt: on a consistent handler it adds one request, for the URL of the
    entity, grants it itself under the name [test], and leaves it in the
    approved collection; the pending and rejected collections are as before,
    the handler stays consistent, and the findings are never [URL browsing
    not approved]. *)
Theorem process_competitor_self_approves (E : Env) (c : dict) (w : world) :
  handler_inv w ->
  let result := fst (Monitor.process_competitor E c w) in
  let w' := snd (Monitor.process_competitor E c w) in
  let r := length (heap w) in
  handler_inv w'
  /\ pending_requests w' = pending_requests w
  /\ approved_requests w' = approved_requests w ++ [r]
  /\ rejected_requests w' = rejected_requests w
  /\ (exists q,
        heap w' = heap w ++ [q]
        /\ status q = APPROVED /\ approver q = Some "test"
        /\ action_type q = "url"
        /\ action_data q = {[ "url" := py_get c "url" (VStr "") ]})
  /\ result !! "findings" <> Some (VStr "URL browsing not approved").
Proof.
  intros Hinv result w' r. subst result w'.
  rewrite process_competitor_unfold.
  set (url := py_get c "url" (VStr "")). set (name := py_get c "name" (VStr "Unknown")).
  set (w1 := set_clock_reads (S (clock_reads w)) w).
  set (wa := Approval.handler_step E (Approval.RequestUrlApproval url) w1).
  set (wb := Approval.handler_step E (Approval.ApproveRequest (length (heap w)) "test") wa).
  assert (Hinv1 : handler_inv w1) by (by apply (handler_inv_same w)).
  assert (Hinvb : handler_inv wb) by (by do 2 apply handler_inv_step).
  assert (Hfresh : r ∉ pending_requests w).
  { intros Hin. assert (Ht : r ∈ tracked w) by (apply elem_of_app; by left).
    pose proof (handler_inv_tracked_valid _ _ Hinv Ht). subst r. lia. }
  set (q := mk_request "url" ("Browse URL: " +:+ py_str (float_repr E) url)
              {[ "url" := url ]} 300 PENDING (now E (S (clock_reads w)))
              None None None).
  assert (Hwb : wb =
            set_approved (approved_requests w ++ [r])
              (set_pending (pending_requests w)
                 (resolved_world r (approved_by "test" (now E (S (S (clock_reads w)))) q)
                    wa))).
  { subst wb. simpl Approval.handler_step.
    rewrite (approve_request_pending E _ _ _ q).
    - simpl. by rewrite list_remove_last.
    - simpl. by apply list_lookup_middle.
    - reflexivity.
    - simpl. apply elem_of_app. right. by apply list_elem_of_singleton. }
  destruct (fetch_and_classify_frame E name url
              (Monitor.initial_result name url (strftime_ymd (now E (clock_reads w))))
              wb) as (Hh & Hp & Ha & Hr & _).
  split; [by apply (handler_inv_same wb) |].
  rewrite Hh, Hp, Ha, Hr, Hwb. simpl.
  split; [done |]. split; [done |]. split; [done |]. split.
  - exists (approved_by "test" (now E (S (S (clock_reads w)))) q).
    split; [| done]. fold r.
    replace r with (length (heap w) + 0)%nat by (subst r; lia).
    by rewrite insert_app_r.
  - destruct (fetch_and_classify_ledger E name url
                (Monitor.initial_result name url (strftime_ymd (now E (clock_reads w))))
                (set_approved (approved_requests w ++ [r])
                   (set_pending (pending_requests w)
                      (resolved_world r
                         (approved_by "test" (now E (S (S (clock_reads w)))) q) wa))))
      as (o & k & _ & _ & Hcase).
    rewrite <- Hwb.  rewrite <- Hwb in Hcase.
    destruct o as [| | e].
    + destruct Hcase as (_ & s & -> & [H | [H | ->]]); intros [= ->]; discriminate.
    + rewrite Hcase. discriminate.
    + rewrite Hcase. discriminate.
Qed.

Lemma process_competitor_self_approves_witness :
  let E := sample_env seconds_clock 1 in
  let w' := snd (Monitor.process_competitor E
                   (<["name" := VStr "A"]> {["url" := VStr "https://a.example"]})
                   (initial_world ConfigMissing)) in
  approved_requests w' = [0%nat] /\ pending_requests w' = [].
Proof.
  intros E w'.
  destruct (process_competitor_self_approves E
              (<["name" := VStr "A"]> {["url" := VStr "https://a.example"]})
              (initial_world ConfigMissing)
              (handler_inv_fresh 0 [] (initial_world ConfigMissing)))
    as (_ & Hp & Ha & _).
  split; [exact Ha | exact Hp].
Defined.

Section WorkflowMore.

Import Monitor.

Variable E : Env.

Lemma process_competitor_frame (c : dict) (w : world) :
  reports_dir (snd (process_competitor E c w)) = reports_dir w
  /\ config_file (snd (process_competitor E c w)) = config_file w
  /\ (clock_reads w < clock_reads (snd (process_competitor E c w)))%nat.
Proof.
  destruct (process_competitor_eq E c w) as (w2 & -> & _ & Hr & _ & Hc & Hk & _).
  destruct (fetch_and_classify_frame E (py_get c "name" (VStr "Unknown"))
              (py_get c "url" (VStr ""))
              (initial_result (py_get c "name" (VStr "Unknown"))
                 (py_get c "url" (VStr "")) (strftime_ymd (now E (clock_reads w))))
              w2) as (_ & _ & _ & _ & Hr' & Hc').
  rewrite Hr', Hc', Hr, Hc. split; [done |]. split; [done |].
  assert (clock_reads w2 <= clock_reads
            (snd (fetch_and_classify E (py_get c "name" (VStr "Unknown"))
              (py_get c "url" (VStr ""))
              (initial_result (py_get c "name" (VStr "Unknown"))
                 (py_get c "url" (VStr "")) (strftime_ymd (now E (clock_reads w))))
              w2)))%nat; [| lia].
  unfold fetch_and_classify, on_exception, Errors.log_script_error,
    Errors.log_network_error, Errors.log_error, Retriever.find_latest_report,
    Differ.diff_texts, datetime_now.
  repeat case_match; simplify_eq/=; lia.
Qed.

Lemma process_all_spec (cs results errs : list dict) (w : world) :
  exists new,
    (process_all E cs results errs w).1.1 = results ++ new
    /\ (process_all E cs results errs w).1.2
       = errs ++ map error_entry (List.filter findings_is_error new)
    /\ reports_dir (process_all E cs results errs w).2 = reports_dir w
    /\ (clock_reads w <= clock_reads (process_all E cs results errs w).2)%nat.
Proof.
  revert results errs w. induction cs as [| c rest IH]; intros results errs w.
  - exists []. simpl. by rewrite !app_nil_r.
  - rewrite process_all_cons.
    destruct (process_competitor_frame c w) as (Hr & _ & Hk).
    match goal with
    | |- context [process_all E rest ?rs ?es ?w1] =>
        destruct (IH rs es w1) as (new & H1 & H2 & H3 & H4)
    end.
    exists (fst (process_competitor E c w) :: new).
    rewrite H1, H2, H3, Hr, <- app_assoc. simpl.
    split; [done |]. split; [| split; [done | lia]].
    destruct (findings_is_error (fst (process_competitor E c w))); [| done].
    by rewrite <- app_assoc.
Qed.

End WorkflowMore.

(** X18. The list of errors that [run_workflow] hands to the report
    generator consists of one entry for each result whose findings begin with
    [Error:], in the order of the results, carrying the name and the findings
    of that result. *)
Theorem process_all_error_list (E : Env) (cs : list dict) (w : world) :
  (Monitor.process_all E cs [] [] w).1.2
  = map error_entry
      (List.filter Monitor.findings_is_error (Monitor.process_all E cs [] [] w).1.1).
Proof.
  destruct (process_all_spec E cs [] [] w) as (new & H1 & H2 & _).
  by rewrite H1, H2.
Qed.

(** X19. A run over a configuration with at least one entity returns its
    report and ends by writing it to the file named after the day of the run;
    no other file is touched.  When the file is opened and written, it reads
    back as the report with its line ends translated, hence as the report
    itself if that has no carriage return, and nothing is logged for the
    write.  When the directory is gone or the file cannot be opened, the
    directory is as it was; when the write fails after the file was opened,
    the file holds what the write left in it.  In these three cases the last
    record of the error ledger is a [report] record that carries the text of
    the exception, and the report is returned all the same. *)
Theorem run_workflow_saves_report (E : Env) (w : world) (cs : list dict)
    (others : bool) :
  config_file w = ConfigParsed (mk_config (Some cs) others) -> cs <> [] ->
  exists (report : string) (w' : world) (k : nat),
    Monitor.run_workflow E w = (Ok report, w')
    /\ (clock_reads w <= k < clock_reads w')%nat
    /\ let filename := Organizer.generate_filename_for (now E k) in
       let logged reason :=
         exists rec,
           last (errors w') = Some rec
           /\ error_type rec = "report"
           /\ message rec = "Failed to save report: " +:+ reason in
       (forall other, other <> filename ->
          Retriever.get_report_content other w'
          = Retriever.get_report_content other w)
       /\ match reports_dir w with
          | None =>
              reports_dir w' = None
              /\ logged (missing_directory_error E filename)
          | Some files =>
              match open_error E filename, write_error E filename report with
              | Some e, _ => reports_dir w' = Some files /\ logged e
              | None, Some (e, kept) =>
                  Retriever.get_report_content filename w'
                  = Some (universal_newlines kept)
                  /\ logged e
              | None, None =>
                  Retriever.get_report_content filename w'
                  = Some (universal_newlines report)
                  /\ (no_carriage_return report = true ->
                      Retriever.get_report_content filename w' = Some report)
                  /\ errors w' = errors (Monitor.process_all E cs [] [] w).2
              end
          end.
Proof.
  intros Hcfg Hne.
  rewrite (run_workflow_processing E w cs others Hcfg Hne).
  destruct (process_all_spec E cs [] [] w) as (new & _ & _ & Hdir & Hclock).
  destruct (Monitor.process_all E cs [] [] w) as [[results errs] w1].
  simpl in Hdir, Hclock.
  unfold Report.generate_report, datetime_now. cbn [fst snd].
  set (report := Report.report_text E _ results (Some errs)).
  eexists report, _, (S (clock_reads w1)). split; [reflexivity |].
  unfold Monitor.save_to_reports_dir, Organizer.generate_filename, datetime_now.
  cbn [fst snd clock_reads set_clock_reads reports_dir].
  change (strftime_ymd (now E (S (clock_reads w1))) +:+ "_Intelligence.md")
    with (Organizer.generate_filename_for (now E (S (clock_reads w1)))).
  set (filename := Organizer.generate_filename_for (now E (S (clock_reads w1)))).
  rewrite Hdir. unfold Monitor.write_text.
  destruct (reports_dir w) as [files |] eqn:Hfiles.
  - destruct (open_error E filename) as [eo |] eqn:Ho;
      [| destruct (write_error E filename report) as [[e kept] |] eqn:Hwr];
      cbn [fst snd]; (split; [simpl; lia |]); cbv zeta.
    + split.
      { intros other _. unfold Retriever.get_report_content. simpl.
        by rewrite Hfiles. }
      split; [reflexivity |]. eexists. simpl. rewrite last_snoc.
      split; [reflexivity |]. split; reflexivity.
    + split.
      { intros other Hother. unfold Retriever.get_report_content. simpl.
        rewrite Hfiles. by rewrite write_report_find_other. }
      split.
      { unfold Retriever.get_report_content. simpl.
        by rewrite write_report_find_same. }
      eexists. simpl. rewrite last_snoc.
      split; [reflexivity |]. split; reflexivity.
    + assert (Hread : Retriever.get_report_content filename
                        (set_reports_dir
                           (Some (Monitor.write_report filename report files))
                           (set_clock_reads (S (S (clock_reads w1)))
                              (set_clock_reads (S (clock_reads w1)) w1)))
                      = Some (universal_newlines report)).
      { unfold Retriever.get_report_content. simpl.
        by rewrite write_report_find_same. }
      split.
      { intros other Hother. unfold Retriever.get_report_content. simpl.
        rewrite Hfiles. by rewrite write_report_find_other. }
      split; [exact Hread |]. split; [| reflexivity].
      intros Hcr. rewrite Hread. f_equal. by apply universal_newlines_no_cr.
  - cbn [fst snd]. split; [simpl; lia |]. cbv zeta. split.
    { intros other _. unfold Retriever.get_report_content. simpl.
      by rewrite Hdir, Hfiles. }
    split; [simpl; by rewrite Hdir |]. eexists. simpl. rewrite last_snoc.
    split; [reflexivity |]. split; reflexivity.
Qed.

Lemma run_workflow_saves_report_witness :
  let E := sample_env seconds_clock 1 in
  let w := initial_world (ConfigParsed (mk_config (Some two_entities) false)) in
  exists report,
    fst (Monitor.run_workflow E w) = Ok report
    /\ Retriever.get_report_content "2026-02-18_Intelligence.md"
         (snd (Monitor.run_workflow E w))
       = Some (universal_newlines report).
Proof.
  intros E w.
  destruct (run_workflow_saves_report E w two_entities false eq_refl ltac:(discriminate))
    as (report & w' & k & Hrun & Hk & H).
  cbv zeta in H.
  assert (Hname : Organizer.generate_filename_for (now E k)
                  = "2026-02-18_Intelligence.md") by reflexivity.
  rewrite Hname in H. destruct H as [_ H].
  change (reports_dir w) with (Some (@nil file)) in H.
  change (open_error E "2026-02-18_Intelligence.md") with (@None string) in H.
  change (write_error E "2026-02-18_Intelligence.md" report)
    with (@None (string * string)) in H.
  exists report. rewrite Hrun. split; [reflexivity | exact (proj1 H)].
Defined.
(** ** Reports as baselines *)

Section BaselineFacts.

Variable E : Env.

Ltac split_step Hd Hn :=
  first
    [ rewrite split_lines_go_newline_last
    | rewrite split_lines_go_char_last by reflexivity
    | rewrite split_lines_go_newline
    | rewrite split_lines_go_char by reflexivity
    | rewrite (split_lines_go_no_newline _ _ _ Hd)
    | rewrite (split_lines_go_no_newline _ _ _ Hn) ].

(** The lines of a text that begins as a report does, down to the rule
    under the summary. *)
Lemma report_head_lines (date count body : string) :
  no_newline date = true -> no_newline count = true ->
  split_lines (report_head date count +:+ body)
  = ("# Intelligence Report: " +:+ date)
    :: "" :: "## Executive Summary" :: ""
    :: ("This report contains competitive intelligence gathered on "
        +:+ count +:+ " competitors. ")
    :: "The analysis includes web content extraction, semantic diffing against historical baselines, "
    :: "and identification of strategic shifts."
    :: "" :: "---" :: ""
    :: split_lines body.
Proof.
  intros Hd Hn.
  unfold report_head, split_lines. rewrite !append_assoc.
  repeat split_step Hd Hn.
  rewrite !string_rev_cons, !string_rev_rev_app, !append_assoc.
  reflexivity.
Qed.

(** A report is its beginning followed by the sections, the error summary and
    the recommendations. *)
Lemma report_text_head (current_date : string) (results : list dict)
    (errs : option (list dict)) :
  Report.report_text E current_date results errs
  = report_head current_date (pretty (length results))
    +:+ (join "" (Report.competitor_sections E results) +:+ newline +:+ newline
         +:+ Report._generate_error_section E (default [] errs) +:+ newline
         +:+ newline
         +:+ Report._generate_recommendations_section E
               (List.filter
                  (fun r => py_truthy (py_get r "is_strategic_shift" (VBool false)))
                  results)
         +:+ newline).
Proof.
  unfold Report.report_text, report_head. cbv zeta.
  rewrite !append_assoc. reflexivity.
Qed.

Lemma error_section_head (errors : list dict) :
  exists t, Report._generate_error_section E errors = String "#" t.
Proof.
  unfold Report._generate_error_section. destruct errors as [| e errors].
  - eexists. reflexivity.
  - simpl. destruct (map _ errors); eexists; reflexivity.
Qed.

Lemma sections_head (results : list dict) (tail : string) :
  results <> [] ->
  exists t, join "" (Report.competitor_sections E results) +:+ tail = String "#" t.
Proof.
  destruct results as [| r rs]; [done |]. intros _.
  unfold Report.competitor_sections. simpl.
  destruct (competitor_section_heading E r) as (body & ->).
  destruct (map _ rs); eexists; reflexivity.
Qed.

(** What follows the beginning of a report starts with a heading, after two
    empty lines when there is no section. *)
Lemma report_body_head (results : list dict) (errs : option (list dict)) :
  exists t,
    join "" (Report.competitor_sections E results) +:+ newline +:+ newline
    +:+ Report._generate_error_section E (default [] errs) +:+ newline
    +:+ newline
    +:+ Report._generate_recommendations_section E
          (List.filter
             (fun r => py_truthy (py_get r "is_strategic_shift" (VBool false)))
             results)
    +:+ newline
    = String "#" t
    \/ join "" (Report.competitor_sections E results) +:+ newline +:+ newline
       +:+ Report._generate_error_section E (default [] errs) +:+ newline
       +:+ newline
       +:+ Report._generate_recommendations_section E
             (List.filter
                (fun r => py_truthy (py_get r "is_strategic_shift" (VBool false)))
                results)
       +:+ newline
       = String "010" (String "010" (String "#" t)).
Proof.
  destruct results as [| r rs] eqn:Hres.
  - destruct (error_section_head (default [] errs)) as (t & ->).
    eexists. right. reflexivity.
  - rewrite <- Hres.
    destruct (sections_head results
                (newline +:+ newline
                 +:+ Report._generate_error_section E (default [] errs) +:+ newline
                 +:+ newline
                 +:+ Report._generate_recommendations_section E
                       (List.filter
                          (fun r => py_truthy (py_get r "is_strategic_shift" (VBool false)))
                          results)
                 +:+ newline)) as (t & Ht); [by rewrite Hres |].
    exists t. by left.
Qed.

(** The loop of [get_baseline_text] over the lines of a text that begins as
    a report does and goes on with a heading. *)
Lemma report_head_baseline_lines (date count t : string) (body : string) :
  no_newline date = true -> no_newline count = true ->
  body = String "#" t \/ body = String "010" (String "010" (String "#" t)) ->
  exists blanks,
    Retriever.baseline_lines
      (split_lines (report_head date count +:+ body)) false []
    = [ "This report contains competitive intelligence gathered on "
        +:+ count +:+ " competitors. ";
        "The analysis includes web content extraction, semantic diffing against historical baselines, ";
        "and identification of strategic shifts."; ""; "" ] ++ blanks
    /\ (blanks = [] \/ blanks = [""; ""]).
Proof.
  intros Hd Hn Hbody. rewrite report_head_lines by done.
  change ("# Intelligence Report: " +:+ date)
    with (String "#" (" Intelligence Report: " +:+ date)).
  rewrite baseline_lines_header, baseline_lines_blank.
  rewrite (baseline_lines_header "# Executive Summary"), baseline_lines_blank.
  change ("This report contains competitive intelligence gathered on "
          +:+ count +:+ " competitors. ")
    with (String "T" ("his report contains competitive intelligence gathered on "
          +:+ count +:+ " competitors. ")).
  rewrite baseline_lines_text by reflexivity.
  rewrite (baseline_lines_text "T") by reflexivity.
  rewrite (baseline_lines_text "a") by reflexivity.
  rewrite baseline_lines_blank.
  rewrite baseline_lines_rule by reflexivity.
  rewrite baseline_lines_blank. simpl app.
  destruct Hbody as [-> | ->].
  - exists []. split; [| by left].
    destruct (split_lines_head_char "#" t eq_refl) as (t' & ls & ->).
    by rewrite baseline_lines_header.
  - exists [""; ""]. split; [| by right].
    unfold split_lines.
    change (split_lines_go "" (String "010" (String "010" (String "#" t))))
      with ("" :: "" :: split_lines (String "#" t)).
    destruct (split_lines_head_char "#" t eq_refl) as (t' & ls & ->).
    rewrite !baseline_lines_blank. by rewrite baseline_lines_header.
Qed.

End BaselineFacts.

(** The text that [get_baseline_text] makes of the lines of a text that
    begins as a report does and goes on with a heading. *)
Lemma report_head_baseline (date count t body : string) :
  no_newline date = true -> no_newline count = true ->
  body = String "#" t \/ body = String "010" (String "010" (String "#" t)) ->
  strip (join newline
           (Retriever.baseline_lines
              (split_lines (report_head date count +:+ body)) false []))
  = "This report contains competitive intelligence gathered on "
    +:+ count +:+ " competitors. 
The analysis includes web content extraction, semantic diffing against historical baselines, 
and identification of strategic shifts.".
Proof.
  intros Hd Hn Hbody.
  destruct (report_head_baseline_lines date count t body Hd Hn Hbody)
    as (blanks & -> & Hb).
  set (n := count).
  assert (Hjoin : exists ws,
            join newline
              (["This report contains competitive intelligence gathered on "
                +:+ n +:+ " competitors. ";
                "The analysis includes web content extraction, semantic diffing against historical baselines, ";
                "and identification of strategic shifts."; ""; ""] ++ blanks)
            = String "T" ("his report contains competitive intelligence gathered on "
              +:+ n +:+ " competitors. 
The analysis includes web content extraction, semantic diffing against historical baselines, 
and identification of strategic shifts." +:+ ws)
            /\ rstrip (" competitors. 
The analysis includes web content extraction, semantic diffing against historical baselines, 
and identification of strategic shifts." +:+ ws)
               = " competitors. 
The analysis includes web content extraction, semantic diffing against historical baselines, 
and identification of strategic shifts.").
  { destruct Hb as [-> | ->]; simpl join; rewrite !append_assoc;
      eexists; split; reflexivity. }
  destruct Hjoin as (ws & -> & Hr).
  unfold strip. simpl lstrip.
  change (String "T" ("his report contains competitive intelligence gathered on "
            +:+ n +:+ ?x))
    with ("This report contains competitive intelligence gathered on "
          +:+ n +:+ x).
  rewrite rstrip_app.
  - rewrite rstrip_app; rewrite Hr; [reflexivity | discriminate].
  - rewrite rstrip_app; rewrite Hr; [| discriminate].
    destruct n; discriminate.
Qed.

(** The text that [get_baseline_text] makes of the lines of a report. *)
Lemma report_text_baseline (E : Env) (current_date : string) (results : list dict)
    (errs : option (list dict)) :
  no_newline current_date = true ->
  strip (join newline
           (Retriever.baseline_lines
              (split_lines (Report.report_text E current_date results errs))
              false []))
  = executive_summary (length results).
Proof.
  intros Hd. rewrite report_text_head.
  destruct (report_body_head E results errs) as (t & Hbody).
  apply (report_head_baseline _ _ t); [done | apply no_newline_pretty_nat | exact Hbody].
Qed.

(** *** Reports read back from their file *)

Lemma universal_newlines_append (a b : string) :
  no_carriage_return a = true ->
  universal_newlines (a +:+ b) = a +:+ universal_newlines b.
Proof.
  unfold no_carriage_return. induction a as [| c a IH]; [reflexivity |].
  change (String c a +:+ b) with (String c (a +:+ b)).
  cbn [String.list_ascii_of_string forallb universal_newlines].
  intros H. apply andb_prop in H as [Hc Ha]. apply negb_true_iff in Hc.
  rewrite Hc, (IH Ha). reflexivity.
Qed.

Lemma no_carriage_return_report_head (t : datetime) (n : nat) :
  no_carriage_return (report_head (strftime_ymd t) (pretty n)) = true.
Proof.
  unfold report_head, no_carriage_return.
  apply chars_append; [reflexivity |].
  apply chars_append;
    [apply chars_strftime_ymd; [intros c; by apply (digit_is_not "013") | reflexivity] |].
  apply chars_append; [reflexivity |].
  apply chars_append;
    [apply chars_pretty_nat; intros c; by apply (digit_is_not "013") |].
  reflexivity.
Qed.

(** The text that [get_baseline_text] makes of a report that is read back
    from its file, with the line ends translated. *)
Lemma report_read_back_baseline (E : Env) (t : datetime) (results : list dict)
    (errs : option (list dict)) :
  let report := Report.report_text E (strftime_ymd t) results errs in
  String.eqb (universal_newlines report) "" = false
  /\ strip (join newline
              (Retriever.baseline_lines
                 (split_lines (universal_newlines report)) false []))
     = executive_summary (length results).
Proof.
  cbv zeta. rewrite report_text_head.
  rewrite universal_newlines_append by apply no_carriage_return_report_head.
  split; [reflexivity |].
  destruct (report_body_head E results errs) as (u & [-> | ->]).
  - apply (report_head_baseline _ _ (universal_newlines u));
      [apply no_newline_strftime_ymd | apply no_newline_pretty_nat |].
    left. reflexivity.
  - apply (report_head_baseline _ _ (universal_newlines u));
      [apply no_newline_strftime_ymd | apply no_newline_pretty_nat |].
    right. reflexivity.
Qed.

(** X20. The baseline text that [get_baseline_text] extracts from a report
    written by [generate_report] is the paragraph of its executive summary
    and nothing else: it depends on the number of entities of that report
    only, not on what was found about any of them, nor on the errors or the
    date. *)
Theorem generated_report_baseline (E : Env) (results : list dict)
    (errs : option (list dict)) (w0 w : world) (name : string) :
  Retriever.get_report_content name w
  = Some (fst (Report.generate_report E results errs w0)) ->
  Retriever.get_baseline_text name w = Some (executive_summary (length results)).
Proof.
  intros Hc. unfold Retriever.get_baseline_text. rewrite Hc.
  unfold Report.generate_report, datetime_now. simpl fst.
  set (d := strftime_ymd (now E (clock_reads w0))).
  assert (Hne : String.eqb (Report.report_text E d results errs) "" = false)
    by reflexivity.
  rewrite Hne. f_equal.
  apply report_text_baseline, no_newline_strftime_ymd.
Qed.

Lemma generated_report_baseline_witness :
  let E := sample_env seconds_clock 1 in
  let w := initial_world (ConfigParsed (mk_config (Some two_entities) false)) in
  Retriever.get_baseline_text "2026-02-18_Intelligence.md"
    (snd (Monitor.run_workflow E w))
  = Some (executive_summary 2).
Proof.
  intros E w.
  apply (generated_report_baseline E
           (Monitor.process_all E two_entities [] [] w).1.1
           (Some (Monitor.process_all E two_entities [] [] w).1.2)
           (Monitor.process_all E two_entities [] [] w).2).
  vm_compute. reflexivity.
Defined.
(** ** Entities with a baseline *)

Section DiffPath.

Import Monitor.

Variable E : Env.

Lemma fetch_and_classify_with_baseline (name url : pyval) (result : dict)
    (w : world) (text b : string) :
  fetch E url = Ok (Some text) -> text <> "" ->
  baseline_text E w (clock_reads w) = Some b -> b <> "" ->
  diff_calls (snd (fetch_and_classify E name url result w))
  = diff_calls w ++ [(text, b)]
  /\ match Differ.calculate_similarity E text b with
     | Ok r =>
         let result' := fst (fetch_and_classify E name url result w) in
         result' !! "similarity_percentage"
         = Some (VFloat (Differ.similarity_percentage r))
         /\ result' !! "shift_classification"
            = Some (VStr (Differ.shift_classification r))
         /\ result' !! "is_strategic_shift"
            = Some (VBool (Differ.is_strategic_shift r))
         /\ errors (snd (fetch_and_classify E name url result w)) = errors w
     | Raise e =>
         fst (fetch_and_classify E name url result w) !! "findings"
         = Some (VStr ("Error: " +:+ e))
     end.
Proof.
  intros Hfetch Htext Hbase Hb. unfold fetch_and_classify. rewrite Hfetch.
  assert (Hne : String.eqb text "" = false) by (by apply String.eqb_neq).
  assert (Hbne : String.eqb b "" = false) by (by apply String.eqb_neq).
  simpl. rewrite Hne. simpl.
  unfold baseline_text in Hbase.
  unfold Retriever.find_latest_report, datetime_now. simpl.
  destruct (reports_dir w) as [files |] eqn:Hdir; [| discriminate].
  destruct (Retriever.scan (now E (clock_reads w)) files) as [p |] eqn:Hscan;
    [| discriminate].
  destruct (scan_some_dated _ _ _ Hscan) as [d Hd]. rewrite Hd.
  assert (Hsame : Retriever.get_baseline_text p (set_clock_reads (S (clock_reads w)) w)
                  = Retriever.get_baseline_text p w) by reflexivity.
  rewrite Hsame, Hbase. simpl. rewrite Hbne. simpl.
  unfold Differ.diff_texts.
  destruct (Differ.calculate_similarity E text b) as [r | e]; simpl.
  - split; [reflexivity |].
    destruct (Differ.is_strategic_shift r); by simplify_map_eq.
  - unfold on_exception, Errors.log_script_error, Errors.log_error, datetime_now.
    simpl. split; [reflexivity | by simplify_map_eq].
Qed.

End DiffPath.

(** X21. When the text of an entity has been fetched and the store yields
    a baseline text for it, [process_competitor] calls the classifier once,
    on the fetched text and that baseline; the similarity, the
    classification and the flag of the result are those the classifier
    returned, and nothing is logged; if the classifier raises, the findings
    report the exception. *)
Theorem process_competitor_diffs_against_baseline (E : Env) (c : dict)
    (w : world) (text b : string) :
  fetch E (py_get c "url" (VStr "")) = Ok (Some text) -> text <> "" ->
  baseline_text E w (3 + clock_reads w) = Some b -> b <> "" ->
  let result := fst (Monitor.process_competitor E c w) in
  let w' := snd (Monitor.process_competitor E c w) in
  diff_calls w' = diff_calls w ++ [(text, b)]
  /\ match Differ.calculate_similarity E text b with
     | Ok r =>
         result !! "similarity_percentage"
         = Some (VFloat (Differ.similarity_percentage r))
         /\ result !! "shift_classification"
            = Some (VStr (Differ.shift_classification r))
         /\ result !! "is_strategic_shift"
            = Some (VBool (Differ.is_strategic_shift r))
         /\ errors w' = errors w
     | Raise e => result !! "findings" = Some (VStr ("Error: " +:+ e))
     end.
Proof.
  intros Hfetch Htext Hbase Hb result w'. subst result w'.
  destruct (process_competitor_eq E c w) as (w2 & -> & He & Hr & Hd & _ & Hk & _).
  assert (Hbase2 : baseline_text E w2 (clock_reads w2) = Some b).
  { rewrite Hk. unfold baseline_text, Retriever.get_baseline_text,
      Retriever.get_report_content in *. by rewrite Hr. }
  destruct (fetch_and_classify_with_baseline E
              (py_get c "name" (VStr "Unknown")) (py_get c "url" (VStr ""))
              (Monitor.initial_result (py_get c "name" (VStr "Unknown"))
                 (py_get c "url" (VStr "")) (strftime_ymd (now E (clock_reads w))))
              w2 text b Hfetch Htext Hbase2 Hb) as [H1 H2].
  rewrite H1, Hd. split; [reflexivity |].
  destruct (Differ.calculate_similarity E text b); [| exact H2].
  cbv zeta in H2. by rewrite <- He.
Qed.

(** The entity [A] on the day after a first report was filed: its page is
    compared with the summary paragraph of that report. *)
Lemma process_competitor_diffs_against_baseline_witness :
  let E := sample_env seconds_clock (1 # 2) in
  let w :=
    mk_world 0 [] [] [] [] []
      (Some [mk_file "2026-02-17_Intelligence.md"
               (Some (Report.report_text E "2026-02-17" [] None))])
      ConfigMissing [] in
  diff_calls (snd (Monitor.process_competitor E
                     (<["name" := VStr "A"]> {["url" := VStr "https://a.example"]}) w))
  = [("Fast payments for small teams", executive_summary 0)].
Proof.
  intros E w.
  apply (process_competitor_diffs_against_baseline E
           (<["name" := VStr "A"]> {["url" := VStr "https://a.example"]}) w
           "Fast payments for small teams" (executive_summary 0)).
  - reflexivity.
  - discriminate.
  - vm_compute. reflexivity.
  - discriminate.
Defined.
(** ** From one run to the next *)

Section SecondRun.

Import Monitor.

Variable E : Env.

Lemma process_all_length (cs results errs : list dict) (w : world) :
  length (process_all E cs results errs w).1.1 = (length results + length cs)%nat.
Proof.
  pose proof (process_all_names E cs results errs w) as H.
  apply (f_equal length) in H.
  by rewrite length_app, !length_fmap in H.
Qed.

(** The directory that a run over a fresh workspace leaves behind. *)
Lemma run_workflow_first_report (w : world) (cs : list dict) (others : bool) :
  config_file w = ConfigParsed (mk_config (Some cs) others) -> cs <> [] ->
  reports_dir w = Some [] ->
  (forall name, open_error E name = None) ->
  (forall name content, write_error E name content = None) ->
  exists (k : nat) (results : list dict) (errs : option (list dict)),
    (k < clock_reads (snd (run_workflow E w)))%nat
    /\ length results = length cs
    /\ reports_dir (snd (run_workflow E w))
       = Some [mk_file (Organizer.generate_filename_for (now E k))
                 (Some (Report.report_text E (strftime_ymd (now E (Nat.pred k)))
                          results errs))].
Proof.
  intros Hcfg Hne Hdir Ho Hw.
  rewrite (run_workflow_processing E w cs others Hcfg Hne).
  destruct (process_all_spec E cs [] [] w) as (new & _ & _ & Hdir1 & _).
  pose proof (process_all_length cs [] [] w) as Hlen.
  destruct (process_all E cs [] [] w) as [[results errs] w1].
  simpl in Hdir1, Hlen.
  unfold Report.generate_report, save_to_reports_dir, write_text,
    Organizer.generate_filename, datetime_now. simpl.
  rewrite Hdir1, Hdir, Ho, Hw. simpl.
  exists (S (clock_reads w1)), results, (Some errs).
  split; [lia |]. split; [exact Hlen |]. reflexivity.
Qed.

End SecondRun.

(** X27. From the second run on, every entity is compared with the
    boilerplate of the previous report.  After a run over [N >= 1] entities
    in a workspace whose reports directory was empty, and as long as the
    directory is not touched, [process_competitor] passes to the classifier,
    for every entity whose text it fetches, that text and the executive
    summary paragraph of the report on [N] competitors; the clock is assumed
    to show valid calendar days with a year of four digits and to have moved
    on from the start of the day of the first run, and the report to have
    been written (its file opened and the write completed). *)
Theorem second_run_compares_with_summary (E : Env) (w w2 : world)
    (cs : list dict) (others : bool) (c : dict) (text : string) :
  config_file w = ConfigParsed (mk_config (Some cs) others) -> cs <> [] ->
  reports_dir w = Some [] ->
  (forall k, valid_date (now E k)) ->
  (forall name, open_error E name = None) ->
  (forall name content, write_error E name content = None) ->
  (forall i j, (i < j)%nat -> datetime_lt (midnight (now E i)) (now E j)) ->
  reports_dir w2 = reports_dir (snd (Monitor.run_workflow E w)) ->
  (clock_reads (snd (Monitor.run_workflow E w)) <= clock_reads w2)%nat ->
  fetch E (py_get c "url" (VStr "")) = Ok (Some text) -> text <> "" ->
  diff_calls (snd (Monitor.process_competitor E c w2))
  = diff_calls w2 ++ [(text, executive_summary (length cs))].
Proof.
  intros Hcfg Hne Hdir Hvalid Ho Hw Hclock Hdir2 Hk2 Hfetch Htext.
  destruct (run_workflow_first_report E w cs others Hcfg Hne Hdir Ho Hw)
    as (k & results & errs & Hk & Hlen & Hrd).
  rewrite Hrd in Hdir2.
  destruct (process_competitor_eq E c w2) as (v & -> & _ & Hr & Hd & _ & Hkv & _).
  destruct (filename_reads_back (now E k) (Hvalid k)) as (_ & _ & Hsd & _).
  assert (Hbase : baseline_text E v (clock_reads v)
                  = Some (executive_summary (length cs))).
  { unfold baseline_text. rewrite Hr, Hdir2.
    assert (Hscan : Retriever.scan (now E (clock_reads v))
                      [mk_file (Organizer.generate_filename_for (now E k))
                         (Some (Report.report_text E
                                  (strftime_ymd (now E (Nat.pred k))) results errs))]
                    = Some (Organizer.generate_filename_for (now E k))).
    { unfold Retriever.scan. simpl. rewrite scan_step_stored. simpl. rewrite Hsd.
      assert (Hlt : datetime_ltb (midnight (now E k)) (now E (clock_reads v)) = true)
        by (apply datetime_ltb_spec, Hclock; lia).
      by rewrite Hlt. }
    rewrite Hscan.
    set (report := Report.report_text E (strftime_ymd (now E (Nat.pred k)))
                     results errs) in *.
    assert (Hcontent : Retriever.get_report_content
                         (Organizer.generate_filename_for (now E k)) v
                       = Some (universal_newlines report)).
    { unfold Retriever.get_report_content. rewrite Hr, Hdir2.
      cbn [List.find file_name file_content]. by rewrite String.eqb_refl. }
    unfold Retriever.get_baseline_text. rewrite Hcontent.
    destruct (report_read_back_baseline E (now E (Nat.pred k)) results errs)
      as [Hne0 Hbase].
    fold report in Hne0, Hbase.
    rewrite Hne0, <- Hlen. f_equal. exact Hbase. }
  destruct (fetch_and_classify_with_baseline E
              (py_get c "name" (VStr "Unknown")) (py_get c "url" (VStr ""))
              (Monitor.initial_result (py_get c "name" (VStr "Unknown"))
                 (py_get c "url" (VStr "")) (strftime_ymd (now E (clock_reads w2))))
              v text (executive_summary (length cs)) Hfetch Htext Hbase)
    as [H1 _].
  - unfold executive_summary. discriminate.
  - by rewrite H1, Hd.
Qed.

(** The entity [A] right after the first run over the two sample
    entities. *)
Lemma second_run_compares_with_summary_witness :
  let E := sample_env seconds_clock (1 # 2) in
  let w := initial_world (ConfigParsed (mk_config (Some two_entities) false)) in
  let w1 := snd (Monitor.run_workflow E w) in
  diff_calls (snd (Monitor.process_competitor E
                     (<["name" := VStr "A"]> {["url" := VStr "https://a.example"]}) w1))
  = diff_calls w1 ++ [("Fast payments for small teams", executive_summary 2)].
Proof.
  intros E w w1.
  apply (second_run_compares_with_summary E w w1 two_entities false
           (<["name" := VStr "A"]> {["url" := VStr "https://a.example"]})
           "Fast payments for small teams").
  - reflexivity.
  - discriminate.
  - reflexivity.
  - intros k. unfold valid_date, days_in_month, is_leap. simpl. lia.
  - reflexivity.
  - reflexivity.
  - intros i j Hij. unfold datetime_lt, midnight, fields. simpl.
    rewrite !lexico_cons. lia.
  - reflexivity.
  - apply Nat.le_refl.
  - reflexivity.
  - discriminate.
Defined.
(** ** What a report contains *)

Section ContainsFacts.

Lemma contains_unfold (s needle : string) :
  contains s needle
  = String.prefix needle s
    || match s with
       | String _ rest => contains rest needle
       | EmptyString => false
       end.
Proof. by destruct s. Qed.

Lemma contains_here (needle x : string) : contains (needle +:+ x) needle = true.
Proof. by rewrite contains_unfold, prefix_append. Qed.

Lemma contains_append_r (a s needle : string) :
  contains s needle = true -> contains (a +:+ s) needle = true.
Proof.
  intros H. induction a as [| c a IH]; [exact H |].
  change (contains (String c (a +:+ s)) needle = true).
  rewrite contains_unfold, IH. apply orb_true_r.
Qed.

Lemma contains_append_l (s b needle : string) :
  contains s needle = true -> contains (s +:+ b) needle = true.
Proof.
  induction s as [| c s IH]; intros H.
  - rewrite contains_unfold in H. rewrite orb_false_r in H.
    rewrite contains_unfold, (prefix_append_l _ _ b H). reflexivity.
  - rewrite contains_unfold in H. apply orb_prop in H as [H | H].
    + rewrite contains_unfold, (prefix_append_l _ _ b H). reflexivity.
    + change (contains (String c (s +:+ b)) needle = true).
      rewrite contains_unfold, (IH H). apply orb_true_r.
Qed.

Lemma contains_join (sep x : string) (l : list string) :
  x ∈ l -> contains (join sep l) x = true.
Proof.
  induction l as [| p l IH]; intros Hin; [by apply elem_of_nil in Hin |].
  assert (Hj : join sep (p :: l)
               = match l with [] => p | _ => p +:+ sep +:+ join sep l end)
    by (by destruct l).
  rewrite Hj. apply elem_of_cons in Hin as [-> | Hin].
  - destruct l; [| apply contains_here].
    rewrite <- (append_nil_r p) at 1. apply contains_here.
  - destruct l as [| q l]; [by apply elem_of_nil in Hin |].
    do 2 apply contains_append_r. by apply IH.
Qed.

End ContainsFacts.

Lemma report_text_contains_section (E : Env) (date : string)
    (results : list dict) (errs : option (list dict)) (r : dict) :
  r ∈ results ->
  contains (Report.report_text E date results errs)
           (Report._generate_competitor_section E r) = true.
Proof.
  intros Hr. unfold Report.report_text. cbv zeta.
  do 5 apply contains_append_r. apply contains_append_l.
  apply contains_join. unfold Report.competitor_sections.
  apply list_elem_of_In, in_map. by apply list_elem_of_In.
Qed.

Lemma report_text_contains_error_line (E : Env) (date : string)
    (results errs : list dict) (e : dict) :
  e ∈ errs ->
  contains (Report.report_text E date results (Some errs))
           (Report.error_line E e) = true.
Proof.
  intros He. unfold Report.report_text. cbv zeta.
  do 7 apply contains_append_r. apply contains_append_l.
  unfold Report._generate_error_section. simpl default.
  destruct errs as [| e0 errs]; [by apply elem_of_nil in He |].
  apply contains_append_l, contains_join. right.
  apply list_elem_of_In, in_map. by apply list_elem_of_In.
Qed.

(** X25. Nothing that is handed to [generate_report] is left out of the
    report: the text contains the section of every result, and the line of
    the error summary for every error; when there is no error it contains
    the sentence that says so. *)
Theorem report_includes_every_section (E : Env) (results errs : list dict)
    (w : world) :
  let report := fst (Report.generate_report E results (Some errs) w) in
  (forall r, r ∈ results ->
     contains report (Report._generate_competitor_section E r) = true)
  /\ (forall e, e ∈ errs -> contains report (Report.error_line E e) = true)
  /\ (errs = [] -> contains report Report.no_errors_section = true).
Proof.
  unfold Report.generate_report, datetime_now. cbv zeta. cbn [fst].
  split; [| split].
  - intros r Hr. by apply report_text_contains_section.
  - intros e He. by apply report_text_contains_error_line.
  - intros ->. unfold Report.report_text. cbv zeta.
    do 7 apply contains_append_r. apply contains_here.
Qed.

Section CrashFacts.

Import Monitor.

Variable E : Env.

Lemma fetch_and_classify_crash (name url : pyval) (result : dict) (w : world)
    (e : string) :
  fetch E url = Raise e ->
  fst (fetch_and_classify E name url result w)
  = <["findings" := VStr ("Error: " +:+ e)]> result.
Proof.
  intros H. unfold fetch_and_classify. rewrite H.
  unfold on_exception, Errors.log_script_error, Errors.log_error, datetime_now.
  reflexivity.
Qed.

(** Every configured entity has its result among the results of the run. *)
Lemma process_all_results (cs results errs : list dict) (w : world) (c : dict) :
  c ∈ cs ->
  exists w_c, fst (process_competitor E c w_c) ∈ (process_all E cs results errs w).1.1.
Proof.
  revert results errs w. induction cs as [| c0 rest IH]; intros results errs w Hin;
    [by apply elem_of_nil in Hin |].
  rewrite process_all_cons.
  apply elem_of_cons in Hin as [-> | Hin]; [| by apply IH].
  exists w.
  match goal with
  | |- context [process_all E rest ?rs ?es ?w1] =>
      destruct (process_all_spec E rest rs es w1) as (new & -> & _)
  end.
  apply elem_of_app. left. apply elem_of_app. right. by apply list_elem_of_singleton.
Qed.

End CrashFacts.

(** X26. An entity whose page cannot be fetched because the browser raises
    is reported: the report that the run returns contains, in its error
    summary, the line with the name of the entity and [Error: ] followed by
    the text of the exception. *)
Theorem crashed_entity_is_reported (E : Env) (w : world) (cs : list dict)
    (others : bool) (c : dict) (e : string) :
  config_file w = ConfigParsed (mk_config (Some cs) others) ->
  c ∈ cs ->
  fetch E (py_get c "url" (VStr "")) = Raise e ->
  exists report,
    fst (Monitor.run_workflow E w) = Ok report
    /\ contains report
         ("- **" +:+ py_str (float_repr E) (configured_name c)
          +:+ "**: Error: " +:+ e)
       = true.
Proof.
  intros Hcfg Hc Hfetch.
  assert (Hne : cs <> []) by (intros ->; by apply elem_of_nil in Hc).
  rewrite (run_workflow_processing E w cs others Hcfg Hne).
  destruct (process_all_results E cs [] [] w c Hc) as (w_c & Hres).
  destruct (process_all_spec E cs [] [] w) as (new & Hnew & Herrs & _).
  destruct (Monitor.process_all E cs [] [] w) as [[results errs] w1].
  simpl in Hres, Hnew, Herrs. subst results errs.
  unfold Report.generate_report, datetime_now. cbv zeta. cbn [fst].
  eexists. split; [reflexivity |].
  set (result := fst (Monitor.process_competitor E c w_c)) in *.
  assert (Hfind : result !! "findings" = Some (VStr ("Error: " +:+ e))
                  /\ result !! "competitor_name" = Some (configured_name c)).
  { subst result. split; [| apply process_competitor_name].
    destruct (process_competitor_eq E c w_c) as (w2 & -> & _).
    rewrite (fetch_and_classify_crash E _ _ _ _ e Hfetch). by simplify_map_eq. }
  destruct Hfind as [Hf Hn].
  assert (Hin : error_entry result
                ∈ map error_entry (List.filter Monitor.findings_is_error new)).
  { apply list_elem_of_In, in_map, filter_In.
    split; [by apply list_elem_of_In |].
    by rewrite (findings_is_error_lookup _ _ Hf). }
  pose proof (report_text_contains_error_line E
                (strftime_ymd (now E (clock_reads w1))) new _
                (error_entry result) Hin) as Hcontains.
  unfold Report.error_line, error_entry, py_get in Hcontains.
  rewrite Hf, Hn in Hcontains. simplify_map_eq. exact Hcontains.
Qed.

Lemma crashed_entity_is_reported_witness :
  let E := mk_env seconds_clock (fun _ => "")
             (fun _ => Raise "browser closed") (fun _ _ => Ok ([], []))
             (fun _ _ => Ok 1%Q) None (fun _ => None) (fun _ => "")
             (fun _ _ => None) in
  let w := initial_world (ConfigParsed (mk_config (Some two_entities) false)) in
  exists report,
    fst (Monitor.run_workflow E w) = Ok report
    /\ contains report "- **B**: Error: browser closed" = true.
Proof.
  intros E w.
  pose proof (crashed_entity_is_reported E w two_entities false
                (<["name" := VStr "B"]> {["url" := VStr "https://b.example"]})
                "browser closed" eq_refl) as H.
  assert (Hname : py_str (float_repr E)
                    (configured_name
                       (<["name" := VStr "B"]> {["url" := VStr "https://b.example"]}))
                  = "B") by (vm_compute; reflexivity).
  rewrite Hname in H. apply H.
  - right. left.
  - reflexivity.
Defined.
(** ** Configuration failures *)

Section ConfigurationFacts.

Import Monitor.

Variable E : Env.






End ConfigurationFacts.


